(** * IMMerge, step 01: [get_SNP_list.py]

    A shallow embedding of the merge-and-decide pipeline of
    [src/get_SNP_list.py] together with the properties stated about it.

    The script is written against pandas.  A DataFrame is modelled row by
    row: one record per row, the per-cohort columns [index_groupX],
    [ALT_Frq_groupX], [MAF_groupX], [Rsq_groupX] being the X-th element
    (counted from 1) of the field [groups].  Column-wise pandas operations
    become maps over the rows.

    Numbers: a float64 cell is modelled as an exact rational, extended with
    NaN and the two infinities.  Rounding, overflow and the sign of zero are
    not modelled. *)

From Stdlib Require Import List ZArith QArith Qfield String Ascii Bool Lia.
From Stdlib Require Import Permutation Sorted.
From stdpp Require Import base decidable countable gmap strings list.
Import ListNotations.

Local Open Scope string_scope.
Local Open Scope list_scope.

(** ** Exceptions *)

Inductive exn : Type :=
| IndexError   (* list index out of range *)
| KeyError     (* column not in the frame *)
| TypeError
| AttributeError
| ValueError   (* list.index: value not in list *)
| IOError.     (* file not found *)

Inductive result (A : Type) : Type :=
| Raise (e : exn)
| Return (a : A).
Arguments Raise {A} e.
Arguments Return {A} a.

(** Sequencing: an exception ends the computation.  Written [x ← m; k]. *)
#[export] Instance result_bind : MBind result := fun A B k m =>
  match m with
  | Raise e => Raise e
  | Return a => k a
  end.

Definition returns {A : Type} (m : result A) : Prop :=
  match m with Return _ => True | Raise _ => False end.

(** ** float64, without rounding *)

Inductive float64 : Type :=
| NaN
| Inf (neg : bool)          (* [Inf false] is +inf, [Inf true] is -inf *)
| Fin (q : Q).

Definition Qneg (q : Q) : bool := negb (Qle_bool 0 q).
Definition Qzero (q : Q) : bool := Qeq_bool q 0.

Definition of_int (z : Z) : float64 := Fin (inject_Z z).

Definition fadd (x y : float64) : float64 :=
  match x, y with
  | NaN, _ | _, NaN => NaN
  | Inf s, Inf t => if Bool.eqb s t then Inf s else NaN
  | Inf s, Fin _ | Fin _, Inf s => Inf s
  | Fin a, Fin b => Fin (a + b)
  end.

Definition fmul (x y : float64) : float64 :=
  match x, y with
  | NaN, _ | _, NaN => NaN
  | Inf s, Inf t => Inf (xorb s t)
  | Inf s, Fin q | Fin q, Inf s => if Qzero q then NaN else Inf (xorb s (Qneg q))
  | Fin a, Fin b => Fin (a * b)
  end.

Definition fdiv (x y : float64) : float64 :=
  match x, y with
  | NaN, _ | _, NaN => NaN
  | Inf _, Inf _ => NaN
  | Inf s, Fin q => Inf (xorb s (Qneg q))
  | Fin _, Inf _ => Fin 0
  | Fin a, Fin b =>
      if Qzero b then (if Qzero a then NaN else Inf (Qneg a))
      else Fin (a / b)
  end.

(** [x >= y] and [x < y]; every comparison with NaN is False. *)
Definition fge (x y : float64) : bool :=
  match x, y with
  | NaN, _ | _, NaN => false
  | Inf s, Inf t => implb s t
  | Inf s, Fin _ => negb s
  | Fin _, Inf t => t
  | Fin a, Fin b => Qle_bool b a
  end.

Definition flt (x y : float64) : bool :=
  match x, y with
  | NaN, _ | _, NaN => false
  | Inf s, Inf t => s && negb t
  | Inf s, Fin _ => s
  | Fin _, Inf t => negb t
  | Fin a, Fin b => negb (Qle_bool b a)
  end.

Definition isna (x : float64) : bool :=
  match x with NaN => true | _ => false end.
Definition notna (x : float64) : bool := negb (isna x).

(** Equality of values, rationals being compared by [Qeq]. *)
Definition feq (x y : float64) : Prop :=
  match x, y with
  | NaN, NaN => True
  | Inf s, Inf t => s = t
  | Fin a, Fin b => (a == b)%Q
  | _, _ => False
  end.

(** A number as read from a table: a rational or missing. *)
Definition finite_or_nan (x : float64) : Prop :=
  match x with Inf _ => False | _ => True end.

(** Row-wise [sum(axis=1)] of pandas: NaN cells are skipped, the sum of no
    cell is 0. *)
Definition nansum (xs : list float64) : float64 :=
  fold_left fadd (List.filter notna xs) (Fin 0).

(** Row-wise [mean(axis=1)] of pandas: the mean of the cells that are not
    NaN, and NaN when there is none. *)
Definition nanmean (xs : list float64) : float64 :=
  fdiv (nansum xs) (of_int (Z.of_nat (length (List.filter notna xs)))).

(** ** Cells and tables *)

(** A cell of a frame read with [dtype='str']: text, or a number (NaN for a
    missing field, and any float once the column is made numeric). *)
Inductive cell : Type :=
| Str (s : string)
| Num (x : float64).

Definition na : cell := Num NaN.

(** The four identity columns ['SNP', 'REF(0)', 'ALT(1)', 'Genotyped'];
    [None] is a missing field, which pandas joins with other missing ones. *)
Definition key : Type :=
  (option string * option string * option string * option string)%type.

(** A row of a cohort's .info.gz table.  Other columns of the file are
    dropped by [cols_to_keep] and are not represented. *)
Record info_row : Type := {
  SNP : option string;
  REF : option string;
  ALT : option string;
  Genotyped : option string;
  ALT_Frq : cell;
  MAF : cell;
  Rsq : cell
}.

Definition info_df : Type := list info_row.

Definition key_of (r : info_row) : key := (SNP r, REF r, ALT r, Genotyped r).

(** The columns of cohort X in the merged frame. *)
Record group_cols : Type := {
  index_g : option nat;   (* index_groupX: row position, None is NaN *)
  ALT_Frq_g : cell;
  MAF_g : cell;
  Rsq_g : cell
}.

Definition na_group : group_cols :=
  {| index_g := None; ALT_Frq_g := na; MAF_g := na; Rsq_g := na |}.

Record merged_row : Type := {
  mkey : key;
  groups : list group_cols
}.

(** [df.reset_index()[cols_to_keep]]: the RangeIndex of the table becomes
    the column 'index'. *)
Fixpoint reset_index_from (i : nat) (df : info_df) : list (key * group_cols) :=
  match df with
  | [] => []
  | r :: df' =>
      (key_of r, {| index_g := Some i; ALT_Frq_g := ALT_Frq r;
                    MAF_g := MAF r; Rsq_g := Rsq r |})
        :: reset_index_from (S i) df'
  end.

Definition reset_index (df : info_df) : list (key * group_cols) :=
  reset_index_from 0 df.

(** ** [DataFrame.merge(how='outer', on=keys)] *)

Section OuterMerge.
Context {A B : Type}.

Definition key_eqb (k1 k2 : key) : bool := bool_decide (k1 = k2).

(** Keys in the order of their first occurrence. *)
Fixpoint first_seen (seen : list key) (ks : list key) : list key :=
  match ks with
  | [] => []
  | k :: ks' =>
      if bool_decide (k ∈ seen) then first_seen seen ks'
      else k :: first_seen (k :: seen) ks'
  end.

Definition rows_of {C : Type} (k : key) (t : list (key * C)) : list C :=
  List.map snd (List.filter (fun kc => key_eqb (fst kc) k) t).

(** The rows of the result for one key: every left row with the key
    paired with every right row with the key; a side without the key
    contributes a missing entry. *)
Definition join_group (left : list (key * A)) (right : list (key * B))
    (k : key) : list (key * option A * option B) :=
  match rows_of k left, rows_of k right with
  | ls, [] => List.map (fun a => (k, Some a, None)) ls
  | [], rs => List.map (fun b => (k, None, Some b)) rs
  | ls, rs =>
      List.flat_map (fun a => List.map (fun b => (k, Some a, Some b)) rs) ls
  end.

(** The join visits the keys in the order in which they first occur in
    the left table followed by the right table: pandas numbers the keys as
    it meets them (the merge is called with the default [sort=False]) and
    emits the rows key by key.  Releases of pandas that sort the keys of an
    outer join give the same rows in another order; of the properties
    below only the order of the rows written depends on it. *)
Definition outer_merge (left : list (key * A)) (right : list (key * B))
    : list (key * option A * option B) :=
  List.flat_map (join_group left right)
    (first_seen [] (List.map fst left ++ List.map fst right)).
End OuterMerge.

(** ** [__merge_snps] *)

(** The merged frame: the number of cohorts whose columns it has, and its
    rows in order (the index of the frame is the row position). *)
Record DataFrame : Type := {
  n_groups : nat;
  rows : list merged_row
}.

(** [df_merged] is bound to the string [''] before the loop. *)
Inductive pyval : Type :=
| PyStr (s : string)
| Frame (df : DataFrame).

(** The merge of the first and second table (the branch [i==0]): the
    columns of the two sides get the suffixes [_group1] and [_group2]. *)
Definition merge_first (df1 df2 : info_df) : DataFrame :=
  {| n_groups := 2;
     rows := List.map
       (fun kab : key * option group_cols * option group_cols =>
          let '(k, a, b) := kab in
          {| mkey := k; groups := [default na_group a; default na_group b] |})
       (outer_merge (reset_index df1) (reset_index df2)) |}.

(** The merge of the running frame with the next table (the branch
    [else]): the columns of the table are renamed to the next group.  A row
    of the table whose key is new has NaN in every column of the frame. *)
Definition merge_next (df_merged : DataFrame) (df : info_df) : DataFrame :=
  {| n_groups := S (n_groups df_merged);
     rows := List.map
       (fun kab : key * option (list group_cols) * option group_cols =>
          let '(k, a, b) := kab in
          {| mkey := k;
             groups := default (repeat na_group (n_groups df_merged)) a
                         ++ [default na_group b] |})
       (outer_merge (List.map (fun r => (mkey r, groups r)) (rows df_merged))
                    (reset_index df)) |}.

(** The iterations of the [while] loop with [i >= 2]; [rest] is
    [lst_info_df[i:]].  A column name [index_groupX] is represented by X. *)
Fixpoint merge_rest (i : nat) (df_merged : DataFrame) (lst_index_cols : list nat)
    (rest : list info_df) : DataFrame * list nat :=
  match rest with
  | [] => (df_merged, lst_index_cols)
  | df :: rest' =>
      merge_rest (S i) (merge_next df_merged df) (lst_index_cols ++ [i + 1]) rest'
  end.

Definition __merge_snps (lst_info_df : list info_df) : result (pyval * list nat) :=
  match lst_info_df with
  | [] => Return (PyStr "", [])
  | df1 :: rest =>
      match rest with
      | [] => Raise IndexError                      (* lst_info_df[i+1] *)
      | df2 :: rest' =>
          let '(df_merged, lst_index_cols) :=
            merge_rest 2 (merge_first df1 df2) [1; 2] rest' in
          Return (Frame df_merged, lst_index_cols)
      end
  end.

(** ** Series *)

(** A column taken out of a frame, or a mask: one value per row, in the
    order of the rows. *)
Definition Series (A : Type) : Type := list A.

(** [df[cols].sum(axis=1)]: for each of the [m] rows, the sum of the cells
    of the row in the columns [cols], NaN cells skipped. *)
Definition sum_axis1 (m : nat) (cols : list (Series float64)) : Series float64 :=
  List.map (fun j => nansum (List.map (fun c => nth j c NaN) cols)) (seq 0 m).

(** [df[cols].mean(axis=1)]. *)
Definition mean_axis1 (m : nat) (cols : list (Series float64)) : Series float64 :=
  List.map (fun j => nanmean (List.map (fun c => nth j c NaN) cols)) (seq 0 m).

(** ** Number of individuals of a genotype file *)

Fixpoint lstrip (s : string) : string :=
  match s with
  | EmptyString => EmptyString
  | String c s' => if Ascii.is_space c then lstrip s' else s
  end.

(** [str.strip()], for ASCII white space. *)
Definition strip (s : string) : string :=
  String.rev (lstrip (String.rev (lstrip s))).

(** [readline().strip()] until the line does not start with ['##'];
    [readline] gives [''] at the end of the file. *)
Fixpoint skip_header (lines : list string) : string :=
  match lines with
  | [] => EmptyString
  | l :: lines' =>
      let line := strip l in
      if String.prefix "##" line then skip_header lines' else line
  end.

(** [lst.index(x)] *)
Fixpoint list_index (x : string) (l : list string) : result nat :=
  match l with
  | [] => Raise ValueError
  | y :: l' => if String.eqb y x then Return 0%nat
               else i ← list_index x l'; Return (S i)
  end.

(** The body of the loop over [lst_input_fn], on the lines of one file:
    the number of columns after the column FORMAT of the header line. *)
Definition number_of_individuals (lines : list string) : result Z :=
  let line := skip_header lines in
  let lst_tmp := String.words line in
  start_pos ← list_index "FORMAT" lst_tmp;
  let total_len := length lst_tmp in
  Return (Z.of_nat total_len - (Z.of_nat start_pos + 1))%Z.

(** ** Configuration *)

(** The dictionary [dict_flags], for the options this step reads. *)
Record dict_flags : Type := {
  flag_input : list string;       (* '--input' *)
  flag_output : string;           (* '--output' *)
  flag_missing : Z;               (* '--missing' *)
  flag_r2_threshold : Q;          (* '--r2_threshold', a number *)
  flag_r2_output : string;        (* '--r2_output' *)
  flag_na_rep : string            (* '--na_rep' *)
}.

(** ** Columns of the merged frame *)

(** The columns of group X in a row (X counted from 1). *)
Definition group (X : nat) (r : merged_row) : group_cols :=
  nth (X - 1) (groups r) na_group.

Definition has_group (df : DataFrame) (X : nat) : bool :=
  (1 <=? X)%nat && (X <=? n_groups df)%nat.

(** [df[name]] for a cohort column: [KeyError] when the frame has no such
    column. *)
Definition col {A : Type} (f : group_cols -> A) (X : nat) (df : DataFrame)
    : result (Series A) :=
  if has_group df X then Return (List.map (fun r => f (group X r)) (rows df))
  else Raise KeyError.

(** The numbers of a column that has been made numeric. *)
Fixpoint floats (s : Series cell) : result (Series float64) :=
  match s with
  | [] => Return []
  | Num x :: s' => xs ← floats s'; Return (x :: xs)
  | Str _ :: _ => Raise TypeError
  end.

Definition float_col (f : group_cols -> cell) (X : nat) (df : DataFrame)
    : result (Series float64) :=
  c ← col f X df; floats c.

(** [s.isna()] and [s.notna()] on the cells of a column. *)
Definition cell_isna (c : cell) : bool :=
  match c with Num x => isna x | Str _ => false end.
Definition cell_notna (c : cell) : bool := negb (cell_isna c).

(** Assignment to the three measurement columns of group X. *)
Definition set_group (X : nat) (f : group_cols -> group_cols) (df : DataFrame)
    : DataFrame :=
  {| n_groups := n_groups df;
     rows := List.map (fun r => {| mkey := mkey r;
                                   groups := alter f (X - 1) (groups r) |})
                      (rows df) |}.

(** [for x in xs: st = body(st, x)], an exception leaving the loop. *)
Fixpoint for_each {S X : Type} (body : S -> X -> result S) (xs : list X) (st : S)
    : result S :=
  match xs with
  | [] => Return st
  | x :: xs' => st' ← body st x; for_each body xs' st'
  end.

(** [lst[i]] *)
Definition list_get {A : Type} (l : list A) (i : nat) : result A :=
  match l !! i with
  | Some a => Return a
  | None => Raise IndexError
  end.

Definition Zsum (l : list Z) : Z := fold_left Z.add l 0%Z.

(** ** [__calculate_weighted_r2_maf_altFrq] *)

(** The four lists of temporary columns built by the loop over the groups:
    [Rsq_groupX_adj], [MAF_groupX_adj], [ALT_Frq_groupX_adj] and
    [Rsq_groupX_weight_adj]. *)
Record adj_cols : Type := {
  lst_r2_adj : list (Series float64);
  lst_maf_adj : list (Series float64);
  lst_alt_frq_adj : list (Series float64);
  lst_weight_adj : list (Series float64)
}.

(** The columns [ALT_Frq_combined], [MAF_combined] and [Rsq_combined]. *)
Record combined_cols : Type := {
  alt_frq_combined : Series float64;
  maf_combined : Series float64;
  r2_combined : Series float64
}.

Definition adj_step (df_merged : DataFrame) (lst_number_of_individuals : list Z)
    (acc : adj_cols) (i : nat) : result adj_cols :=
  r2 ← float_col Rsq_g (i + 1) df_merged;
  maf ← float_col MAF_g (i + 1) df_merged;
  alt_frq ← float_col ALT_Frq_g (i + 1) df_merged;
  n ← list_get lst_number_of_individuals i;
  Return
    {| lst_r2_adj := lst_r2_adj acc ++ [List.map (fun x => fmul x (of_int n)) r2];
       lst_maf_adj := lst_maf_adj acc ++ [List.map (fun x => fmul x (of_int n)) maf];
       lst_alt_frq_adj :=
         lst_alt_frq_adj acc ++ [List.map (fun x => fmul x (of_int n)) alt_frq];
       lst_weight_adj :=
         lst_weight_adj acc
           ++ [List.map (fun x => fdiv (fmul (of_int n) x) x) r2] |}.

(** Lines 99 to 128, the numbers of individuals being known. *)
Definition weighted_columns (df_merged : DataFrame) (n_input : nat)
    (lst_number_of_individuals : list Z) : result combined_cols :=
  adj ← for_each (adj_step df_merged lst_number_of_individuals) (seq 0 n_input)
        {| lst_r2_adj := []; lst_maf_adj := []; lst_alt_frq_adj := [];
           lst_weight_adj := [] |};
  let m := length (rows df_merged) in
  let total := of_int (Zsum lst_number_of_individuals) in
  Return
    {| alt_frq_combined :=
         List.map (fun s => fdiv s total) (sum_axis1 m (lst_alt_frq_adj adj));
       maf_combined :=
         List.map (fun s => fdiv s total) (sum_axis1 m (lst_maf_adj adj));
       r2_combined :=
         zip_with fdiv (sum_axis1 m (lst_r2_adj adj))
                       (sum_axis1 m (lst_weight_adj adj)) |}.

Section Files.
(** [gzip.open(fn, 'rt')]: the lines of the file, [None] when it cannot
    be opened. *)
Variable gzip_open : string -> option (list string).

(** Lines 87 to 97. *)
Fixpoint count_individuals (lst_input_fn : list string) : result (list Z) :=
  match lst_input_fn with
  | [] => Return []
  | fn :: fns =>
      match gzip_open fn with
      | None => Raise IOError
      | Some lines =>
          n ← number_of_individuals lines;
          ns ← count_individuals fns;
          Return (n :: ns)
      end
  end.

Definition __calculate_weighted_r2_maf_altFrq (df_merged : DataFrame)
    (lst_input_fn : list string) : result (combined_cols * list Z) :=
  lst_number_of_individuals ← count_individuals lst_input_fn;
  cols ← weighted_columns df_merged (length lst_input_fn)
           lst_number_of_individuals;
  Return (cols, lst_number_of_individuals).
End Files.

(** ** Order reconstruction (lines 171 and 172) *)

(** [df_merged[lst_index_cols]], row by row. *)
Definition index_frame (df_merged : DataFrame) (lst_index_cols : list nat)
    : result (list (list (option nat))) :=
  if forallb (has_group df_merged) lst_index_cols
  then Return (List.map (fun r => List.map (fun X => index_g (group X r))
                                            lst_index_cols) (rows df_merged))
  else Raise KeyError.

(** One row of [fillna(method='ffill')]: a missing cell takes the value of
    the same column in the row above, as already filled. *)
Fixpoint fill_row (above r : list (option nat)) : list (option nat) :=
  match r with
  | [] => []
  | v :: r' =>
      (match v with Some _ => v | None => hd None above end)
        :: fill_row (tl above) r'
  end.

Fixpoint ffill (above : list (option nat)) (rs : list (list (option nat)))
    : list (list (option nat)) :=
  match rs with
  | [] => []
  | r :: rs' => let r' := fill_row above r in r' :: ffill r' rs'
  end.

(** [sum(axis=1)] on positions: missing cells are skipped. *)
Definition sum_present (r : list (option nat)) : Z :=
  Zsum (List.map Z.of_nat (omap id r)).

Definition sum_index_column (idx : list (list (option nat))) : Series Z :=
  List.map sum_present (ffill [] idx).

(** [sort_values(by=..., ignore_index=True)]: a sorted copy.  Rows with
    equal keys are left in the order of the frame here; pandas does not
    promise an order for them. *)
Fixpoint insert_by_key {A : Type} (x : Z * A) (l : list (Z * A)) : list (Z * A) :=
  match l with
  | [] => [x]
  | y :: l' => if (fst x <=? fst y)%Z then x :: y :: l'
               else y :: insert_by_key x l'
  end.

Definition sort_values {A : Type} (l : list (Z * A)) : list (Z * A) :=
  fold_right insert_by_key [] l.

(** ** The enriched frame and the tables written *)

Record csv_group : Type := {
  c_index : option (option nat);   (* [None]: the column has been dropped *)
  c_ALT_Frq : cell;
  c_MAF : cell;
  c_Rsq : cell
}.

(** A row of [df_merged] at the end of [__process_output], with its index
    label. *)
Record out_row : Type := {
  label : nat;
  o_key : key;
  o_groups : list csv_group;
  sum_index_NA_ffilled : Z;
  Rsq_combined : cell;
  MAF_combined : option float64;      (* [None]: no such column *)
  ALT_Frq_combined : option float64
}.

Definition csv_of (g : group_cols) : csv_group :=
  {| c_index := Some (index_g g); c_ALT_Frq := ALT_Frq_g g;
     c_MAF := MAF_g g; c_Rsq := Rsq_g g |}.

Definition na_csv : csv_group := csv_of na_group.

Definition frame_row (sums : Series Z) (r2c : Series cell)
    (mafc altc : option (Series float64)) (j : nat) (r : merged_row) : out_row :=
  {| label := j;
     o_key := mkey r;
     o_groups := List.map csv_of (groups r);
     sum_index_NA_ffilled := nth j sums 0%Z;
     Rsq_combined := nth j r2c na;
     MAF_combined := (fun s => nth j s NaN) <$> mafc;
     ALT_Frq_combined := (fun s => nth j s NaN) <$> altc |}.

(** [df.drop(columns=lst_index_cols)] on one row. *)
Definition drop_index_cols (lst_index_cols : list nat) (row : out_row) : out_row :=
  {| label := label row;
     o_key := o_key row;
     o_groups := imap (fun i g =>
                   if bool_decide (S i ∈ lst_index_cols)
                   then {| c_index := None; c_ALT_Frq := c_ALT_Frq g;
                           c_MAF := c_MAF g; c_Rsq := c_Rsq g |}
                   else g) (o_groups row);
     sum_index_NA_ffilled := sum_index_NA_ffilled row;
     Rsq_combined := Rsq_combined row;
     MAF_combined := MAF_combined row;
     ALT_Frq_combined := ALT_Frq_combined row |}.

(** [df[mask]] *)
Definition select_mask (mask : Series bool) (t : list out_row) : list out_row :=
  List.filter (fun row => nth (label row) mask false) t.

(** [[f(a) for a in l]], an exception ending the loop. *)
Fixpoint map_result {A B : Type} (f : A -> result B) (l : list A) : result (list B) :=
  match l with
  | [] => Return []
  | a :: l' => b ← f a; bs ← map_result f l'; Return (b :: bs)
  end.

(** The index of a frame, as far as [.iloc] looks at it: its labels, and
    whether its dtype is an integer one.  The merge gives a frame with rows
    the labels 0, 1, ... (int64) and gives a frame without rows an empty
    index of dtype object. *)
Record Index : Type := {
  is_integer : bool;
  values : list nat
}.

(** [df.iloc[inx, :]]: the rows at the positions [inx].  Positions are
    integers: an indexer of dtype object is refused with [IndexError], also
    when it is empty, and so is a position outside the frame. *)
Definition iloc (inx : Index) (t : list out_row) : result (list out_row) :=
  if is_integer inx then
    map_result (fun j => match t !! j with
                         | Some row => Return row
                         | None => Raise IndexError
                         end) (values inx)
  else Raise IndexError.

(** [df.drop(index=inx)] *)
Definition drop_rows (inx : list nat) (t : list out_row) : list out_row :=
  List.filter (fun row => negb (bool_decide (label row ∈ inx))) t.

(** The number of cells that are not NaN in the Rsq columns of the groups
    [lst_col_names] of a row. *)
Definition count_notna (lst_col_names : list nat) (row : out_row) : Z :=
  Z.of_nat (length (List.filter cell_notna
     (List.map (fun X => c_Rsq (nth (X - 1) (o_groups row) na_csv)) lst_col_names))).

(** [df[lst_col_names].dropna(thresh=thresh).index]: the labels of the
    rows that have at least [thresh] cells that are not NaN, an index of
    the dtype of the index of the frame. *)
Definition dropna_index (lst_col_names : list nat) (thresh : Z) (t : list out_row)
    : Index :=
  {| is_integer := match t with [] => false | _ :: _ => true end;
     values :=
       List.map label
         (List.filter (fun row => (thresh <=? count_notna lst_col_names row)%Z) t) |}.

(** What [__process_output] leaves behind: the two tables written, the
    values returned, and the frame [df_merged] as mutated by the call
    together with the attribute bound at line 172. *)
Record output : Type := {
  variants_kept : list out_row;
  variants_excluded : list out_row;
  lst_number_of_individuals : list Z;
  df_index_variant_kept : list (nat * option string * list (option (option nat)));
  df_merged_final : list out_row;
  df_merged_sort_values : list (Z * merged_row)
}.

(** [df[['SNP'] + lst_index_cols]] on one row. *)
Definition index_row (lst_index_cols : list nat) (row : out_row)
    : nat * option string * list (option (option nat)) :=
  (label row, fst (fst (fst (o_key row))),
   List.map (fun X => c_index (nth (X - 1) (o_groups row) na_csv)) lst_index_cols).

(** ** [__process_output] *)

Section Pipeline.
(** [pd.to_numeric(..., errors='coerce')] on one text field: the number
    the text denotes, NaN when it denotes none. *)
Variable to_numeric : string -> float64.
Variable gzip_open : string -> option (list string).

Definition cell_to_numeric (c : cell) : cell :=
  match c with
  | Str s => Num (to_numeric s)
  | Num x => Num x
  end.

(** Lines 179 to 181 on the cells of one row. *)
Definition to_numeric_group (g : group_cols) : group_cols :=
  {| index_g := index_g g;
     ALT_Frq_g := cell_to_numeric (ALT_Frq_g g);
     MAF_g := cell_to_numeric (MAF_g g);
     Rsq_g := cell_to_numeric (Rsq_g g) |}.

(** The variables updated by the loop over the groups.  A mask is [None]
    while it is still the string ['']. *)
Record loop_state : Type := {
  st_df : DataFrame;
  mask_to_keep : option (Series bool);
  mask_to_exclude : option (Series bool);
  lst_col_names : list nat
}.

(** [mask & s] and [mask | s] *)
Definition mask_op (op : bool -> bool -> bool) (mask : option (Series bool))
    (s : Series bool) : result (option (Series bool)) :=
  match mask with
  | Some m => Return (Some (zip_with op m s))
  | None => Raise TypeError
  end.

(** The body of the loop of lines 174 to 198. *)
Definition loop_body (flags : dict_flags) (st : loop_state) (i : nat)
    : result loop_state :=
  let X := (i + 1)%nat in
  if negb (has_group (st_df st) X) then Raise KeyError else
  let df := set_group X to_numeric_group (st_df st) in
  masks ←
    (if (flag_missing flags =? 0)%Z then
       r2 ← float_col Rsq_g X df;
       masks1 ←
         (if (i =? 0)%nat then
            Return (Some (List.map notna r2), Some (List.map isna r2))
          else
            keep ← mask_op andb (mask_to_keep st) (List.map notna r2);
            excl ← mask_op orb (mask_to_exclude st) (List.map isna r2);
            Return (keep, excl));
       if negb (Qeq_bool (flag_r2_threshold flags) 0) then
         let thr := Fin (flag_r2_threshold flags) in
         keep ← mask_op andb (fst masks1) (List.map (fun x => fge x thr) r2);
         excl ← mask_op orb (snd masks1) (List.map (fun x => flt x thr) r2);
         Return (keep, excl)
       else Return masks1
     else Return (mask_to_keep st, mask_to_exclude st));
  Return {| st_df := df;
            mask_to_keep := fst masks;
            mask_to_exclude := snd masks;
            lst_col_names := lst_col_names st ++ [X] |}.

(** Lines 205 to 212: the column Rsq_combined, the columns MAF_combined
    and ALT_Frq_combined when they are computed, and the numbers of
    individuals. *)
Definition combine_r2 (flags : dict_flags) (st : loop_state)
    : result (Series cell * option (Series float64) * option (Series float64)
              * list Z) :=
  let df := st_df st in
  if String.eqb (flag_r2_output flags) "first" then
    c ← col Rsq_g 1 df;
    Return (c, None, None, [])
  else if String.eqb (flag_r2_output flags) "weighted_average" then
    r ← __calculate_weighted_r2_maf_altFrq gzip_open df (flag_input flags);
    Return (List.map Num (r2_combined (fst r)), Some (maf_combined (fst r)),
            Some (alt_frq_combined (fst r)), snd r)
  else
    cols ← map_result (fun X => float_col Rsq_g X df) (lst_col_names st);
    Return (List.map Num (mean_axis1 (length (rows df)) cols), None, None, []).

Definition __process_output (df_merged : DataFrame) (flags : dict_flags)
    (lst_index_cols : list nat) : result output :=
  let missing := flag_missing flags in
  idx ← index_frame df_merged lst_index_cols;
  let sums := sum_index_column idx in
  (* the sorted copy is bound to the attribute [sort_values] of the frame;
     the frame keeps its rows in place *)
  let attr_sort_values := sort_values (List.combine sums (rows df_merged)) in
  st ← for_each (loop_body flags) (seq 0 (length (flag_input flags)))
         {| st_df := df_merged; mask_to_keep := None; mask_to_exclude := None;
            lst_col_names := [] |};
  c ← combine_r2 flags st;
  let '(r2c, mafc, altc, ns) := c in
  let table := imap (frame_row sums r2c mafc altc) (rows (st_df st)) in
  let written := List.map (drop_index_cols lst_index_cols) table in
  if (missing =? 0)%Z then
    match mask_to_keep st, mask_to_exclude st with
    | Some keep, Some excl =>
        Return {| variants_kept := select_mask keep written;
                  variants_excluded := select_mask excl written;
                  lst_number_of_individuals := ns;
                  df_index_variant_kept :=
                    List.map (index_row lst_index_cols) (select_mask keep table);
                  df_merged_final := table;
                  df_merged_sort_values := attr_sort_values |}
    | _, _ => Raise KeyError
    end
  else
    let inx_to_keep :=
      dropna_index (lst_col_names st)
        (Z.of_nat (length (flag_input flags)) - missing) table in
    kept ← iloc inx_to_keep written;
    let excluded := drop_rows (values inx_to_keep) written in
    index_kept ← iloc inx_to_keep table;
    Return {| variants_kept := kept;
              variants_excluded := excluded;
              lst_number_of_individuals := ns;
              df_index_variant_kept := List.map (index_row lst_index_cols) index_kept;
              df_merged_final := table;
              df_merged_sort_values := attr_sort_values |}.

(** ** [get_snp_list] *)

(** [pd.read_csv(info_fn, sep='\t', compression='gzip', dtype='str')],
    [None] when the file cannot be read. *)
Variable read_csv : string -> option info_df.

(** [s.split(sep)[0]] *)
Fixpoint split_first (sep s : string) : string :=
  match s with
  | EmptyString => EmptyString
  | String c s' =>
      if String.prefix sep s then EmptyString else String c (split_first sep s')
  end.

Definition __get_lst_info_df (flags : dict_flags) : result (list info_df) :=
  map_result (fun fn =>
                match read_csv (split_first ".dose" fn ++ ".info.gz") with
                | Some df => Return df
                | None => Raise IOError
                end) (flag_input flags).

Definition get_snp_list (flags : dict_flags) : result output :=
  lst_info_df ← __get_lst_info_df flags;
  m ← __merge_snps lst_info_df;
  match fst m with
  | PyStr _ => Raise AttributeError            (* df_merged.shape *)
  | Frame df_merged => __process_output df_merged flags (snd m)
  end.
End Pipeline.

(** ** Sample data *)

(** A reader of plain decimal numerals ("0.90", "12", "-3.5"), NaN on any
    other text; it stands for [pd.to_numeric] in the examples. *)
Fixpoint read_digits (s : string) (acc : Z) (n : nat) : option (Z * nat) :=
  match s with
  | EmptyString => Some (acc, n)
  | String c s' =>
      match Ascii.is_nat c with
      | Some d => read_digits s' (10 * acc + Z.of_nat d)%Z (S n)
      | None => None
      end
  end.

Fixpoint read_unsigned (s : string) (acc : Z) (seen : bool) : option Q :=
  match s with
  | EmptyString => if seen then Some (inject_Z acc) else None
  | String c s' =>
      if Ascii.eqb c "."%char then
        match read_digits s' acc 0 with
        | Some (v, n) =>
            if seen || (0 <? n)%nat then Some (Qmake v (Z.to_pos (10 ^ Z.of_nat n)))
            else None
        | None => None
        end
      else
        match Ascii.is_nat c with
        | Some d => read_unsigned s' (10 * acc + Z.of_nat d)%Z true
        | None => None
        end
  end.

Definition decimal (s : string) : float64 :=
  match s with
  | String "-"%char s' =>
      match read_unsigned s' 0 false with Some q => Fin (- q) | None => NaN end
  | _ => match read_unsigned s 0 false with Some q => Fin q | None => NaN end
  end.

Definition mk_row (snp r a : string) (frq maf rsq : string) : info_row :=
  {| SNP := Some snp; REF := Some r; ALT := Some a; Genotyped := Some "Imputed";
     ALT_Frq := Str frq; MAF := Str maf; Rsq := Str rsq |}.

Definition snpA := mk_row "chr21:100:A:G" "A" "G".
Definition snpB := mk_row "chr21:200:C:T" "C" "T".
Definition snpC := mk_row "chr21:300:G:A" "G" "A".

Definition cohort1 : info_df :=
  [snpA "0.10" "0.10" "0.90"; snpB "0.20" "0.20" "0.70"].
Definition cohort2 : info_df :=
  [snpC "0.30" "0.30" "0.60"; snpA "0.12" "0.12" "0.80"].
Definition cohort3 : info_df :=
  [snpA "0.11" "0.11" "0.85"; snpC "0.31" "0.31" "0.65"].

(** The header of a genotype file with [n] individuals. *)
Definition vcf_lines (n : nat) : list string :=
  ["##fileformat=VCFv4.1";
   "##filedate=2021.3.1";
   String.concat "" ("#CHROM	POS	ID	REF	ALT	QUAL	FILTER	INFO	FORMAT"
                    :: repeat "	id" n)].

Definition sample_files (fn : string) : option (list string) :=
  if String.eqb fn "c1.dose.vcf.gz" then Some (vcf_lines 100)
  else if String.eqb fn "c2.dose.vcf.gz" then Some (vcf_lines 50)
  else if String.eqb fn "c3.dose.vcf.gz" then Some (vcf_lines 10)
  else None.

Definition sample_tables (fn : string) : option info_df :=
  if String.eqb fn "c1.info.gz" then Some cohort1
  else if String.eqb fn "c2.info.gz" then Some cohort2
  else if String.eqb fn "c3.info.gz" then Some cohort3
  else None.

Definition sample_flags (inputs : list string) (missing : Z) (thr : Q)
    (mode : string) : dict_flags :=
  {| flag_input := inputs; flag_output := "out"; flag_missing := missing;
     flag_r2_threshold := thr; flag_r2_output := mode; flag_na_rep := "NA" |}.

(** ** Sets of identity keys *)

(** The union of the sets of identity keys of the tables. *)
Definition key_union (lst_info_df : list info_df) : gset key :=
  ⋃ (List.map (fun t => list_to_set (List.map key_of t)) lst_info_df).

(** A table in which one variant is listed twice. *)
Definition cohort_dup : info_df :=
  [snpA "0.10" "0.10" "0.90"; snpB "0.20" "0.20" "0.70";
   snpA "0.15" "0.15" "0.50"].

Definition dup_tables (fn : string) : option info_df :=
  if String.eqb fn "c1.info.gz" then Some cohort_dup
  else if String.eqb fn "c2.info.gz" then Some cohort2
  else None.

Definition keyA : key := key_of (snpA "" "" "").

(** ** Classification, row by row *)

(** The Rsq cell of group X in a row of the enriched frame, and the number
    in it. *)
Definition r2_cell (X : nat) (row : out_row) : cell :=
  c_Rsq (nth (X - 1) (o_groups row) na_csv).

Definition cell_value (c : cell) : float64 :=
  match c with Num x => x | Str _ => NaN end.

Definition r2_value (X : nat) (row : out_row) : float64 :=
  cell_value (r2_cell X row).

(** The keep mask the loop builds when '--missing' is 0, on one row: the
    conjunction over the groups 1 to N. *)
Definition keep_row (N : nat) (thr : Q) (row : out_row) : bool :=
  forallb (fun X => notna (r2_value X row)
                    && (if negb (Qeq_bool thr 0) then fge (r2_value X row) (Fin thr)
                        else true))
          (seq 1 N).

(** The exclude mask on one row: the disjunction over the groups. *)
Definition exclude_row (N : nat) (thr : Q) (row : out_row) : bool :=
  existsb (fun X => isna (r2_value X row)
                    || (if negb (Qeq_bool thr 0) then flt (r2_value X row) (Fin thr)
                        else false))
          (seq 1 N).

(** Number of groups among 1 to N in which the Rsq of the row is present. *)
Definition present_count (N : nat) (row : out_row) : Z :=
  count_notna (seq 1 N) row.

(** The decision taken on a row of the enriched frame. *)
Definition classify (flags : dict_flags) (row : out_row) : bool :=
  let N := length (flag_input flags) in
  if (flag_missing flags =? 0)%Z then keep_row N (flag_r2_threshold flags) row
  else (Z.of_nat N - flag_missing flags <=? present_count N row)%Z.

(** The same flags with another threshold. *)
Definition with_threshold (thr : Q) (flags : dict_flags) : dict_flags :=
  {| flag_input := flag_input flags; flag_output := flag_output flags;
     flag_missing := flag_missing flags; flag_r2_threshold := thr;
     flag_r2_output := flag_r2_output flags; flag_na_rep := flag_na_rep flags |}.

(** ** The frame after the loop over the groups *)

Section Conversion.
Variable to_numeric : string -> float64.

(** The number in a cell once its column is numeric. *)
Definition num_of (c : cell) : float64 :=
  cell_value (cell_to_numeric to_numeric c).

(** A row after the first [n] groups have been made numeric. *)
Definition convert_row (n : nat) (r : merged_row) : merged_row :=
  {| mkey := mkey r;
     groups := imap (fun j g => if (j <? n)%nat then to_numeric_group to_numeric g
                                else g) (groups r) |}.

Definition convert (n : nat) (df : DataFrame) : DataFrame :=
  {| n_groups := n_groups df; rows := List.map (convert_row n) (rows df) |}.

(** The Rsq of group X of a row of the merged frame, as a number. *)
Definition r2_src (X : nat) (r : merged_row) : float64 :=
  num_of (Rsq_g (group X r)).

Definition keep_src (n : nat) (thr : Q) (r : merged_row) : bool :=
  forallb (fun X => notna (r2_src X r)
                    && (if negb (Qeq_bool thr 0) then fge (r2_src X r) (Fin thr)
                        else true))
          (seq 1 n).

Definition exclude_src (n : nat) (thr : Q) (r : merged_row) : bool :=
  existsb (fun X => isna (r2_src X r)
                    || (if negb (Qeq_bool thr 0) then flt (r2_src X r) (Fin thr)
                        else false))
          (seq 1 n).

(** The state of the loop after [n] iterations on the frame [df]. *)
Definition state_after (flags : dict_flags) (df : DataFrame) (n : nat)
    : loop_state :=
  let on := (flag_missing flags =? 0)%Z && (0 <? n)%nat in
  {| st_df := convert n df;
     mask_to_keep :=
       if on then Some (List.map (keep_src n (flag_r2_threshold flags)) (rows df))
       else None;
     mask_to_exclude :=
       if on then Some (List.map (exclude_src n (flag_r2_threshold flags)) (rows df))
       else None;
     lst_col_names := seq 1 n |}.
End Conversion.

(** The rows of a table carry their position as index label. *)
Definition labelled (t : list out_row) : Prop :=
  forall j row, t !! j = Some row -> label row = j.

(** The enriched frame [__process_output] computes, given the combined
    columns. *)
Definition final_table (to_numeric : string -> float64) (df : DataFrame)
    (N : nat) (lst_index_cols : list nat) (r2c : Series cell)
    (mafc altc : option (Series float64)) : list out_row :=
  imap (frame_row
          (sum_index_column
             (List.map (fun r => List.map (fun X => index_g (group X r)) lst_index_cols)
                       (rows df)))
          r2c mafc altc)
       (List.map (convert_row to_numeric N) (rows df)).

(** The merge of the three sample tables. *)
Definition sample_df : DataFrame :=
  fst (merge_rest 2 (merge_first cohort1 cohort2) [1; 2] [cohort3]).

Definition three_inputs : list string :=
  ["c1.dose.vcf.gz"; "c2.dose.vcf.gz"; "c3.dose.vcf.gz"].

(** ** Weighted combination, row by row *)

(** The numbers of group X in a row of a frame whose columns are numeric. *)
Definition r2_at (X : nat) (r : merged_row) : float64 := cell_value (Rsq_g (group X r)).
Definition maf_at (X : nat) (r : merged_row) : float64 := cell_value (MAF_g (group X r)).
Definition alt_frq_at (X : nat) (r : merged_row) : float64 :=
  cell_value (ALT_Frq_g (group X r)).

(** [lst_number_of_individuals[i]] as a float. *)
Definition weight (ns : list Z) (i : nat) : float64 := of_int (nth i ns 0%Z).

(** The three combined values of one row, as lines 116 to 128 compute
    them: [val] is the column read ([r2_at], [maf_at] or [alt_frq_at]). *)
Definition adj_sum (val : nat -> merged_row -> float64) (N : nat) (ns : list Z)
    (r : merged_row) : float64 :=
  nansum (List.map (fun i => fmul (val (i + 1) r) (weight ns i)) (seq 0 N)).

Definition weight_adj_sum (N : nat) (ns : list Z) (r : merged_row) : float64 :=
  nansum (List.map (fun i => fdiv (fmul (weight ns i) (r2_at (i + 1) r))
                                  (r2_at (i + 1) r)) (seq 0 N)).

Definition row_r2_combined (N : nat) (ns : list Z) (r : merged_row) : float64 :=
  fdiv (adj_sum r2_at N ns r) (weight_adj_sum N ns r).

Definition row_freq_combined (val : nat -> merged_row -> float64) (N : nat)
    (ns : list Z) (r : merged_row) : float64 :=
  fdiv (adj_sum val N ns r) (of_int (Zsum ns)).

(** *** The formulas of the specification *)

Definition Qsum (l : list Q) : Q := fold_right Qplus 0%Q l.

(** Sum over the cohorts 1 to N of value times sample count, an absent
    value contributing 0. *)
Definition spec_numerator (val : nat -> float64) (N : nat) (ns : list Z) : Q :=
  Qsum (List.map (fun i => match val (i + 1) with
                           | Fin q => (q * inject_Z (nth i ns 0%Z))%Q
                           | _ => 0%Q
                           end) (seq 0 N)).

(** Sum of the sample counts of the cohorts in which the value is present. *)
Definition spec_present_weight (val : nat -> float64) (N : nat) (ns : list Z) : Q :=
  Qsum (List.map (fun i => match val (i + 1) with
                           | NaN => 0%Q
                           | _ => inject_Z (nth i ns 0%Z)
                           end) (seq 0 N)).

(** Sum of the sample counts of the cohorts in which the value is present
    and is not 0. *)
Definition nonzero_present_weight (val : nat -> float64) (N : nat) (ns : list Z) : Q :=
  Qsum (List.map (fun i => match val (i + 1) with
                           | Fin q => if Qzero q then 0%Q else inject_Z (nth i ns 0%Z)
                           | _ => 0%Q
                           end) (seq 0 N)).

(** combined_r2 as the specification defines it. *)
Definition spec_combined_r2 (val : nat -> float64) (N : nat) (ns : list Z) : float64 :=
  fdiv (Fin (spec_numerator val N ns)) (Fin (spec_present_weight val N ns)).

(** combined_maf and combined_alt_freq as the specification defines them:
    the denominator is the sum of all the sample counts. *)
Definition spec_combined_freq (val : nat -> float64) (N : nat) (ns : list Z) : float64 :=
  fdiv (Fin (spec_numerator val N ns)) (of_int (Zsum ns)).

(** The three measurement columns of the groups 1 to N hold numbers. *)
Definition is_num (c : cell) : Prop :=
  match c with Num _ => True | Str _ => False end.

Definition numeric_cols (N : nat) (df : DataFrame) : Prop :=
  forall r X, In r (rows df) -> 1 <= X <= N ->
    is_num (Rsq_g (group X r)) /\ is_num (MAF_g (group X r))
    /\ is_num (ALT_Frq_g (group X r)).

Definition empty_row : merged_row :=
  {| mkey := (None, None, None, None); groups := [] |}.

(** The temporary columns of group i+1 built by [adj_step]. *)
Definition adj_col (df : DataFrame) (ns : list Z)
    (val : nat -> merged_row -> float64) (i : nat) : Series float64 :=
  List.map (fun r => fmul (val (i + 1) r) (weight ns i)) (rows df).

Definition weight_col (df : DataFrame) (ns : list Z) (i : nat) : Series float64 :=
  List.map (fun r => fdiv (fmul (weight ns i) (r2_at (i + 1) r)) (r2_at (i + 1) r))
           (rows df).

(** The rational of a finite value, 0 for the others. *)
Definition fin_part (x : float64) : Q :=
  match x with Fin q => q | _ => 0%Q end.

(** Two tables for the weighted combination: a variant in both cohorts, one
    in each cohort only, one whose Rsq is not a number in either cohort,
    and one whose Rsq is 0 in the first cohort. *)
Definition snpD := mk_row "chr21:400:T:C" "T" "C".
Definition snpZ := mk_row "chr21:500:A:C" "A" "C".

Definition cohort_w1 : info_df :=
  [snpA "0.10" "0.10" "0.90"; snpB "0.20" "0.20" "0.70";
   snpD "0.40" "0.40" "NA"; snpZ "0.00" "0.00" "0.00"].
Definition cohort_w2 : info_df :=
  [snpC "0.30" "0.30" "0.60"; snpA "0.12" "0.12" "0.80";
   snpD "0.42" "0.42" "NA"; snpZ "0.02" "0.02" "0.80"].

Definition weighted_tables (fn : string) : option info_df :=
  if String.eqb fn "c1.info.gz" then Some cohort_w1
  else if String.eqb fn "c2.info.gz" then Some cohort_w2
  else None.

Definition two_inputs : list string := ["c1.dose.vcf.gz"; "c2.dose.vcf.gz"].

(** The merge of the two tables, its columns made numeric. *)
Definition weighted_df : DataFrame :=
  convert decimal 2 (merge_first cohort_w1 cohort_w2).

Definition weighted_row (j : nat) : merged_row := nth j (rows weighted_df) empty_row.

(** ** Counting the rows of a key *)

Definition key_dec : forall x y : key, {x = y} + {x <> y} :=
  fun x y => decide (x = y).

(** Number of rows with key [k]. *)
Definition kcount (k : key) (ks : list key) : nat := count_occ key_dec ks k.

(** Number of rows an outer merge gives to a key that occurs [a] times on
    the left and [b] times on the right. *)
Definition join_count (a b : nat) : nat :=
  match a, b with
  | O, _ => b
  | _, O => a
  | _, _ => a * b
  end.

(** Number of rows of the merge of all the tables for the key [k]. *)
Definition merged_count (k : key) (lst_info_df : list info_df) : nat :=
  fold_left (fun c t => join_count c (kcount k (List.map key_of t))) lst_info_df 0.

Definition tkey {A B : Type} (x : key * option A * option B) : key := fst (fst x).

Definition frame_keys (df : DataFrame) : list key := List.map mkey (rows df).

(** ** Where the cells of the merged frame come from *)

(** The columns a cohort table gives to the merged frame for its row [r] at
    position [p]. *)
Definition cohort_group (p : nat) (r : info_row) : group_cols :=
  {| index_g := Some p; ALT_Frq_g := ALT_Frq r; MAF_g := MAF r; Rsq_g := Rsq r |}.

(** The columns [g] of one cohort in a merged row with key [k] are those of
    a row of the cohort's table [t] that has the key, or are all missing
    and the table has no row with the key. *)
Definition group_from (t : info_df) (k : key) (g : group_cols) : Prop :=
  (exists p r, t !! p = Some r /\ key_of r = k /\ g = cohort_group p r)
  \/ (~ In k (List.map key_of t) /\ g = na_group).

(** The frame has the columns of [n] cohorts in every row. *)
Definition well_formed (n : nat) (df : DataFrame) : Prop :=
  n_groups df = n /\ Forall (fun r => length (groups r) = n) (rows df).

(** What the merge of the tables [ts] keeps true of the frame: every row
    has the columns of all the tables, each group of columns comes from
    the table of its cohort, and every row of every table is in the
    frame. *)
Definition merge_inv (ts : list info_df) (df : DataFrame) : Prop :=
  well_formed (length ts) df
  /\ (forall row i t, In row (rows df) -> ts !! i = Some t ->
        group_from t (mkey row) (nth i (groups row) na_group))
  /\ (forall i t p r, ts !! i = Some t -> t !! p = Some r ->
        exists row, In row (rows df) /\ mkey row = key_of r
                    /\ nth i (groups row) na_group = cohort_group p r).

(** ** File names *)

(** [sep in s] *)
Fixpoint occurs (sep s : string) : bool :=
  String.prefix sep s
  || match s with
     | EmptyString => false
     | String _ s' => occurs sep s'
     end.

(** The name of the .info.gz file read for the input [fn] (line 24). *)
Definition info_name (fn : string) : string :=
  split_first ".dose" fn ++ ".info.gz".

(** A header line of a genotype file starts with ['##'] once stripped. *)
Definition is_comment (l : string) : bool := String.prefix "##" (strip l).

(** The column of sort keys of a frame (line 171). *)
Definition sort_keys (df : DataFrame) (lst_index_cols : list nat) : Series Z :=
  sum_index_column
    (List.map (fun r => List.map (fun X => index_g (group X r)) lst_index_cols)
              (rows df)).

(** The same flags with another allowance '--missing'. *)
Definition with_missing (m : Z) (flags : dict_flags) : dict_flags :=
  {| flag_input := flag_input flags; flag_output := flag_output flags;
     flag_missing := m; flag_r2_threshold := flag_r2_threshold flags;
     flag_r2_output := flag_r2_output flags; flag_na_rep := flag_na_rep flags |}.

(** ** Variants of the frame and of the tables written *)

(** The variants listed in a table: for each row, its index label (the
    position of the variant in the merged frame) and its identity key. *)
Definition ids (t : list out_row) : list (nat * key) :=
  List.map (fun row => (label row, o_key row)) t.

(** The variants of the merged frame, by position. *)
Definition frame_ids (df : DataFrame) : list (nat * key) :=
  imap (fun j r => (j, mkey r)) (rows df).

(** The table [t] lists the variant at position [j] of the frame, whose
    key is [k]. *)
Definition listed (t : list out_row) (j : nat) (k : key) : Prop :=
  exists row, In row t /\ label row = j /\ o_key row = k.

Section Rules.
Variable to_numeric : string -> float64.

(** Number of cohorts among 1 to N in which the Rsq of a variant of the
    merged frame is present (a number once read by [pd.to_numeric]). *)
Definition present_src (N : nat) (r : merged_row) : Z :=
  Z.of_nat (length (List.filter (fun X => notna (r2_src to_numeric X r)) (seq 1 N))).




(** The decision of [__process_output] on a variant of the merged frame. *)
Definition classify_src (flags : dict_flags) (r : merged_row) : bool :=
  let N := length (flag_input flags) in
  if (flag_missing flags =? 0)%Z then keep_src to_numeric N (flag_r2_threshold flags) r
  else (Z.of_nat N - flag_missing flags <=? present_src N r)%Z.

(** The Rsq of the cohorts 1 to N of a variant, as numbers. *)
Definition r2_list (N : nat) (r : merged_row) : list float64 :=
  List.map (fun X => r2_src to_numeric X r) (seq 1 N).
End Rules.

(** The mean of the values that are present: their sum divided by their
    number, and 0/0 when there is none. *)
Definition spec_mean (xs : list float64) : float64 :=
  fdiv (Fin (Qsum (List.map fin_part (List.filter notna xs))))
       (Fin (inject_Z (Z.of_nat (length (List.filter notna xs))))).

(** The state in which the loop over the groups starts. *)
Definition loop_init (df : DataFrame) : loop_state :=
  {| st_df := df; mask_to_keep := None; mask_to_exclude := None;
     lst_col_names := [] |}.

(** The temporary columns with which the loop of
    [__calculate_weighted_r2_maf_altFrq] starts. *)
Definition adj_init : adj_cols :=
  {| lst_r2_adj := []; lst_maf_adj := []; lst_alt_frq_adj := [];
     lst_weight_adj := [] |}.


(** Tables that have a header line and no row. *)
Definition header_only_tables (fn : string) : option info_df := Some [].

(** * Properties *)

(** ** The merge: how often a key occurs in the result *)

Lemma key_eqb_eq (k1 k2 : key) : key_eqb k1 k2 = true <-> k1 = k2.
Proof. unfold key_eqb. apply bool_decide_eq_true. Qed.

Lemma rows_of_length {C : Type} (k : key) (t : list (key * C)) :
  length (rows_of k t) = kcount k (List.map fst t).
Proof.
  unfold rows_of, kcount. rewrite length_map.
  induction t as [|[k' c] t IH]; simpl; [reflexivity|].
  unfold key_eqb at 1. simpl.
  destruct (key_dec k' k) as [->|Hne].
  - rewrite bool_decide_eq_true_2 by reflexivity. simpl. now rewrite IH.
  - rewrite bool_decide_eq_false_2 by assumption. exact IH.
Qed.

Lemma join_group_length {A B : Type} (l : list (key * A)) (r : list (key * B)) k :
  length (join_group l r k)
  = join_count (kcount k (List.map fst l)) (kcount k (List.map fst r)).
Proof.
  unfold join_group. rewrite <- !rows_of_length.
  destruct (rows_of k l) as [|a ls], (rows_of k r) as [|b rs]; simpl;
    rewrite ?length_map; try reflexivity.
  f_equal. rewrite length_app, length_map.
  f_equal.
  induction ls as [|a' ls IH]; simpl; [lia|].
  rewrite length_app. simpl. rewrite length_map, IH. lia.
Qed.

Lemma join_group_keys {A B : Type} (l : list (key * A)) (r : list (key * B)) k :
  Forall (fun x => tkey x = k) (join_group l r k).
Proof.
  unfold join_group. apply List.Forall_forall. intros x Hx.
  destruct (rows_of k l) as [|a ls], (rows_of k r) as [|b rs].
  - contradiction.
  - apply in_map_iff in Hx as [? [<- _]]. reflexivity.
  - apply in_map_iff in Hx as [? [<- _]]. reflexivity.
  - apply in_flat_map in Hx as [a' [_ Hx]].
    apply in_map_iff in Hx as [? [<- _]]. reflexivity.
Qed.

Lemma kcount_app k l1 l2 : kcount k (l1 ++ l2) = kcount k l1 + kcount k l2.
Proof. apply count_occ_app. Qed.

Lemma kcount_all_eq k (l : list key) :
  Forall (fun x => x = k) l -> kcount k l = length l.
Proof.
  induction 1 as [|x l -> _ IH]; [reflexivity|].
  unfold kcount in *. rewrite count_occ_cons_eq by reflexivity. now rewrite IH.
Qed.

Lemma kcount_all_ne k k' (l : list key) :
  k' <> k -> Forall (fun x => x = k') l -> kcount k l = 0.
Proof.
  intros Hne. induction 1 as [|x l -> _ IH]; [reflexivity|].
  unfold kcount in *. rewrite count_occ_cons_neq by assumption. exact IH.
Qed.

Lemma kcount_zero k (l : list key) : ~ In k l <-> kcount k l = 0.
Proof. apply count_occ_not_In. Qed.

(** *** Keys in the order of their first occurrence *)

Lemma first_seen_In seen ks k :
  In k (first_seen seen ks) <-> In k ks /\ ~ In k seen.
Proof.
  revert seen. induction ks as [|k' ks IH]; intros seen; simpl.
  - tauto.
  - destruct (bool_decide (k' ∈ seen)) eqn:E.
    + apply bool_decide_eq_true in E. apply list_elem_of_In in E.
      rewrite IH. split; [tauto|]. intros [[->|H] Hn]; tauto.
    + apply bool_decide_eq_false in E. rewrite list_elem_of_In in E.
      simpl. rewrite IH. simpl. split.
      * intros [->|[H Hn]]; tauto.
      * intros [[->|H] Hn]; [tauto|].
        destruct (key_dec k' k) as [->|Hne]; [tauto|]. right. tauto.
Qed.

Lemma first_seen_NoDup seen ks : NoDup (first_seen seen ks).
Proof.
  revert seen. induction ks as [|k' ks IH]; intros seen; simpl.
  - constructor.
  - destruct (bool_decide (k' ∈ seen)); [apply IH|].
    constructor; [|apply IH].
    rewrite list_elem_of_In, first_seen_In. simpl. tauto.
Qed.

(** *** The outer merge *)

Lemma kcount_flat_map {X : Type} (f : key -> list X) (g : X -> key) k ks :
  (forall k', Forall (fun x => g x = k') (f k')) ->
  NoDup ks ->
  kcount k (List.map g (List.flat_map f ks))
  = if bool_decide (k ∈ ks) then length (f k) else 0.
Proof.
  intros Hf. induction 1 as [|k' ks Hnin Hnd IH]; cbn [List.flat_map List.map].
  - reflexivity.
  - rewrite map_app, kcount_app, IH.
    destruct (key_dec k' k) as [->|Hne].
    + rewrite (bool_decide_eq_true_2 (k ∈ k :: ks)) by apply list_elem_of_here.
      rewrite (bool_decide_eq_false_2 (k ∈ ks)) by assumption.
      rewrite kcount_all_eq, length_map; [lia|].
      apply Forall_map. exact (Hf k).
    + rewrite (kcount_all_ne k k') by (try assumption; apply Forall_map, Hf).
      simpl. rewrite (bool_decide_ext (k ∈ k' :: ks) (k ∈ ks)); [reflexivity|].
      rewrite elem_of_cons. intuition congruence.
Qed.

Lemma kcount_outer_merge {A B : Type} (l : list (key * A)) (r : list (key * B)) k :
  kcount k (List.map tkey (outer_merge l r))
  = join_count (kcount k (List.map fst l)) (kcount k (List.map fst r)).
Proof.
  unfold outer_merge.
  rewrite kcount_flat_map by (apply join_group_keys || apply first_seen_NoDup).
  rewrite join_group_length.
  case_bool_decide as Hin; [reflexivity|].
  rewrite list_elem_of_In, first_seen_In, in_app_iff in Hin.
  assert (Hl : ~ In k (List.map fst l)) by (simpl in Hin; tauto).
  assert (Hr : ~ In k (List.map fst r)) by (simpl in Hin; tauto).
  apply kcount_zero in Hl, Hr. rewrite Hl, Hr. reflexivity.
Qed.

Lemma reset_index_from_keys i (df : info_df) :
  List.map fst (reset_index_from i df) = List.map key_of df.
Proof.
  revert i. induction df as [|r df IH]; intros i; simpl; [reflexivity|].
  now rewrite IH.
Qed.

Lemma reset_index_keys (df : info_df) :
  List.map fst (reset_index df) = List.map key_of df.
Proof. apply reset_index_from_keys. Qed.

Lemma kcount_merge_first k df1 df2 :
  kcount k (frame_keys (merge_first df1 df2))
  = join_count (kcount k (List.map key_of df1)) (kcount k (List.map key_of df2)).
Proof.
  unfold frame_keys, merge_first. simpl. rewrite List.map_map.
  rewrite <- !reset_index_keys, <- kcount_outer_merge.
  f_equal. apply map_ext. now intros [[k' a] b].
Qed.

Lemma kcount_merge_next k df_merged df :
  kcount k (frame_keys (merge_next df_merged df))
  = join_count (kcount k (frame_keys df_merged)) (kcount k (List.map key_of df)).
Proof.
  unfold frame_keys, merge_next. simpl. rewrite List.map_map.
  rewrite <- reset_index_keys.
  replace (List.map mkey (rows df_merged))
    with (List.map fst (List.map (fun r => (mkey r, groups r)) (rows df_merged)))
    by (rewrite List.map_map; reflexivity).
  rewrite <- kcount_outer_merge.
  f_equal. apply map_ext. now intros [[k' a] b].
Qed.

Lemma kcount_merge_rest k rest : forall i df_merged cols,
  kcount k (frame_keys (fst (merge_rest i df_merged cols rest)))
  = fold_left (fun c t => join_count c (kcount k (List.map key_of t))) rest
      (kcount k (frame_keys df_merged)).
Proof.
  induction rest as [|df rest IH]; intros i df_merged cols; simpl; [reflexivity|].
  rewrite IH, kcount_merge_next. reflexivity.
Qed.

(** With two tables or more the merge returns a frame, and a key has as
    many rows in it as the successive outer joins give. *)
Lemma merge_snps_count (lst_info_df : list info_df) :
  2 <= length lst_info_df ->
  exists df_merged lst_index_cols,
    __merge_snps lst_info_df = Return (Frame df_merged, lst_index_cols)
    /\ forall k, kcount k (frame_keys df_merged) = merged_count k lst_info_df.
Proof.
  destruct lst_info_df as [|df1 [|df2 rest]]; simpl; try lia. intros _.
  destruct (merge_rest 2 (merge_first df1 df2) [1; 2] rest) as [df cols] eqn:E.
  exists df, cols. split; [reflexivity|]. intros k.
  change df with (fst (df, cols)). rewrite <- E.
  rewrite kcount_merge_rest, kcount_merge_first. reflexivity.
Qed.

Lemma join_count_le1 a b : a <= 1 -> b <= 1 -> join_count a b = Nat.max a b.
Proof. destruct a as [|[|a]], b as [|[|b]]; simpl; lia. Qed.

Lemma join_count_ge a b : a <= join_count a b /\ b <= join_count a b.
Proof. destruct a, b; simpl; nia. Qed.

(** When no table repeats a key, a key has one row in the merge if some
    table has it and none otherwise. *)
Lemma merged_count_unique k (lst : list info_df) :
  Forall (fun t => NoDup (List.map key_of t)) lst ->
  merged_count k lst
  = if bool_decide (Exists (fun t => k ∈ List.map key_of t) lst) then 1 else 0.
Proof.
  unfold merged_count.
  assert (G : forall c, c <= 1 ->
    Forall (fun t => NoDup (List.map key_of t)) lst ->
    fold_left (fun c t => join_count c (kcount k (List.map key_of t))) lst c
    = if bool_decide (Exists (fun t => k ∈ List.map key_of t) lst) then 1 else c).
  { induction lst as [|t lst IH]; intros c Hc Hnd; cbn [fold_left].
    - rewrite bool_decide_eq_false_2; [reflexivity|]. intros H; inversion H.
    - inversion Hnd as [|? ? Ht Hl]; subst.
      assert (Hk : kcount k (List.map key_of t) <= 1).
      { apply NoDup_ListNoDup in Ht. now apply NoDup_count_occ. }
      rewrite IH by (try assumption; rewrite join_count_le1 by assumption; lia).
      rewrite join_count_le1 by assumption.
      destruct (decide (k ∈ List.map key_of t)) as [Hin|Hnin].
      + rewrite (bool_decide_eq_true_2 (Exists _ (t :: lst)))
          by (now apply Exists_cons_hd).
        assert (kcount k (List.map key_of t) = 1).
        { apply list_elem_of_In in Hin.
          apply (count_occ_In key_dec) in Hin. unfold kcount in *. lia. }
        case_bool_decide; [reflexivity|lia].
      + assert (E : kcount k (List.map key_of t) = 0).
        { apply kcount_zero. now rewrite <- list_elem_of_In. }
        rewrite E, Nat.max_0_r.
        rewrite (bool_decide_ext (Exists (fun t => k ∈ List.map key_of t) (t :: lst))
                  (Exists (fun t => k ∈ List.map key_of t) lst)); [reflexivity|].
        rewrite Exists_cons. tauto. }
  intros Hnd. rewrite G by (assumption || lia).
  case_bool_decide; reflexivity.
Qed.

(** A key has at least as many rows in the merge as in any of the tables. *)
Lemma merged_count_ge k (lst : list info_df) t :
  In t lst -> kcount k (List.map key_of t) <= merged_count k lst.
Proof.
  unfold merged_count.
  assert (Mono : forall l c,
    c <= fold_left (fun c t => join_count c (kcount k (List.map key_of t))) l c).
  { induction l as [|t' l IH]; intros c; simpl; [lia|].
    etransitivity; [|apply IH].
    apply (join_count_ge c (kcount k (List.map key_of t'))). }
  generalize 0. induction lst as [|t' lst IH]; intros c Hin; simpl; [destruct Hin|].
  destruct Hin as [->|Hin]; [|now apply IH].
  etransitivity; [|apply Mono].
  apply (join_count_ge c (kcount k (List.map key_of t))).
Qed.

Lemma elem_of_key_union k (lst : list info_df) :
  k ∈ key_union lst <-> Exists (fun t => k ∈ List.map key_of t) lst.
Proof.
  unfold key_union. rewrite elem_of_union_list, Exists_exists. split.
  - intros [X [HX Hk]]. apply list_elem_of_In, in_map_iff in HX as [t [<- Ht]].
    exists t. rewrite elem_of_list_to_set in Hk.
    split; [now apply list_elem_of_In|assumption].
  - intros [t [Ht Hk]]. exists (list_to_set (List.map key_of t)). split.
    + apply list_elem_of_In.
      apply (in_map (fun t => list_to_set (List.map key_of t))).
      now apply list_elem_of_In.
    + now apply elem_of_list_to_set.
Qed.

(** ** C1 *)

(** C1, as stated, at one table: the merge raises [IndexError] when it
    reads the second table, so no unified table is produced for N = 1. *)
Lemma merge_snps_single_table_raises :
  1 <= length [cohort1]
  /\ Forall (fun t => NoDup (List.map key_of t)) [cohort1]
  /\ __merge_snps [cohort1] = Raise IndexError
  /\ ~ returns (__merge_snps [cohort1]).
Proof.
  split; [simpl; lia|]. split; [|split; [reflexivity|intros []]].
  constructor; [|constructor].
  apply (bool_decide_unpack _). vm_compute. exact I.
Qed.

(** C1 (amended): for every list of N >= 2 cohort tables, each with unique
    identity keys, [__merge_snps] returns a frame in which no identity key
    occurs twice, whose keys are the union of the key sets of the tables,
    and whose number of rows is the size of that union. *)
Theorem merge_snps_row_count (lst_info_df : list info_df) :
  2 <= length lst_info_df ->
  Forall (fun t => NoDup (List.map key_of t)) lst_info_df ->
  exists df_merged lst_index_cols,
    __merge_snps lst_info_df = Return (Frame df_merged, lst_index_cols)
    /\ NoDup (frame_keys df_merged)
    /\ list_to_set (frame_keys df_merged) = key_union lst_info_df
    /\ length (rows df_merged) = size (key_union lst_info_df).
Proof.
  intros Hlen Huniq.
  destruct (merge_snps_count lst_info_df Hlen) as (df & cols & Hret & Hcount).
  exists df, cols. split; [exact Hret|].
  assert (Hnd : NoDup (frame_keys df)).
  { apply NoDup_ListNoDup, (NoDup_count_occ key_dec). intros k.
    fold (kcount k (frame_keys df)).
    rewrite Hcount, merged_count_unique by assumption.
    case_bool_decide; lia. }
  assert (Hset : list_to_set (frame_keys df) = key_union lst_info_df).
  { apply set_eq. intros k.
    rewrite elem_of_list_to_set, elem_of_key_union, list_elem_of_In.
    rewrite (count_occ_In key_dec). fold (kcount k (frame_keys df)).
    rewrite Hcount, merged_count_unique by assumption.
    case_bool_decide; [split; [tauto|lia]|split; [lia|tauto]]. }
  split; [exact Hnd|]. split; [exact Hset|].
  rewrite <- Hset, size_list_to_set by exact Hnd.
  unfold frame_keys. now rewrite length_map.
Qed.

Lemma merge_snps_row_count_witness :
  exists df_merged lst_index_cols,
    __merge_snps [cohort1; cohort2; cohort3]
    = Return (Frame df_merged, lst_index_cols)
    /\ NoDup (frame_keys df_merged)
    /\ list_to_set (frame_keys df_merged) = key_union [cohort1; cohort2; cohort3]
    /\ length (rows df_merged) = size (key_union [cohort1; cohort2; cohort3]).
Proof.
  apply (merge_snps_row_count [cohort1; cohort2; cohort3]).
  - simpl; lia.
  - repeat constructor; apply (bool_decide_unpack _); vm_compute; exact I.
Defined.

(** ** C8 *)

(** C8, as stated, at a first table that lists one variant twice: the
    merge and the whole of [get_snp_list] return, and the merged output has
    the variant on two rows. *)
Lemma duplicate_key_is_merged :
  ~ NoDup (List.map key_of cohort_dup)
  /\ returns (__merge_snps [cohort_dup; cohort2])
  /\ (exists out,
        get_snp_list decimal sample_files dup_tables
          (sample_flags ["c1.dose.vcf.gz"; "c2.dose.vcf.gz"] 1 0 "weighted_average")
        = Return out
        /\ kcount keyA (List.map o_key (variants_kept out)) = 2).
Proof.
  split; [|split].
  - intros H. apply (bool_decide_pack _) in H. vm_compute in H. exact H.
  - exact I.
  - eexists. split; [vm_compute; reflexivity|]. vm_compute. reflexivity.
Qed.

(** C8 (amended): a key listed on more than one row of a cohort table
    raises no error in [__merge_snps]: for two tables or more the merge
    returns a frame, and the key has at least as many rows in it as in that
    table. *)
Theorem merge_snps_keeps_duplicates (lst_info_df : list info_df) t k :
  2 <= length lst_info_df ->
  In t lst_info_df ->
  2 <= kcount k (List.map key_of t) ->
  exists df_merged lst_index_cols,
    __merge_snps lst_info_df = Return (Frame df_merged, lst_index_cols)
    /\ kcount k (List.map key_of t) <= kcount k (frame_keys df_merged)
    /\ ~ NoDup (frame_keys df_merged).
Proof.
  intros Hlen Hin Hdup.
  destruct (merge_snps_count lst_info_df Hlen) as (df & cols & Hret & Hcount).
  exists df, cols. split; [exact Hret|].
  assert (Hge : kcount k (List.map key_of t) <= kcount k (frame_keys df)).
  { rewrite Hcount. now apply merged_count_ge. }
  split; [exact Hge|].
  intros Hnd. apply NoDup_ListNoDup in Hnd.
  pose proof (proj1 (NoDup_count_occ key_dec _) Hnd k) as Hle.
  unfold kcount in *. lia.
Qed.

Lemma merge_snps_keeps_duplicates_witness :
  exists df_merged lst_index_cols,
    __merge_snps [cohort_dup; cohort2] = Return (Frame df_merged, lst_index_cols)
    /\ kcount keyA (List.map key_of cohort_dup) <= kcount keyA (frame_keys df_merged)
    /\ ~ NoDup (frame_keys df_merged).
Proof.
  apply (merge_snps_keeps_duplicates [cohort_dup; cohort2] cohort_dup keyA).
  - simpl; lia.
  - left; reflexivity.
  - vm_compute; lia.
Defined.

(** ** The loop over the groups *)

Lemma bind_return {A B : Type} (a : A) (k : A -> result B) :
  (Return a ≫= k) = k a.
Proof. reflexivity. Qed.

Lemma bind_raise {A B : Type} (e : exn) (k : A -> result B) :
  (Raise e ≫= k) = Raise e.
Proof. reflexivity. Qed.

Lemma bind_inv {A B : Type} (m : result A) (k : A -> result B) b :
  (m ≫= k) = Return b -> exists a, m = Return a /\ k a = Return b.
Proof. destruct m as [e|a]; [discriminate|]. intros H. now exists a. Qed.

Lemma for_each_app {S X : Type} (body : S -> X -> result S) xs ys st :
  for_each body (xs ++ ys) st
  = (st' ← for_each body xs st; for_each body ys st').
Proof.
  revert st. induction xs as [|x xs IH]; intros st; simpl; [reflexivity|].
  destruct (body st x) as [e|st']; simpl; [reflexivity|apply IH].
Qed.

Lemma zip_with_map_same {A B C D : Type} (op : B -> C -> D) (f : A -> B)
    (g : A -> C) (l : list A) :
  zip_with op (List.map f l) (List.map g l) = List.map (fun x => op (f x) (g x)) l.
Proof. induction l as [|x l IH]; simpl; [reflexivity|now rewrite IH]. Qed.

Lemma floats_map_Num {A : Type} (g : A -> float64) (l : list A) :
  floats (List.map (fun x => Num (g x)) l) = Return (List.map g l).
Proof. induction l as [|x l IH]; simpl; [reflexivity|now rewrite IH]. Qed.

Section LoopFacts.
Variable to_numeric : string -> float64.

Abbreviation to_num := (to_numeric_group to_numeric).

Lemma to_numeric_na_group : to_num na_group = na_group.
Proof. reflexivity. Qed.

Lemma convert_zero df : convert to_numeric 0 df = df.
Proof.
  destruct df as [ng rs]. unfold convert. simpl. f_equal.
  induction rs as [|r rs IH]; simpl; [reflexivity|]. rewrite IH. f_equal.
  destruct r as [k gs]. unfold convert_row. simpl. f_equal.
  apply list_eq. intros j. rewrite list_lookup_imap.
  destruct (gs !! j); reflexivity.
Qed.

Lemma alter_convert n (gs : list group_cols) :
  alter to_num n
    (imap (fun j g => if (j <? n)%nat then to_num g else g) gs)
  = imap (fun j g => if (j <? S n)%nat then to_num g else g) gs.
Proof.
  apply list_eq. intros j.
  rewrite list_lookup_imap.
  destruct (decide (j = n)) as [->|Hne].
  - rewrite list_lookup_alter_eq, list_lookup_imap.
    destruct (gs !! n); simpl; [|reflexivity].
    rewrite (proj2 (Nat.ltb_ge n n)) by lia.
    rewrite (proj2 (Nat.ltb_lt n (S n))) by lia. reflexivity.
  - rewrite list_lookup_alter_ne by congruence. rewrite list_lookup_imap.
    destruct (gs !! j); simpl; [|reflexivity].
    destruct (Nat.ltb_spec j n), (Nat.ltb_spec j (S n)); try reflexivity; lia.
Qed.

Lemma set_group_convert n df :
  set_group (n + 1) to_num (convert to_numeric n df) = convert to_numeric (S n) df.
Proof.
  unfold set_group, convert. simpl. f_equal. rewrite List.map_map.
  apply map_ext. intros r. unfold convert_row. simpl. f_equal.
  replace (n + 1 - 1) with n by lia. apply alter_convert.
Qed.

Lemma group_convert_row n X r :
  1 <= X <= n -> group X (convert_row to_numeric n r) = to_num (group X r).
Proof.
  intros HX. unfold group, convert_row. simpl.
  destruct (groups r !! (X - 1)) as [g|] eqn:E.
  - rewrite (nth_lookup_Some _ _ _ _ E).
    erewrite nth_lookup_Some;
      [|rewrite list_lookup_imap, E; simpl; reflexivity].
    rewrite (proj2 (Nat.ltb_lt (X - 1) n)) by lia. reflexivity.
  - rewrite !nth_lookup, list_lookup_imap, E. reflexivity.
Qed.

Lemma float_col_convert n X df :
  1 <= X <= n -> X <= n_groups df ->
  float_col Rsq_g X (convert to_numeric n df)
  = Return (List.map (r2_src to_numeric X) (rows df)).
Proof.
  intros HX Hg. unfold float_col, col, has_group.
  change (n_groups (convert to_numeric n df)) with (n_groups df).
  change (rows (convert to_numeric n df))
    with (List.map (convert_row to_numeric n) (rows df)).
  rewrite (proj2 (Nat.leb_le 1 X)) by lia.
  rewrite (proj2 (Nat.leb_le X (n_groups df))) by lia.
  cbn [andb mbind result_bind]. rewrite List.map_map.
  rewrite (map_ext _ (fun r => Num (r2_src to_numeric X r))).
  - apply floats_map_Num.
  - intros r. rewrite group_convert_row by assumption.
    unfold r2_src, num_of. simpl. now destruct (Rsq_g (group X r)).
Qed.
End LoopFacts.

Section LoopRun.
Variable to_numeric : string -> float64.
Variable flags : dict_flags.

Abbreviation thr := (flag_r2_threshold flags).

Lemma keep_src_S n r :
  keep_src to_numeric (S n) thr r
  = keep_src to_numeric n thr r
    && (notna (r2_src to_numeric (S n) r)
        && (if negb (Qeq_bool thr 0) then fge (r2_src to_numeric (S n) r) (Fin thr)
            else true)).
Proof.
  unfold keep_src. rewrite seq_S, forallb_app. cbn [forallb Nat.add].
  now rewrite andb_true_r.
Qed.

Lemma exclude_src_S n r :
  exclude_src to_numeric (S n) thr r
  = exclude_src to_numeric n thr r
    || (isna (r2_src to_numeric (S n) r)
        || (if negb (Qeq_bool thr 0) then flt (r2_src to_numeric (S n) r) (Fin thr)
            else false)).
Proof.
  unfold exclude_src. rewrite seq_S, existsb_app. cbn [existsb Nat.add].
  now rewrite orb_false_r.
Qed.

Lemma loop_body_step df n :
  n < n_groups df ->
  loop_body to_numeric flags (state_after to_numeric flags df n) n
  = Return (state_after to_numeric flags df (S n)).
Proof.
  intros Hn. unfold loop_body, state_after.
  cbn [st_df mask_to_keep mask_to_exclude lst_col_names].
  assert (Hg : has_group (convert to_numeric n df) (n + 1) = true).
  { unfold has_group. change (n_groups (convert to_numeric n df)) with (n_groups df).
    apply andb_true_intro. split; apply Nat.leb_le; lia. }
  rewrite Hg. cbn [negb]. rewrite set_group_convert.
  replace (seq 1 n ++ [n + 1]) with (seq 1 (S n))
    by (rewrite seq_S; do 2 f_equal; lia).
  destruct (flag_missing flags =? 0)%Z; cbn [andb].
  2:{ reflexivity. }
  rewrite float_col_convert by lia. rewrite bind_return.
  replace (n + 1) with (S n) by lia.
  set (r2 := r2_src to_numeric (S n)).
  assert (Hk : forall r, keep_src to_numeric (S n) thr r
               = keep_src to_numeric n thr r
                 && (notna (r2 r) && (if negb (Qeq_bool thr 0)
                                      then fge (r2 r) (Fin thr) else true)))
    by apply keep_src_S.
  assert (He : forall r, exclude_src to_numeric (S n) thr r
               = exclude_src to_numeric n thr r
                 || (isna (r2 r) || (if negb (Qeq_bool thr 0)
                                     then flt (r2 r) (Fin thr) else false)))
    by apply exclude_src_S.
  change (0 <? S n)%nat with true. cbv iota.
  destruct n as [|n].
  - change (0 =? 0)%nat with true. cbv iota. rewrite bind_return.
    destruct (negb (Qeq_bool thr 0)) eqn:Et; cbn [fst snd mask_op];
      rewrite ?bind_return; cbn [fst snd];
      rewrite ?List.map_map, ?zip_with_map_same; do 2 f_equal;
      f_equal; apply map_ext; intros r; rewrite ?Hk, ?He;
      cbn; now rewrite ?andb_true_r, ?orb_false_r.
  - change (S n =? 0)%nat with false. change (0 <? S n)%nat with true.
    cbv iota. cbn [mask_op]. rewrite !bind_return.
    destruct (negb (Qeq_bool thr 0)) eqn:Et; cbn [fst snd mask_op];
      rewrite ?bind_return; cbn [fst snd];
      rewrite ?List.map_map, ?zip_with_map_same; do 2 f_equal;
      f_equal; apply map_ext; intros r; rewrite ?Hk, ?He;
      now rewrite ?andb_true_r, ?orb_false_r, ?andb_assoc, ?orb_assoc.
Qed.

Lemma state_after_zero df :
  state_after to_numeric flags df 0
  = {| st_df := df; mask_to_keep := None; mask_to_exclude := None;
       lst_col_names := [] |}.
Proof.
  unfold state_after. change (0 <? 0)%nat with false.
  rewrite andb_false_r, convert_zero. reflexivity.
Qed.

Lemma loop_run_from df n :
  n <= n_groups df ->
  for_each (loop_body to_numeric flags) (seq 0 n) (state_after to_numeric flags df 0)
  = Return (state_after to_numeric flags df n).
Proof.
  induction n as [|n IH]; intros Hn; [reflexivity|].
  rewrite seq_S, for_each_app, IH by lia. rewrite bind_return.
  cbn [for_each Nat.add]. rewrite loop_body_step by lia. reflexivity.
Qed.

(** The loop over N groups on a frame that has them all. *)
Lemma loop_run df n :
  n <= n_groups df ->
  for_each (loop_body to_numeric flags) (seq 0 n)
    {| st_df := df; mask_to_keep := None; mask_to_exclude := None;
       lst_col_names := [] |}
  = Return (state_after to_numeric flags df n).
Proof. rewrite <- state_after_zero. apply loop_run_from. Qed.

(** The loop raises [KeyError] on a frame that lacks one of the groups. *)
Lemma loop_missing_group df n :
  n_groups df < n ->
  for_each (loop_body to_numeric flags) (seq 0 n)
    {| st_df := df; mask_to_keep := None; mask_to_exclude := None;
       lst_col_names := [] |}
  = Raise KeyError.
Proof.
  intros Hn. replace n with (n_groups df + S (n - S (n_groups df))) by lia.
  rewrite seq_app, for_each_app, loop_run by lia. rewrite bind_return.
  cbn [seq for_each Nat.add].
  assert (Hb : loop_body to_numeric flags
                 (state_after to_numeric flags df (n_groups df)) (n_groups df)
               = Raise KeyError).
  { unfold loop_body. cbn [st_df state_after].
    assert (Hg : has_group (convert to_numeric (n_groups df) df) (n_groups df + 1)
                 = false).
    { unfold has_group.
      change (n_groups (convert to_numeric (n_groups df) df)) with (n_groups df).
      apply andb_false_intro2. apply Nat.leb_gt. lia. }
    rewrite Hg. reflexivity. }
  rewrite Hb. reflexivity.
Qed.
End LoopRun.

(** ** Selecting rows *)

Lemma filter_map_comm {A B : Type} (p : B -> bool) (f : A -> B) (l : list A) :
  List.filter p (List.map f l) = List.map f (List.filter (fun a => p (f a)) l).
Proof.
  induction l as [|a l IH]; simpl; [reflexivity|].
  destruct (p (f a)); simpl; now rewrite IH.
Qed.

Lemma labelled_imap (g : nat -> merged_row -> out_row) (l : list merged_row) :
  (forall j r, label (g j r) = j) -> labelled (imap g l).
Proof.
  intros Hg j row Hj. rewrite list_lookup_imap in Hj.
  destruct (l !! j); simpl in Hj; [|discriminate].
  injection Hj as <-. apply Hg.
Qed.

Lemma labelled_lookup (t : list out_row) row :
  labelled t -> In row t -> t !! label row = Some row.
Proof.
  intros Hl Hin. apply list_elem_of_In, list_elem_of_lookup in Hin as [j Hj].
  now rewrite (Hl _ _ Hj).
Qed.

Lemma labelled_inj (t : list out_row) a b :
  labelled t -> In a t -> In b t -> label a = label b -> a = b.
Proof.
  intros Hl Ha Hb E.
  pose proof (labelled_lookup t a Hl Ha) as H1.
  pose proof (labelled_lookup t b Hl Hb) as H2.
  rewrite E in H1. congruence.
Qed.

Lemma select_mask_imap {A : Type} (f : A -> bool) (p : out_row -> bool)
    (d : out_row -> out_row) (g : nat -> A -> out_row) (l : list A) :
  (forall row, label (d row) = label row) ->
  (forall j a, label (g j a) = j) ->
  (forall j a, l !! j = Some a -> p (g j a) = f a) ->
  select_mask (List.map f l) (List.map d (imap g l))
  = List.map d (List.filter p (imap g l)).
Proof.
  intros Hd Hg Hp. unfold select_mask. rewrite filter_map_comm.
  f_equal. apply filter_ext_in. intros row Hrow. rewrite Hd.
  apply list_elem_of_In, list_elem_of_lookup in Hrow as [j Hj].
  rewrite list_lookup_imap in Hj.
  destruct (l !! j) as [a|] eqn:Ea; simpl in Hj; [|discriminate].
  injection Hj as <-. rewrite Hg, (Hp j a Ea).
  apply nth_lookup_Some.
  change (List.map f l) with (f <$> l). now rewrite list_lookup_fmap, Ea.
Qed.

Lemma iloc_filter (q : out_row -> bool) (d : out_row -> out_row) (t : list out_row) :
  labelled t ->
  iloc {| is_integer := true; values := List.map label (List.filter q t) |}
       (List.map d t)
  = Return (List.map d (List.filter q t)).
Proof.
  intros Hl. unfold iloc. cbn [is_integer values].
  assert (G : forall l, Forall (fun y => t !! label y = Some y) l ->
              map_result (fun j => match List.map d t !! j with
                                   | Some row => Return row
                                   | None => Raise IndexError
                                   end) (List.map label l)
              = Return (List.map d l)).
  { induction 1 as [|y l Hy _ IH]; [reflexivity|].
    cbn [List.map map_result].
    assert (E : List.map d t !! label y = Some (d y)).
    { change (List.map d t) with (d <$> t). now rewrite list_lookup_fmap, Hy. }
    rewrite E, bind_return, IH, bind_return. reflexivity. }
  apply G. apply List.Forall_forall. intros y Hy.
  apply filter_In in Hy as [Hy _]. now apply labelled_lookup.
Qed.

(** [.iloc] with the index kept by [dropna]: the rows kept, when the frame
    has rows; [IndexError] when it has none. *)
Lemma iloc_dropna_returns cols th (d : out_row -> out_row) (t : list out_row) :
  labelled t -> t <> [] ->
  iloc (dropna_index cols th t) (List.map d t)
  = Return (List.map d
              (List.filter (fun row => (th <=? count_notna cols row)%Z) t)).
Proof.
  intros Hl Hne. unfold dropna_index.
  destruct t as [|row0 t']; [congruence|]. now apply iloc_filter.
Qed.

Lemma iloc_dropna_self cols th (t : list out_row) :
  labelled t -> t <> [] ->
  iloc (dropna_index cols th t) t
  = Return (List.filter (fun row => (th <=? count_notna cols row)%Z) t).
Proof.
  intros Hl Hne.
  pose proof (iloc_dropna_returns cols th (fun x => x) t Hl Hne) as H.
  now rewrite !List.map_id in H.
Qed.

Lemma iloc_dropna_empty cols th (t' : list out_row) :
  iloc (dropna_index cols th []) t' = Raise IndexError.
Proof. reflexivity. Qed.

Lemma iloc_dropna_inv cols th (d : out_row -> out_row) (t kept : list out_row) :
  labelled t ->
  iloc (dropna_index cols th t) (List.map d t) = Return kept ->
  t <> []
  /\ kept = List.map d
              (List.filter (fun row => (th <=? count_notna cols row)%Z) t).
Proof.
  intros Hl H.
  assert (Hne : t <> []).
  { intros ->. rewrite iloc_dropna_empty in H. discriminate. }
  rewrite iloc_dropna_returns in H by assumption.
  injection H as H. now split.
Qed.

Lemma drop_rows_filter (q : out_row -> bool) (d : out_row -> out_row)
    (t : list out_row) :
  labelled t ->
  (forall row, label (d row) = label row) ->
  drop_rows (List.map label (List.filter q t)) (List.map d t)
  = List.map d (List.filter (fun row => negb (q row)) t).
Proof.
  intros Hl Hd. unfold drop_rows. rewrite filter_map_comm. f_equal.
  apply filter_ext_in. intros row Hrow. rewrite Hd. f_equal.
  destruct (q row) eqn:Eq.
  - apply bool_decide_eq_true. apply list_elem_of_In, in_map, filter_In. tauto.
  - apply bool_decide_eq_false. intros Hin.
    apply list_elem_of_In, in_map_iff in Hin as [y [Ey Hy]].
    apply filter_In in Hy as [Hy Hq].
    assert (y = row) by (eapply labelled_inj; eassumption). congruence.
Qed.

Lemma forallb_ext_in {A : Type} (f g : A -> bool) (l : list A) :
  (forall a, In a l -> f a = g a) -> forallb f l = forallb g l.
Proof.
  induction l as [|a l IH]; intros H; simpl; [reflexivity|].
  rewrite (H a) by now left. rewrite IH; [reflexivity|].
  intros b Hb. apply H. now right.
Qed.

Lemma existsb_ext_in {A : Type} (f g : A -> bool) (l : list A) :
  (forall a, In a l -> f a = g a) -> existsb f l = existsb g l.
Proof.
  induction l as [|a l IH]; intros H; simpl; [reflexivity|].
  rewrite (H a) by now left. rewrite IH; [reflexivity|].
  intros b Hb. apply H. now right.
Qed.

(** ** Rows of the enriched frame *)

Section FinalRows.
Variable to_numeric : string -> float64.
Variables (sums : Series Z) (r2c : Series cell) (mafc altc : option (Series float64)).
Variable N : nat.

Abbreviation final_row j r :=
  (frame_row sums r2c mafc altc j (convert_row to_numeric N r)).

Lemma r2_cell_final X j r :
  1 <= X <= N -> r2_cell X (final_row j r) = Num (r2_src to_numeric X r).
Proof.
  intros HX. unfold r2_cell, frame_row. cbn [o_groups].
  change na_csv with (csv_of na_group). rewrite map_nth.
  change (nth (X - 1) (groups (convert_row to_numeric N r)) na_group)
    with (group X (convert_row to_numeric N r)).
  rewrite group_convert_row by assumption.
  unfold r2_src, num_of. cbn. now destruct (Rsq_g (group X r)).
Qed.

Lemma r2_value_final X j r :
  1 <= X <= N -> r2_value X (final_row j r) = r2_src to_numeric X r.
Proof. intros HX. unfold r2_value. now rewrite r2_cell_final. Qed.

Lemma keep_row_final thr j r :
  keep_row N thr (final_row j r) = keep_src to_numeric N thr r.
Proof.
  unfold keep_row, keep_src. apply forallb_ext_in. intros X HX.
  apply in_seq in HX. rewrite r2_value_final by lia. reflexivity.
Qed.

Lemma exclude_row_final thr j r :
  exclude_row N thr (final_row j r) = exclude_src to_numeric N thr r.
Proof.
  unfold exclude_row, exclude_src. apply existsb_ext_in. intros X HX.
  apply in_seq in HX. rewrite r2_value_final by lia. reflexivity.
Qed.
End FinalRows.

Lemma exclude_is_not_keep N thr row :
  exclude_row N thr row = negb (keep_row N thr row).
Proof.
  unfold exclude_row, keep_row.
  induction (seq 1 N) as [|X l IH]; [reflexivity|].
  cbn [existsb forallb]. rewrite IH, negb_andb. f_equal.
  destruct (r2_value X row) as [|s|a], (negb (Qeq_bool thr 0)); cbn;
    rewrite ?negb_involutive, ?andb_true_r, ?orb_false_r; reflexivity.
Qed.

Lemma present_count_final to_numeric sums r2c mafc altc N j r :
  present_count N (frame_row sums r2c mafc altc j (convert_row to_numeric N r))
  = Z.of_nat (length (List.filter (fun X => notna (r2_src to_numeric X r)) (seq 1 N))).
Proof.
  unfold present_count, count_notna. f_equal.
  assert (G : forall l, (forall X, In X l -> 1 <= X <= N) ->
    length (List.filter cell_notna
      (List.map (fun X => c_Rsq (nth (X - 1)
         (o_groups (frame_row sums r2c mafc altc j (convert_row to_numeric N r)))
         na_csv)) l))
    = length (List.filter (fun X => notna (r2_src to_numeric X r)) l)).
  { induction l as [|X l IH]; intros Hl; [reflexivity|].
    cbn [List.map List.filter].
    change (c_Rsq (nth (X - 1) _ na_csv))
      with (r2_cell X (frame_row sums r2c mafc altc j (convert_row to_numeric N r))).
    rewrite r2_cell_final by (apply Hl; now left).
    unfold cell_notna at 1. cbn [cell_isna]. fold (notna (r2_src to_numeric X r)).
    destruct (notna (r2_src to_numeric X r)); cbn [length];
      rewrite IH; try reflexivity; intros Y HY; apply Hl; now right. }
  apply G. intros X HX. apply in_seq in HX. lia.
Qed.

(** ** What [__process_output] returns *)

Section ProcessOutput.
Variable to_numeric : string -> float64.
Variable gzip_open : string -> option (list string).

Lemma drop_index_cols_label cols row :
  label (drop_index_cols cols row) = label row.
Proof. reflexivity. Qed.

Lemma final_table_labelled df N cols r2c mafc altc :
  labelled (final_table to_numeric df N cols r2c mafc altc).
Proof. apply labelled_imap. reflexivity. Qed.

Lemma final_table_imap df N cols r2c mafc altc :
  final_table to_numeric df N cols r2c mafc altc
  = imap (fun j r =>
            frame_row
              (sum_index_column
                 (List.map (fun r => List.map (fun X => index_g (group X r)) cols)
                           (rows df)))
              r2c mafc altc j (convert_row to_numeric N r))
         (rows df).
Proof.
  unfold final_table.
  change (List.map (convert_row to_numeric N) (rows df))
    with (convert_row to_numeric N <$> rows df).
  rewrite imap_fmap. reflexivity.
Qed.

(** The tables written are the rows of the enriched frame that
    [classify] keeps and the rows it does not keep, in the order of the
    frame. *)
Lemma process_output_spec df flags cols out :
  __process_output to_numeric gzip_open df flags cols = Return out ->
  let N := length (flag_input flags) in
  exists r2c mafc altc,
    N <= n_groups df
    /\ combine_r2 gzip_open flags (state_after to_numeric flags df N)
       = Return (r2c, mafc, altc, lst_number_of_individuals out)
    /\ df_merged_final out = final_table to_numeric df N cols r2c mafc altc
    /\ variants_kept out
       = List.map (drop_index_cols cols)
           (List.filter (classify flags) (df_merged_final out))
    /\ variants_excluded out
       = List.map (drop_index_cols cols)
           (List.filter (fun row => negb (classify flags row)) (df_merged_final out)).
Proof.
  intros H. cbv zeta. set (N := length (flag_input flags)).
  unfold __process_output in H.
  apply bind_inv in H as [idx [Hidx H]].
  unfold index_frame in Hidx.
  destruct (forallb (has_group df) cols); [|discriminate].
  injection Hidx as <-.
  apply bind_inv in H as [st [Hst H]].
  destruct (le_lt_dec N (n_groups df)) as [HN|HN];
    [|unfold N in HN; rewrite loop_missing_group in Hst by exact HN; discriminate].
  unfold N in HN. rewrite loop_run in Hst by exact HN.
  fold N in Hst.
  assert (Est : st = state_after to_numeric flags df N) by congruence.
  subst st. clear Hst.
  apply bind_inv in H as [[[[r2c mafc] altc] ns] [Hc H]].
  exists r2c, mafc, altc.
  cbn [st_df state_after convert rows] in H.
  fold (final_table to_numeric df N cols r2c mafc altc) in H.
  pose proof (final_table_labelled df N cols r2c mafc altc) as Hlab.
  pose proof (final_table_imap df N cols r2c mafc altc) as Himap.
  set (table := final_table to_numeric df N cols r2c mafc altc) in *.
  unfold classify. fold N.
  destruct (flag_missing flags =? 0)%Z eqn:Em.
  - cbn [mask_to_keep mask_to_exclude state_after andb] in H.
    rewrite ?Em in H. destruct (0 <? N)%nat; [|discriminate].
    cbn [andb] in H. injection H as H. subst out.
    cbn [variants_kept variants_excluded df_merged_final lst_number_of_individuals].
    repeat split; try assumption.
    + rewrite Himap. apply select_mask_imap; try reflexivity.
      intros j r _. apply keep_row_final.
    + rewrite Himap. apply select_mask_imap; try reflexivity.
      intros j r _. rewrite <- exclude_is_not_keep. apply exclude_row_final.
  - cbn [lst_col_names state_after] in H.
    apply bind_inv in H as [kept [Hkept H]].
    apply bind_inv in H as [index_kept [_ H]].
    apply (iloc_dropna_inv _ _ _ _ _ Hlab) in Hkept as [_ ->].
    injection H as H. subst out.
    cbn [variants_kept variants_excluded df_merged_final lst_number_of_individuals].
    repeat split; try assumption.
    apply drop_rows_filter; [exact Hlab|reflexivity].
Qed.
End ProcessOutput.

Lemma filter_partition_perm {A : Type} (p : A -> bool) (l : list A) :
  Permutation (List.filter p l ++ List.filter (fun a => negb (p a)) l) l.
Proof.
  induction l as [|a l IH]; simpl; [constructor|].
  destruct (p a); simpl.
  - now constructor.
  - symmetry. apply Permutation_cons_app. now symmetry.
Qed.

Lemma lookup_map_rows {B : Type} (f : merged_row -> B) (l : list merged_row) j r :
  l !! j = Some r -> List.map f l !! j = Some (f r).
Proof.
  intros H. change (List.map f l) with (f <$> l). now rewrite list_lookup_fmap, H.
Qed.

(** ** The variants written, traced back to the merged frame *)

Section Written.
Variable to_numeric : string -> float64.
Variable gzip_open : string -> option (list string).


Lemma classify_final flags sums r2c mafc altc j r :
  classify flags
    (frame_row sums r2c mafc altc j
       (convert_row to_numeric (length (flag_input flags)) r))
  = classify_src to_numeric flags r.
Proof.
  unfold classify, classify_src, present_src. cbv zeta.
  now rewrite keep_row_final, present_count_final.
Qed.

(** The enriched frame has, at the position of each variant of the merged
    frame, the row made from it. *)
Lemma final_row_at df flags cols out j r :
  __process_output to_numeric gzip_open df flags cols = Return out ->
  rows df !! j = Some r ->
  exists row,
    df_merged_final out !! j = Some row
    /\ label row = j /\ o_key row = mkey r
    /\ classify flags row = classify_src to_numeric flags r.
Proof.
  intros H Hr.
  destruct (process_output_spec _ _ _ _ _ _ H)
    as (r2c & mafc & altc & _ & _ & Ht & _).
  eexists. split.
  - rewrite Ht, final_table_imap, list_lookup_imap, Hr. reflexivity.
  - split; [reflexivity|]. split; [reflexivity|]. apply classify_final.
Qed.

Lemma final_labelled df flags cols out :
  __process_output to_numeric gzip_open df flags cols = Return out ->
  labelled (df_merged_final out).
Proof.
  intros H.
  destruct (process_output_spec _ _ _ _ _ _ H)
    as (r2c & mafc & altc & _ & _ & Ht & _).
  rewrite Ht. apply final_table_labelled.
Qed.

(** A variant of the merged frame is in the table of the kept variants
    exactly when the decision on it is to keep it, and in the table of the
    excluded ones exactly when it is not. *)
Lemma listed_iff df flags cols out j r :
  __process_output to_numeric gzip_open df flags cols = Return out ->
  rows df !! j = Some r ->
  (listed (variants_kept out) j (mkey r) <-> classify_src to_numeric flags r = true)
  /\ (listed (variants_excluded out) j (mkey r)
      <-> classify_src to_numeric flags r = false).
Proof.
  intros H Hr.
  destruct (final_row_at _ _ _ _ _ _ H Hr) as (row & Hj & Hl & Hk & Hc).
  pose proof (final_labelled _ _ _ _ H) as Hlab.
  destruct (process_output_spec _ _ _ _ _ _ H)
    as (_ & _ & _ & _ & _ & _ & Ek & Ee).
  assert (Hin : In row (df_merged_final out)).
  { apply list_elem_of_In, list_elem_of_lookup. now exists j. }
  assert (Hsame : forall row0, In row0 (df_merged_final out) ->
                    label row0 = j -> row0 = row).
  { intros row0 H0 E0. apply (labelled_inj _ _ _ Hlab H0 Hin). congruence. }
  split; split.
  - intros (w & Hw & Hlw & _). rewrite Ek in Hw.
    apply in_map_iff in Hw as [row0 [<- Hw]]. apply filter_In in Hw as [Hw Hcw].
    rewrite (Hsame row0 Hw Hlw) in Hcw. congruence.
  - intros Hc1. exists (drop_index_cols cols row). rewrite Ek.
    split; [|split; assumption].
    apply in_map, filter_In. split; [exact Hin|congruence].
  - intros (w & Hw & Hlw & _). rewrite Ee in Hw.
    apply in_map_iff in Hw as [row0 [<- Hw]]. apply filter_In in Hw as [Hw Hcw].
    rewrite (Hsame row0 Hw Hlw), Hc in Hcw. now apply negb_true_iff in Hcw.
  - intros Hc0. exists (drop_index_cols cols row). rewrite Ee.
    split; [|split; assumption].
    apply in_map, filter_In. split; [exact Hin|]. rewrite Hc, Hc0. reflexivity.
Qed.

Lemma ids_drop_index_cols cols (t : list out_row) :
  ids (List.map (drop_index_cols cols) t) = ids t.
Proof. unfold ids. rewrite List.map_map. apply map_ext. reflexivity. Qed.

(** The enriched frame has the variants of the merged frame, in place. *)
Lemma final_ids df flags cols out :
  __process_output to_numeric gzip_open df flags cols = Return out ->
  ids (df_merged_final out) = frame_ids df.
Proof.
  intros H.
  destruct (process_output_spec _ _ _ _ _ _ H)
    as (r2c & mafc & altc & _ & _ & Ht & _).
  rewrite Ht, final_table_imap. unfold ids, frame_ids.
  apply list_eq. intros j.
  change (List.map ?f ?l) with (f <$> l).
  rewrite list_lookup_fmap, !list_lookup_imap.
  destruct (rows df !! j); reflexivity.
Qed.

Lemma written_ids df flags cols out :
  __process_output to_numeric gzip_open df flags cols = Return out ->
  Permutation (ids (variants_kept out ++ variants_excluded out)) (frame_ids df).
Proof.
  intros H. rewrite <- (final_ids _ _ _ _ H).
  destruct (process_output_spec _ _ _ _ _ _ H)
    as (_ & _ & _ & _ & _ & _ & Ek & Ee).
  rewrite Ek, Ee, <- map_app, ids_drop_index_cols.
  apply Permutation_map, filter_partition_perm.
Qed.

Lemma distinct_labels df flags cols out a b :
  __process_output to_numeric gzip_open df flags cols = Return out ->
  In a (variants_kept out) -> In b (variants_excluded out) -> label a <> label b.
Proof.
  intros H Ha Hb E.
  pose proof (final_labelled _ _ _ _ H) as Hlab.
  destruct (process_output_spec _ _ _ _ _ _ H)
    as (_ & _ & _ & _ & _ & _ & Ek & Ee).
  rewrite Ek in Ha. rewrite Ee in Hb.
  apply in_map_iff in Ha as [a0 [<- Ha]]. apply in_map_iff in Hb as [b0 [<- Hb]].
  apply filter_In in Ha as [Ha Hpa]. apply filter_In in Hb as [Hb Hpb].
  assert (a0 = b0) by (apply (labelled_inj _ _ _ Hlab Ha Hb); exact E).
  subst b0. rewrite Hpa in Hpb. discriminate.
Qed.

(** *** The rule for an allowance of 0, on a variant of the merged frame *)





End Written.

(** ** C3 *)

(** C3: whenever [__process_output] returns, whatever the allowance
    '--missing' and the threshold '--r2_threshold', the variants of the
    kept table together with those of the excluded table are the variants
    of the unified table, each of them once, and no variant is in both
    tables. *)
Theorem kept_excluded_partition (to_numeric : string -> float64)
    (gzip_open : string -> option (list string)) df flags cols out :
  __process_output to_numeric gzip_open df flags cols = Return out ->
  Permutation (ids (variants_kept out ++ variants_excluded out)) (frame_ids df)
  /\ (forall a b, In a (variants_kept out) -> In b (variants_excluded out) ->
        label a <> label b)
  /\ (forall row, In row (variants_kept out) -> ~ In row (variants_excluded out)).
Proof.
  intros H. split; [exact (written_ids to_numeric gzip_open df flags cols out H)|].
  split.
  - intros a b. exact (distinct_labels to_numeric gzip_open df flags cols out a b H).
  - intros row Hk He.
    now apply (distinct_labels to_numeric gzip_open df flags cols out row row H Hk He).
Qed.

Lemma kept_excluded_partition_witness :
  exists out,
    __process_output decimal sample_files sample_df
      (sample_flags three_inputs 0 (7 # 10) "weighted_average") [1; 2; 3]
    = Return out
    /\ Permutation (ids (variants_kept out ++ variants_excluded out))
                   (frame_ids sample_df)
    /\ (forall a b, In a (variants_kept out) -> In b (variants_excluded out) ->
          label a <> label b)
    /\ (forall row, In row (variants_kept out) -> ~ In row (variants_excluded out)).
Proof.
  eexists. split; [vm_compute; reflexivity|].
  apply (kept_excluded_partition decimal sample_files sample_df
           (sample_flags three_inputs 0 (7 # 10) "weighted_average") [1; 2; 3]).
  vm_compute. reflexivity.
Defined.

(** ** C5 *)




(** ** C6 *)

Lemma state_after_threshold to_numeric flags df n thr' :
  flag_missing flags <> 0%Z ->
  state_after to_numeric (with_threshold thr' flags) df n
  = state_after to_numeric flags df n.
Proof.
  intros Hm. unfold state_after. cbn [with_threshold flag_missing].
  apply Z.eqb_neq in Hm. rewrite Hm. reflexivity.
Qed.

(** With an allowance that is not 0, the threshold is not read. *)
Lemma process_output_threshold (to_numeric : string -> float64)
    (gzip_open : string -> option (list string)) df flags cols thr' :
  flag_missing flags <> 0%Z ->
  __process_output to_numeric gzip_open df (with_threshold thr' flags) cols
  = __process_output to_numeric gzip_open df flags cols.
Proof.
  intros Hm. unfold __process_output.
  cbn [with_threshold flag_missing flag_input].
  destruct (index_frame df cols) as [e|idx]; [reflexivity|].
  rewrite !bind_return.
  destruct (le_lt_dec (length (flag_input flags)) (n_groups df)) as [HN|HN].
  - pose proof (loop_run to_numeric (with_threshold thr' flags) df
                  (length (flag_input flags)) HN) as E1.
    cbn [with_threshold flag_input] in E1. rewrite E1.
    rewrite (loop_run to_numeric flags df _ HN).
    rewrite state_after_threshold by exact Hm. reflexivity.
  - pose proof (loop_missing_group to_numeric (with_threshold thr' flags) df
                  (length (flag_input flags)) HN) as E1.
    rewrite E1. rewrite (loop_missing_group to_numeric flags df _ HN). reflexivity.
Qed.

(** C6: with '--missing' above 0, a variant of the unified table is in the
    kept table exactly when its Rsq is present in at least N - missing of
    the N cohorts, and in the excluded table exactly when it is present in
    fewer; and the call gives the same result whatever the threshold
    '--r2_threshold' is. *)
Theorem keep_by_present_count (to_numeric : string -> float64)
    (gzip_open : string -> option (list string)) df flags cols out :
  __process_output to_numeric gzip_open df flags cols = Return out ->
  (0 < flag_missing flags)%Z ->
  let N := length (flag_input flags) in
  (forall j r, rows df !! j = Some r ->
     (listed (variants_kept out) j (mkey r)
      <-> (Z.of_nat N - flag_missing flags <= present_src to_numeric N r)%Z)
     /\ (listed (variants_excluded out) j (mkey r)
         <-> (present_src to_numeric N r < Z.of_nat N - flag_missing flags)%Z))
  /\ (forall thr',
        __process_output to_numeric gzip_open df (with_threshold thr' flags) cols
        = Return out).
Proof.
  intros H Hm N. split.
  - intros j r Hr.
    destruct (listed_iff _ _ _ _ _ _ _ _ H Hr) as [Hk He].
    unfold classify_src in Hk, He.
    assert (Hz : (flag_missing flags =? 0)%Z = false) by (apply Z.eqb_neq; lia).
    rewrite Hz in Hk, He. cbv zeta in Hk, He. fold N in Hk, He.
    rewrite Hk, He, Z.leb_le, Z.leb_gt. split; reflexivity.
  - intros thr'. rewrite process_output_threshold by lia. exact H.
Qed.

Lemma keep_by_present_count_witness :
  exists out,
    __process_output decimal sample_files sample_df
      (sample_flags three_inputs 1 (7 # 10) "first") [1; 2; 3]
    = Return out
    /\ (forall j r, rows sample_df !! j = Some r ->
          (listed (variants_kept out) j (mkey r)
           <-> (Z.of_nat 3 - 1 <= present_src decimal 3 r)%Z)
          /\ (listed (variants_excluded out) j (mkey r)
              <-> (present_src decimal 3 r < Z.of_nat 3 - 1)%Z))
    /\ (forall thr',
          __process_output decimal sample_files sample_df
            (with_threshold thr' (sample_flags three_inputs 1 (7 # 10) "first"))
            [1; 2; 3]
          = Return out).
Proof.
  eexists. split; [vm_compute; reflexivity|].
  apply (keep_by_present_count decimal sample_files sample_df
           (sample_flags three_inputs 1 (7 # 10) "first") [1; 2; 3]).
  - vm_compute. reflexivity.
  - reflexivity.
Defined.

(** ** The weighted columns, row by row *)

Lemma floats_inv (s : Series cell) xs :
  floats s = Return xs -> xs = List.map cell_value s /\ Forall is_num s.
Proof.
  revert xs. induction s as [|c s IH]; intros xs H; simpl in H.
  - injection H as H. subst xs. split; [reflexivity|constructor].
  - destruct c as [t|x]; [discriminate|].
    apply bind_inv in H as [ys [Hys H]]. injection H as H. subst xs.
    destruct (IH ys Hys) as [-> Hnum]. split; [reflexivity|].
    constructor; [exact I|exact Hnum].
Qed.

Lemma floats_numeric (s : Series cell) :
  Forall is_num s -> floats s = Return (List.map cell_value s).
Proof.
  induction 1 as [|c s Hc _ IH]; [reflexivity|].
  destruct c as [t|x]; [destruct Hc|]. simpl. rewrite IH. reflexivity.
Qed.

Lemma float_col_inv (f : group_cols -> cell) X df s :
  float_col f X df = Return s ->
  has_group df X = true
  /\ s = List.map (fun r => cell_value (f (group X r))) (rows df)
  /\ (forall r, In r (rows df) -> is_num (f (group X r))).
Proof.
  unfold float_col, col. intros H.
  destruct (has_group df X); [|discriminate]. rewrite bind_return in H.
  apply floats_inv in H as [-> Hnum]. split; [reflexivity|]. split.
  - now rewrite List.map_map.
  - intros r Hr. rewrite List.Forall_forall in Hnum. apply Hnum.
    now apply (in_map (fun r => f (group X r))).
Qed.

Lemma float_col_numeric (f : group_cols -> cell) X df :
  has_group df X = true ->
  (forall r, In r (rows df) -> is_num (f (group X r))) ->
  float_col f X df = Return (List.map (fun r => cell_value (f (group X r))) (rows df)).
Proof.
  intros Hg Hnum. unfold float_col, col. rewrite Hg, bind_return.
  rewrite floats_numeric, List.map_map; [reflexivity|].
  apply List.Forall_forall. intros c Hc.
  apply in_map_iff in Hc as [r [<- Hr]]. now apply Hnum.
Qed.

Lemma list_get_inv {A : Type} (l : list A) i a d :
  list_get l i = Return a -> i < length l /\ a = nth i l d.
Proof.
  unfold list_get. destruct (l !! i) as [b|] eqn:E; [|discriminate].
  intros H. injection H as H. subst b. split.
  - now apply lookup_lt_Some in E.
  - symmetry. now apply nth_lookup_Some.
Qed.

Lemma list_get_lt {A : Type} (l : list A) i d :
  i < length l -> list_get l i = Return (nth i l d).
Proof.
  intros Hi. unfold list_get.
  destruct (lookup_lt_is_Some_2 l i Hi) as [a Ha]. rewrite Ha.
  now rewrite (nth_lookup_Some _ _ d _ Ha).
Qed.

Section AdjLoop.
Variable df : DataFrame.
Variable ns : list Z.

Lemma adj_step_inv acc i acc' :
  adj_step df ns acc i = Return acc' ->
  acc' = {| lst_r2_adj := lst_r2_adj acc ++ [adj_col df ns r2_at i];
            lst_maf_adj := lst_maf_adj acc ++ [adj_col df ns maf_at i];
            lst_alt_frq_adj := lst_alt_frq_adj acc ++ [adj_col df ns alt_frq_at i];
            lst_weight_adj := lst_weight_adj acc ++ [weight_col df ns i] |}.
Proof.
  unfold adj_step. intros H.
  apply bind_inv in H as [r2 [Hr2 H]].
  apply bind_inv in H as [maf [Hmaf H]].
  apply bind_inv in H as [alt [Halt H]].
  apply bind_inv in H as [n [Hn H]].
  apply float_col_inv in Hr2 as (_ & -> & _).
  apply float_col_inv in Hmaf as (_ & -> & _).
  apply float_col_inv in Halt as (_ & -> & _).
  apply (list_get_inv _ _ _ 0%Z) in Hn as [_ ->].
  injection H as H. subst acc'.
  unfold adj_col, weight_col, weight, r2_at, maf_at, alt_frq_at.
  rewrite !List.map_map. reflexivity.
Qed.

Lemma adj_step_returns acc i :
  has_group df (i + 1) = true ->
  (forall r, In r (rows df) ->
     is_num (Rsq_g (group (i + 1) r)) /\ is_num (MAF_g (group (i + 1) r))
     /\ is_num (ALT_Frq_g (group (i + 1) r))) ->
  i < length ns ->
  exists acc', adj_step df ns acc i = Return acc'.
Proof.
  intros Hg Hnum Hi. unfold adj_step.
  rewrite !float_col_numeric by (try exact Hg; intros r Hr; apply (Hnum r Hr)).
  rewrite !bind_return. rewrite (list_get_lt ns i 0%Z Hi), bind_return.
  eexists. reflexivity.
Qed.

Lemma adj_loop_inv n : forall a acc adj,
  for_each (adj_step df ns) (seq a n) acc = Return adj ->
  adj = {| lst_r2_adj := lst_r2_adj acc ++ List.map (adj_col df ns r2_at) (seq a n);
           lst_maf_adj := lst_maf_adj acc ++ List.map (adj_col df ns maf_at) (seq a n);
           lst_alt_frq_adj :=
             lst_alt_frq_adj acc ++ List.map (adj_col df ns alt_frq_at) (seq a n);
           lst_weight_adj := lst_weight_adj acc ++ List.map (weight_col df ns) (seq a n) |}.
Proof.
  induction n as [|n IH]; intros a acc adj H; cbn [seq for_each] in H.
  - injection H as H. subst adj. cbn [seq List.map]. rewrite !app_nil_r.
    now destruct acc.
  - apply bind_inv in H as [acc' [Hstep H]].
    apply adj_step_inv in Hstep. apply IH in H. subst adj acc'.
    cbn [lst_r2_adj lst_maf_adj lst_alt_frq_adj lst_weight_adj seq List.map].
    rewrite <- !app_assoc. reflexivity.
Qed.

Lemma adj_loop_returns n : forall a acc,
  a + n <= n_groups df -> a + n <= length ns ->
  numeric_cols (a + n) df ->
  exists adj, for_each (adj_step df ns) (seq a n) acc = Return adj.
Proof.
  induction n as [|n IH]; intros a acc Hg Hl Hnum; cbn [seq for_each].
  - eexists. reflexivity.
  - destruct (adj_step_returns acc a) as [acc' Hacc'].
    + unfold has_group. apply andb_true_intro. split; apply Nat.leb_le; lia.
    + intros r Hr. apply Hnum; [exact Hr|lia].
    + lia.
    + rewrite Hacc', bind_return. apply IH; try lia.
      replace (S a + n) with (a + S n) by lia. exact Hnum.
Qed.
End AdjLoop.

Lemma map_seq_nth {A B : Type} (g : A -> B) (l : list A) (d : A) :
  List.map (fun j => g (nth j l d)) (seq 0 (length l)) = List.map g l.
Proof.
  induction l as [|a l IH]; [reflexivity|].
  cbn [length seq List.map nth]. f_equal.
  rewrite <- seq_shift, List.map_map. exact IH.
Qed.

(** The row-wise reduction of columns that are all computed from the rows
    of one frame. *)
Lemma axis1_rows {A : Type} (red : list float64 -> float64)
    (f : nat -> A -> float64) (l : list A) (d : A) (idx : list nat) :
  List.map (fun j => red (List.map (fun c => nth j c NaN)
                          (List.map (fun i => List.map (f i) l) idx)))
           (seq 0 (length l))
  = List.map (fun r => red (List.map (fun i => f i r) idx)) l.
Proof.
  rewrite <- (map_seq_nth (fun r => red (List.map (fun i => f i r) idx)) l d).
  apply map_ext_in. intros j Hj. apply in_seq in Hj. f_equal.
  rewrite List.map_map. apply map_ext. intros i.
  rewrite (nth_indep _ NaN (f i d)) by (rewrite length_map; lia).
  apply map_nth.
Qed.

Lemma sum_axis1_rows (f : nat -> merged_row -> float64) (l : list merged_row) idx :
  sum_axis1 (length l) (List.map (fun i => List.map (f i) l) idx)
  = List.map (fun r => nansum (List.map (fun i => f i r) idx)) l.
Proof. apply (axis1_rows nansum f l empty_row). Qed.

(** What [weighted_columns] computes when it returns. *)
Lemma weighted_columns_spec df N ns cols :
  weighted_columns df N ns = Return cols ->
  r2_combined cols = List.map (row_r2_combined N ns) (rows df)
  /\ maf_combined cols = List.map (row_freq_combined maf_at N ns) (rows df)
  /\ alt_frq_combined cols = List.map (row_freq_combined alt_frq_at N ns) (rows df).
Proof.
  unfold weighted_columns. intros H.
  apply bind_inv in H as [adj [Hadj H]].
  apply adj_loop_inv in Hadj. injection H as H. subst cols adj.
  cbn [r2_combined maf_combined alt_frq_combined lst_r2_adj lst_maf_adj
       lst_alt_frq_adj lst_weight_adj app].
  unfold adj_col, weight_col.
  rewrite (sum_axis1_rows (fun i r => fmul (r2_at (i + 1) r) (weight ns i))).
  rewrite (sum_axis1_rows (fun i r => fmul (maf_at (i + 1) r) (weight ns i))).
  rewrite (sum_axis1_rows (fun i r => fmul (alt_frq_at (i + 1) r) (weight ns i))).
  rewrite (sum_axis1_rows
             (fun i r => fdiv (fmul (weight ns i) (r2_at (i + 1) r)) (r2_at (i + 1) r))).
  rewrite zip_with_map_same, !List.map_map. repeat split.
Qed.

(** [weighted_columns] returns on every frame whose columns are numeric,
    whatever the numbers are. *)
Lemma weighted_columns_returns df N ns :
  N <= n_groups df -> N <= length ns -> numeric_cols N df ->
  exists cols, weighted_columns df N ns = Return cols.
Proof.
  intros Hg Hl Hnum. unfold weighted_columns.
  destruct (adj_loop_returns df ns N 0
              {| lst_r2_adj := []; lst_maf_adj := []; lst_alt_frq_adj := [];
                 lst_weight_adj := [] |}) as [adj Hadj]; try assumption.
  rewrite Hadj, bind_return. eexists. reflexivity.
Qed.

Lemma count_individuals_length gzip_open fns ns :
  count_individuals gzip_open fns = Return ns -> length ns = length fns.
Proof.
  revert ns. induction fns as [|fn fns IH]; intros ns H; cbn [count_individuals] in H.
  - injection H as H. now subst ns.
  - destruct (gzip_open fn) as [lines|]; [|discriminate].
    apply bind_inv in H as [n [_ H]]. apply bind_inv in H as [ns' [Hns' H]].
    injection H as H. subst ns. cbn [length]. f_equal. now apply IH.
Qed.

(** The same for [__calculate_weighted_r2_maf_altFrq]. *)
Lemma calculate_weighted_spec gzip_open df fns cols ns :
  __calculate_weighted_r2_maf_altFrq gzip_open df fns = Return (cols, ns) ->
  count_individuals gzip_open fns = Return ns
  /\ length ns = length fns
  /\ r2_combined cols = List.map (row_r2_combined (length fns) ns) (rows df)
  /\ maf_combined cols = List.map (row_freq_combined maf_at (length fns) ns) (rows df)
  /\ alt_frq_combined cols
     = List.map (row_freq_combined alt_frq_at (length fns) ns) (rows df).
Proof.
  unfold __calculate_weighted_r2_maf_altFrq. intros H.
  apply bind_inv in H as [ns' [Hns H]].
  apply bind_inv in H as [cols' [Hcols H]].
  injection H as H1 H2. subst cols' ns'.
  split; [exact Hns|]. split; [now apply count_individuals_length in Hns|].
  now apply weighted_columns_spec.
Qed.

Lemma calculate_weighted_returns gzip_open df fns ns :
  count_individuals gzip_open fns = Return ns ->
  length fns <= n_groups df ->
  numeric_cols (length fns) df ->
  exists cols, __calculate_weighted_r2_maf_altFrq gzip_open df fns = Return (cols, ns).
Proof.
  intros Hns Hg Hnum. unfold __calculate_weighted_r2_maf_altFrq.
  rewrite Hns, bind_return.
  destruct (weighted_columns_returns df (length fns) ns) as [cols Hcols];
    try assumption.
  - apply count_individuals_length in Hns. lia.
  - exists cols. rewrite Hcols. reflexivity.
Qed.

(** The number of individuals read from a header is not negative. *)
Lemma list_index_lt x l i : list_index x l = Return i -> i < length l.
Proof.
  revert i. induction l as [|y l IH]; intros i H; cbn [list_index] in H.
  - discriminate.
  - destruct (String.eqb y x).
    + injection H as H. subst i. cbn [length]. lia.
    + apply bind_inv in H as [i' [Hi' H]]. injection H as H. subst i.
      cbn [length]. apply IH in Hi'. lia.
Qed.

Lemma number_of_individuals_nonneg lines n :
  number_of_individuals lines = Return n -> (0 <= n)%Z.
Proof.
  unfold number_of_individuals. intros H.
  apply bind_inv in H as [i [Hi H]]. injection H as H. subst n.
  apply list_index_lt in Hi. lia.
Qed.

(** ** When [__process_output] returns *)

Section ProcessReturns.
Variable to_numeric : string -> float64.
Variable gzip_open : string -> option (list string).

Lemma convert_numeric N df : numeric_cols N (convert to_numeric N df).
Proof.
  intros r X Hr HX. cbn [convert rows] in Hr.
  apply in_map_iff in Hr as [r0 [<- _]].
  rewrite group_convert_row by exact HX.
  unfold to_numeric_group. cbn [Rsq_g MAF_g ALT_Frq_g].
  destruct (Rsq_g (group X r0)), (MAF_g (group X r0)), (ALT_Frq_g (group X r0));
    repeat split.
Qed.

Lemma map_result_returns {A B : Type} (f : A -> result B) (l : list A) :
  (forall a, In a l -> exists b, f a = Return b) ->
  exists bs, map_result f l = Return bs.
Proof.
  induction l as [|a l IH]; intros H; cbn [map_result].
  - eexists. reflexivity.
  - destruct (H a) as [b Hb]; [now left|].
    destruct IH as [bs Hbs]; [intros a' Ha'; apply H; now right|].
    rewrite Hb, bind_return, Hbs, bind_return. eexists. reflexivity.
Qed.

(** [__process_output] returns when the frame has the columns of the N
    cohorts named in '--input' (N at least 1) and, in weighted_average
    mode, the headers of the genotype files can be read. *)
Lemma process_output_returns df flags cols :
  forallb (has_group df) cols = true ->
  1 <= length (flag_input flags) <= n_groups df ->
  (flag_r2_output flags = "weighted_average" ->
   exists ns, count_individuals gzip_open (flag_input flags) = Return ns) ->
  flag_missing flags = 0%Z \/ rows df <> [] ->
  exists out, __process_output to_numeric gzip_open df flags cols = Return out.
Proof.
  intros Hcols HN Hfiles Hrows. set (N := length (flag_input flags)) in *.
  unfold __process_output, index_frame. rewrite Hcols, bind_return.
  fold N. rewrite loop_run by lia. rewrite bind_return.
  assert (Hc : exists c, combine_r2 gzip_open flags (state_after to_numeric flags df N)
                         = Return c).
  { unfold combine_r2. cbn [st_df state_after lst_col_names].
    destruct (String.eqb (flag_r2_output flags) "first") eqn:E1.
    - unfold col, has_group. change (n_groups (convert to_numeric N df)) with (n_groups df).
      rewrite (proj2 (Nat.leb_le 1 (n_groups df))) by lia.
      cbn [Nat.leb andb]. rewrite bind_return. eexists. reflexivity.
    - destruct (String.eqb (flag_r2_output flags) "weighted_average") eqn:E2.
      + apply String.eqb_eq in E2. destruct (Hfiles E2) as [ns Hns].
        destruct (calculate_weighted_returns gzip_open (convert to_numeric N df)
                    (flag_input flags) ns Hns) as [wc Hwc].
        * change (n_groups (convert to_numeric N df)) with (n_groups df). lia.
        * apply convert_numeric.
        * rewrite Hwc, bind_return. eexists. reflexivity.
      + destruct (map_result_returns
                    (fun X => float_col Rsq_g X (convert to_numeric N df)) (seq 1 N))
          as [cs Hcs].
        * intros X HX. apply in_seq in HX. eexists.
          apply float_col_convert; lia.
        * rewrite Hcs, bind_return. eexists. reflexivity. }
  destruct Hc as [[[[r2c mafc] altc] ns] Hc]. rewrite Hc, bind_return.
  cbn [mask_to_keep mask_to_exclude state_after].
  rewrite (proj2 (Nat.ltb_lt 0 N)) by lia.
  destruct (flag_missing flags =? 0)%Z eqn:Em; cbn [andb];
    [eexists; reflexivity|].
  assert (Hne : rows df <> []).
  { destruct Hrows as [Hz|Hne]; [|exact Hne]. apply Z.eqb_neq in Em. contradiction. }
  cbn [st_df state_after convert rows lst_col_names].
  fold (final_table to_numeric df N cols r2c mafc altc).
  pose proof (final_table_labelled to_numeric df N cols r2c mafc altc) as Hlab.
  assert (Hne' : final_table to_numeric df N cols r2c mafc altc <> []).
  { unfold final_table. destruct (rows df); [congruence|discriminate]. }
  rewrite (iloc_dropna_returns _ _ (drop_index_cols cols) _ Hlab Hne'), bind_return.
  rewrite (iloc_dropna_self _ _ _ Hlab Hne'), bind_return.
  eexists. reflexivity.
Qed.

(** On a merged frame without rows, with an allowance that is not 0: the
    index kept by [dropna] has dtype object and [.iloc] refuses it. *)
Lemma process_output_empty_frame df flags cols :
  forallb (has_group df) cols = true ->
  1 <= length (flag_input flags) <= n_groups df ->
  (flag_r2_output flags = "weighted_average" ->
   exists ns, count_individuals gzip_open (flag_input flags) = Return ns) ->
  flag_missing flags <> 0%Z -> rows df = [] ->
  __process_output to_numeric gzip_open df flags cols = Raise IndexError.
Proof.
  intros Hcols HN Hfiles Hm Hrows. set (N := length (flag_input flags)) in *.
  unfold __process_output, index_frame. rewrite Hcols, bind_return.
  fold N. rewrite loop_run by lia. rewrite bind_return.
  assert (Hc : exists c, combine_r2 gzip_open flags (state_after to_numeric flags df N)
                         = Return c).
  { unfold combine_r2. cbn [st_df state_after lst_col_names].
    destruct (String.eqb (flag_r2_output flags) "first") eqn:E1.
    - unfold col, has_group. change (n_groups (convert to_numeric N df)) with (n_groups df).
      rewrite (proj2 (Nat.leb_le 1 (n_groups df))) by lia.
      cbn [Nat.leb andb]. rewrite bind_return. eexists. reflexivity.
    - destruct (String.eqb (flag_r2_output flags) "weighted_average") eqn:E2.
      + apply String.eqb_eq in E2. destruct (Hfiles E2) as [ns Hns].
        destruct (calculate_weighted_returns gzip_open (convert to_numeric N df)
                    (flag_input flags) ns Hns) as [wc Hwc].
        * change (n_groups (convert to_numeric N df)) with (n_groups df). lia.
        * apply convert_numeric.
        * rewrite Hwc, bind_return. eexists. reflexivity.
      + destruct (map_result_returns
                    (fun X => float_col Rsq_g X (convert to_numeric N df)) (seq 1 N))
          as [cs Hcs].
        * intros X HX. apply in_seq in HX. eexists.
          apply float_col_convert; lia.
        * rewrite Hcs, bind_return. eexists. reflexivity. }
  destruct Hc as [[[[r2c mafc] altc] ns] Hc]. rewrite Hc, bind_return.
  cbn [mask_to_keep mask_to_exclude state_after].
  rewrite (proj2 (Nat.ltb_lt 0 N)) by lia.
  apply Z.eqb_neq in Hm. rewrite Hm.
  cbn [st_df state_after convert rows lst_col_names]. rewrite Hrows.
  reflexivity.
Qed.

(** The enriched frame has the variants in the order of the frame it was
    given: nothing in [__process_output] moves a row. *)
Lemma process_output_order df flags cols out :
  __process_output to_numeric gzip_open df flags cols = Return out ->
  List.map o_key (df_merged_final out) = frame_keys df.
Proof.
  intros H.
  destruct (process_output_spec _ _ _ _ _ _ H) as (r2c & mafc & altc & _ & _ & Ht & _).
  rewrite Ht, final_table_imap. unfold frame_keys.
  apply list_eq. intros j.
  change (List.map o_key ?l) with (o_key <$> l).
  change (List.map mkey ?l) with (mkey <$> l).
  rewrite !list_lookup_fmap, list_lookup_imap.
  destruct (rows df !! j); reflexivity.
Qed.
End ProcessReturns.

(** ** Arithmetic of the combined values *)

Lemma feq_refl x : feq x x.
Proof. destruct x; simpl; auto. reflexivity. Qed.

Lemma feq_fin_inv x a : feq x (Fin a) -> exists a', x = Fin a' /\ (a' == a)%Q.
Proof. destruct x as [|s|a']; simpl; try contradiction. intros H. now exists a'. Qed.

Lemma Qzero_comp a b : (a == b)%Q -> Qzero a = Qzero b.
Proof.
  intros E. unfold Qzero.
  destruct (Qeq_bool a 0) eqn:Ea, (Qeq_bool b 0) eqn:Eb; try reflexivity.
  - apply Qeq_bool_iff in Ea. apply Qeq_bool_neq in Eb.
    exfalso. apply Eb. now rewrite <- E.
  - apply Qeq_bool_iff in Eb. apply Qeq_bool_neq in Ea.
    exfalso. apply Ea. now rewrite E.
Qed.

Lemma Qneg_comp a b : (a == b)%Q -> Qneg a = Qneg b.
Proof.
  intros E. unfold Qneg. f_equal.
  destruct (Qle_bool 0 a) eqn:Ea, (Qle_bool 0 b) eqn:Eb; try reflexivity.
  - apply Qle_bool_iff in Ea. rewrite E in Ea. apply Qle_bool_iff in Ea. congruence.
  - apply Qle_bool_iff in Eb. rewrite <- E in Eb. apply Qle_bool_iff in Eb. congruence.
Qed.

Lemma fdiv_fin_comp a a' b b' :
  (a == a')%Q -> (b == b')%Q ->
  feq (fdiv (Fin a) (Fin b)) (fdiv (Fin a') (Fin b')).
Proof.
  intros Ea Eb. unfold fdiv.
  rewrite (Qzero_comp a a' Ea), (Qzero_comp b b' Eb), (Qneg_comp a a' Ea).
  destruct (Qzero b'); [destruct (Qzero a'); simpl; auto|].
  simpl. now rewrite Ea, Eb.
Qed.

Lemma Qzero_true q : Qzero q = true <-> (q == 0)%Q.
Proof. unfold Qzero. apply Qeq_bool_iff. Qed.

(** The sum of numbers that are finite or missing is the sum of the finite
    ones. *)
Lemma nansum_finite (xs : list float64) :
  Forall finite_or_nan xs ->
  feq (nansum xs) (Fin (Qsum (List.map fin_part xs))).
Proof.
  unfold nansum.
  assert (G : forall a, Forall finite_or_nan xs ->
    feq (fold_left fadd (List.filter notna xs) (Fin a))
        (Fin (a + Qsum (List.map fin_part xs)))).
  { induction xs as [|x xs IH]; intros a Hxs.
    - simpl. ring.
    - inversion Hxs as [|? ? Hx Hxs']; subst.
      destruct x as [|s|q]; [|destruct Hx|]; cbn [List.filter notna isna negb
        fold_left fadd List.map fin_part Qsum fold_right].
      + destruct (feq_fin_inv _ _ (IH a Hxs')) as [a' [-> E]].
        simpl. rewrite E. unfold Qsum. ring.
      + destruct (feq_fin_inv _ _ (IH (a + q)%Q Hxs')) as [a' [-> E]].
        simpl. rewrite E. unfold Qsum. ring. }
  intros Hxs. destruct (feq_fin_inv _ _ (G 0%Q Hxs)) as [a' [-> E]].
  simpl. rewrite E. ring.
Qed.

Lemma nansum_all_nan (xs : list float64) :
  Forall (fun x => x = NaN) xs -> nansum xs = Fin 0.
Proof.
  unfold nansum. induction 1 as [|x xs -> _ IH]; [reflexivity|exact IH].
Qed.

Lemma Qsum_comp {A : Type} (f g : A -> Q) (l : list A) :
  (forall a, In a l -> (f a == g a)%Q) ->
  (Qsum (List.map f l) == Qsum (List.map g l))%Q.
Proof.
  induction l as [|a l IH]; intros H; simpl; [reflexivity|].
  rewrite (H a) by now left. rewrite IH; [reflexivity|].
  intros b Hb. apply H. now right.
Qed.

Lemma adj_sum_finite (val : nat -> merged_row -> float64) N ns r :
  (forall X, 1 <= X <= N -> finite_or_nan (val X r)) ->
  feq (adj_sum val N ns r) (Fin (spec_numerator (fun X => val X r) N ns)).
Proof.
  intros Hfin. unfold adj_sum, spec_numerator.
  set (xs := List.map (fun i => fmul (val (i + 1) r) (weight ns i)) (seq 0 N)).
  assert (Hxs : Forall finite_or_nan xs).
  { apply List.Forall_forall. intros x Hx. apply in_map_iff in Hx as [i [<- Hi]].
    apply in_seq in Hi. specialize (Hfin (i + 1)).
    unfold weight, of_int.
    destruct (val (i + 1) r); simpl; auto. exfalso. apply Hfin. lia. }
  destruct (feq_fin_inv _ _ (nansum_finite xs Hxs)) as [a [-> E]].
  simpl. rewrite E. unfold xs. rewrite List.map_map.
  apply Qsum_comp. intros i _. unfold weight, of_int.
  destruct (val (i + 1) r) as [|s|q]; simpl; try reflexivity.
  destruct (Qzero (inject_Z (nth i ns 0%Z))); reflexivity.
Qed.

(** The weight cell of a cohort: missing when the Rsq is missing or is 0,
    the sample count otherwise. *)
Lemma weight_cell (n : Z) (x : float64) :
  finite_or_nan x ->
  match x with
  | Fin q =>
      if Qzero q then fdiv (fmul (of_int n) x) x = NaN
      else exists w, fdiv (fmul (of_int n) x) x = Fin w /\ (w == inject_Z n)%Q
  | _ => fdiv (fmul (of_int n) x) x = NaN
  end.
Proof.
  destruct x as [|s|q]; intros Hx; [reflexivity|destruct Hx|].
  unfold of_int, fmul, fdiv. destruct (Qzero q) eqn:Eq.
  - apply Qzero_true in Eq.
    assert (E : Qzero (inject_Z n * q) = true)
      by (apply Qzero_true; rewrite Eq; ring).
    now rewrite E.
  - eexists. split; [reflexivity|].
    assert (Hq : ~ (q == 0)%Q) by (rewrite <- Qzero_true; congruence).
    now field.
Qed.

Lemma weight_adj_sum_finite N ns r :
  (forall X, 1 <= X <= N -> finite_or_nan (r2_at X r)) ->
  feq (weight_adj_sum N ns r)
      (Fin (nonzero_present_weight (fun X => r2_at X r) N ns)).
Proof.
  intros Hfin. unfold weight_adj_sum, nonzero_present_weight.
  set (xs := List.map (fun i => fdiv (fmul (weight ns i) (r2_at (i + 1) r))
                                     (r2_at (i + 1) r)) (seq 0 N)).
  assert (Hcell : forall i, In i (seq 0 N) ->
            finite_or_nan (r2_at (i + 1) r)).
  { intros i Hi. apply in_seq in Hi. apply Hfin. lia. }
  assert (Hxs : Forall finite_or_nan xs).
  { apply List.Forall_forall. intros x Hx. apply in_map_iff in Hx as [i [<- Hi]].
    pose proof (weight_cell (nth i ns 0%Z) _ (Hcell i Hi)) as Hw.
    unfold weight. destruct (r2_at (i + 1) r) as [|s|q].
    - now rewrite Hw.
    - now rewrite Hw.
    - destruct (Qzero q); [now rewrite Hw|].
      destruct Hw as [w [-> _]]. exact I. }
  destruct (feq_fin_inv _ _ (nansum_finite xs Hxs)) as [a [-> E]].
  simpl. rewrite E. unfold xs. rewrite List.map_map.
  apply Qsum_comp. intros i Hi.
  pose proof (weight_cell (nth i ns 0%Z) _ (Hcell i Hi)) as Hw.
  unfold weight. destruct (r2_at (i + 1) r) as [|s|q].
  - now rewrite Hw.
  - now rewrite Hw.
  - destruct (Qzero q); [now rewrite Hw|].
    destruct Hw as [w [-> Ew]]. exact Ew.
Qed.

(** The combined Rsq of a row: the weighted sum of the present Rsq over the
    sum of the sample counts of the cohorts whose Rsq is present and
    is not 0. *)
Lemma row_r2_combined_finite N ns r :
  (forall X, 1 <= X <= N -> finite_or_nan (r2_at X r)) ->
  feq (row_r2_combined N ns r)
      (fdiv (Fin (spec_numerator (fun X => r2_at X r) N ns))
            (Fin (nonzero_present_weight (fun X => r2_at X r) N ns))).
Proof.
  intros Hfin. unfold row_r2_combined.
  destruct (feq_fin_inv _ _ (adj_sum_finite r2_at N ns r Hfin)) as [a [-> Ea]].
  destruct (feq_fin_inv _ _ (weight_adj_sum_finite N ns r Hfin)) as [b [-> Eb]].
  now apply fdiv_fin_comp.
Qed.

Lemma row_freq_combined_finite (val : nat -> merged_row -> float64) N ns r :
  (forall X, 1 <= X <= N -> finite_or_nan (val X r)) ->
  feq (row_freq_combined val N ns r) (spec_combined_freq (fun X => val X r) N ns).
Proof.
  intros Hfin. unfold row_freq_combined, spec_combined_freq.
  destruct (feq_fin_inv _ _ (adj_sum_finite val N ns r Hfin)) as [a [-> Ea]].
  unfold of_int. apply fdiv_fin_comp; [exact Ea|reflexivity].
Qed.

Lemma row_r2_combined_all_nan N ns r :
  (forall X, 1 <= X <= N -> r2_at X r = NaN) -> row_r2_combined N ns r = NaN.
Proof.
  intros Hnan. unfold row_r2_combined, adj_sum, weight_adj_sum.
  rewrite !nansum_all_nan; [reflexivity| |];
    apply List.Forall_forall; intros x Hx; apply in_map_iff in Hx as [i [<- Hi]];
    apply in_seq in Hi; rewrite Hnan by lia; unfold weight, of_int; reflexivity.
Qed.

(** For a row none of whose Rsq is 0, the combined Rsq is the one of the
    specification: the weighted sum over the sum of the sample counts of
    the cohorts whose Rsq is present. *)
Lemma row_r2_combined_no_zero N ns r :
  (forall X, 1 <= X <= N -> finite_or_nan (r2_at X r)) ->
  (forall X, 1 <= X <= N -> ~ feq (r2_at X r) (Fin 0)) ->
  feq (row_r2_combined N ns r) (spec_combined_r2 (fun X => r2_at X r) N ns).
Proof.
  intros Hfin Hnz. unfold row_r2_combined, spec_combined_r2.
  destruct (feq_fin_inv _ _ (adj_sum_finite r2_at N ns r Hfin)) as [p [-> Ep]].
  destruct (feq_fin_inv _ _ (weight_adj_sum_finite N ns r Hfin)) as [w [-> Ew]].
  apply fdiv_fin_comp; [exact Ep|]. rewrite Ew.
  unfold nonzero_present_weight, spec_present_weight.
  apply Qsum_comp. intros i Hi. apply in_seq in Hi.
  specialize (Hfin (i + 1)). specialize (Hnz (i + 1)).
  destruct (r2_at (i + 1) r) as [|s|q]; [reflexivity|exfalso; apply Hfin; lia|].
  destruct (Qzero q) eqn:Eq; [|reflexivity].
  exfalso. apply Hnz; [lia|]. now apply Qzero_true.
Qed.

(** ** C7 *)

(** C7: in weighted_average mode, when the genotype files can be read and
    the columns of the frame are numeric, the computation returns the
    sample counts n_i read from the files, and for every variant whose MAF
    and ALT_Frq are numbers or absent, MAF_combined is the sum over all the
    N cohorts of maf_i times n_i, an absent maf_i counting for 0, divided by
    the sum of all the N sample counts; ALT_Frq_combined follows the same
    rule. *)
Theorem combined_maf_altfrq_formula (gzip_open : string -> option (list string))
    df fns ns :
  count_individuals gzip_open fns = Return ns ->
  length fns <= n_groups df ->
  numeric_cols (length fns) df ->
  exists cols,
    __calculate_weighted_r2_maf_altFrq gzip_open df fns = Return (cols, ns)
    /\ forall j r,
         rows df !! j = Some r ->
         (forall X, 1 <= X <= length fns ->
            finite_or_nan (maf_at X r) /\ finite_or_nan (alt_frq_at X r)) ->
         (exists x, maf_combined cols !! j = Some x
            /\ feq x (spec_combined_freq (fun X => maf_at X r) (length fns) ns))
         /\ (exists y, alt_frq_combined cols !! j = Some y
               /\ feq y (spec_combined_freq (fun X => alt_frq_at X r)
                                            (length fns) ns)).
Proof.
  intros Hns Hg Hnum.
  destruct (calculate_weighted_returns gzip_open df fns ns Hns Hg Hnum)
    as [cols Hcols].
  exists cols. split; [exact Hcols|]. intros j r Hr Hfin.
  apply calculate_weighted_spec in Hcols as (_ & _ & _ & Hmaf & Halt).
  rewrite Hmaf, Halt.
  split; eexists; (split; [apply (lookup_map_rows _ _ _ _ Hr)|]);
    apply row_freq_combined_finite; intros X HX; now apply Hfin.
Qed.

Lemma weighted_df_numeric : numeric_cols (length two_inputs) weighted_df.
Proof.
  intros r X Hr HX. simpl in HX.
  assert (E : X = 1 \/ X = 2) by lia.
  unfold weighted_df in Hr. vm_compute in Hr.
  repeat (destruct Hr as [<-|Hr]; [destruct E as [-> | ->]; vm_compute; auto|]).
  destruct Hr.
Qed.

Lemma combined_maf_altfrq_formula_witness :
  exists cols,
    __calculate_weighted_r2_maf_altFrq sample_files weighted_df two_inputs
    = Return (cols, [100; 50]%Z)
    /\ forall j r,
         rows weighted_df !! j = Some r ->
         (forall X, 1 <= X <= length two_inputs ->
            finite_or_nan (maf_at X r) /\ finite_or_nan (alt_frq_at X r)) ->
         (exists x, maf_combined cols !! j = Some x
            /\ feq x (spec_combined_freq (fun X => maf_at X r)
                                         (length two_inputs) [100; 50]%Z))
         /\ (exists y, alt_frq_combined cols !! j = Some y
               /\ feq y (spec_combined_freq (fun X => alt_frq_at X r)
                                            (length two_inputs) [100; 50]%Z)).
Proof.
  apply (combined_maf_altfrq_formula sample_files weighted_df two_inputs
           [100; 50]%Z).
  - vm_compute. reflexivity.
  - vm_compute. lia.
  - exact weighted_df_numeric.
Defined.

(** ** C9 *)

(** C9: in weighted_average mode, when the genotype files can be read and
    the columns of the frame are numeric, the computation returns, and
    every variant whose Rsq is absent in every cohort gets a missing (NaN)
    Rsq_combined. *)
Theorem all_absent_r2_gives_nan (gzip_open : string -> option (list string))
    df fns ns :
  count_individuals gzip_open fns = Return ns ->
  length fns <= n_groups df ->
  numeric_cols (length fns) df ->
  exists cols,
    __calculate_weighted_r2_maf_altFrq gzip_open df fns = Return (cols, ns)
    /\ forall j r,
         rows df !! j = Some r ->
         (forall X, 1 <= X <= length fns -> Rsq_g (group X r) = Num NaN) ->
         r2_combined cols !! j = Some NaN.
Proof.
  intros Hns Hg Hnum.
  destruct (calculate_weighted_returns gzip_open df fns ns Hns Hg Hnum)
    as [cols Hcols].
  exists cols. split; [exact Hcols|]. intros j r Hr Hnan.
  apply calculate_weighted_spec in Hcols as (_ & _ & Hr2 & _).
  rewrite Hr2, (lookup_map_rows _ _ _ _ Hr). f_equal.
  apply row_r2_combined_all_nan. intros X HX. unfold r2_at.
  now rewrite Hnan.
Qed.

Lemma all_absent_r2_gives_nan_witness :
  exists cols,
    __calculate_weighted_r2_maf_altFrq sample_files weighted_df two_inputs
    = Return (cols, [100; 50]%Z)
    /\ forall j r,
         rows weighted_df !! j = Some r ->
         (forall X, 1 <= X <= length two_inputs -> Rsq_g (group X r) = Num NaN) ->
         r2_combined cols !! j = Some NaN.
Proof.
  apply (all_absent_r2_gives_nan sample_files weighted_df two_inputs [100; 50]%Z).
  - vm_compute. reflexivity.
  - vm_compute. lia.
  - intros r X Hr HX. simpl in HX.
    assert (E : X = 1 \/ X = 2) by lia.
    unfold weighted_df in Hr. vm_compute in Hr.
    repeat (destruct Hr as [<-|Hr]; [destruct E as [-> | ->]; vm_compute; auto|]).
    destruct Hr.
Defined.

(** The variant of the sample whose Rsq is not a number in either cohort. *)
Example all_absent_row :
  (forall X, 1 <= X <= 2 -> Rsq_g (group X (weighted_row 2)) = Num NaN)
  /\ rows weighted_df !! 2 = Some (weighted_row 2).
Proof.
  split; [|reflexivity]. intros X HX.
  assert (E : X = 1 \/ X = 2) by lia. destruct E as [-> | ->]; reflexivity.
Qed.

(** ** C10 *)

(** C10: in weighted_average mode, when the genotype files can be read and
    the columns of the frame are numeric, the computation returns the
    sample counts n_i read from the files; for every variant whose Rsq are
    numbers or absent, the cell of the column [Rsq_groupX_weight_adj] that
    the loop builds as [n_i * r2_i / r2_i] is missing for a cohort whose
    Rsq is 0, and Rsq_combined is the weighted sum of the Rsq divided by
    the sum of the sample counts of the cohorts whose Rsq is present and is
    not 0: in the denominator a present Rsq of 0 counts as an absent one. *)
Theorem zero_r2_weight_excluded (gzip_open : string -> option (list string))
    df fns ns :
  count_individuals gzip_open fns = Return ns ->
  length fns <= n_groups df ->
  numeric_cols (length fns) df ->
  exists cols adj,
    __calculate_weighted_r2_maf_altFrq gzip_open df fns = Return (cols, ns)
    /\ for_each (adj_step df ns) (seq 0 (length fns)) adj_init = Return adj
    /\ forall j r,
         rows df !! j = Some r ->
         (forall X, 1 <= X <= length fns -> finite_or_nan (r2_at X r)) ->
         (forall i, i < length fns -> feq (r2_at (i + 1) r) (Fin 0) ->
            exists w, lst_weight_adj adj !! i = Some w /\ w !! j = Some NaN)
         /\ (exists x, r2_combined cols !! j = Some x
               /\ feq x (fdiv (Fin (spec_numerator (fun X => r2_at X r)
                                                   (length fns) ns))
                              (Fin (nonzero_present_weight (fun X => r2_at X r)
                                                           (length fns) ns)))).
Proof.
  intros Hns Hg Hnum.
  destruct (calculate_weighted_returns gzip_open df fns ns Hns Hg Hnum)
    as [cols Hcols].
  pose proof (count_individuals_length _ _ _ Hns) as Hlen.
  destruct (adj_loop_returns df ns (length fns) 0 adj_init) as [adj Hadj];
    [cbn; lia|cbn; lia|exact Hnum|].
  exists cols, adj. split; [exact Hcols|]. split; [exact Hadj|].
  intros j r Hr Hfin. split.
  - intros i Hi Hz. apply adj_loop_inv in Hadj. subst adj.
    cbn [lst_weight_adj adj_init app].
    exists (weight_col df ns i). split.
    + change (List.map ?f ?l) with (f <$> l).
      rewrite list_lookup_fmap, lookup_seq_lt by exact Hi. reflexivity.
    + unfold weight_col. rewrite (lookup_map_rows _ _ _ _ Hr).
      f_equal. unfold weight.
      destruct (feq_fin_inv _ _ Hz) as [q [Eq Hq]].
      pose proof (weight_cell (nth i ns 0%Z) (r2_at (i + 1) r)) as Hw.
      rewrite Eq in *. apply Qzero_true in Hq. rewrite Hq in Hw. now apply Hw.
  - apply calculate_weighted_spec in Hcols as (_ & _ & Hr2 & _).
    rewrite Hr2. eexists. split; [apply (lookup_map_rows _ _ _ _ Hr)|].
    now apply row_r2_combined_finite.
Qed.

Lemma zero_r2_weight_excluded_witness :
  exists cols adj,
    __calculate_weighted_r2_maf_altFrq sample_files weighted_df two_inputs
    = Return (cols, [100; 50]%Z)
    /\ for_each (adj_step weighted_df [100; 50]%Z) (seq 0 (length two_inputs))
         adj_init = Return adj
    /\ forall j r,
         rows weighted_df !! j = Some r ->
         (forall X, 1 <= X <= length two_inputs -> finite_or_nan (r2_at X r)) ->
         (forall i, i < length two_inputs -> feq (r2_at (i + 1) r) (Fin 0) ->
            exists w, lst_weight_adj adj !! i = Some w /\ w !! j = Some NaN)
         /\ (exists x, r2_combined cols !! j = Some x
               /\ feq x (fdiv (Fin (spec_numerator (fun X => r2_at X r)
                                                   (length two_inputs) [100; 50]%Z))
                              (Fin (nonzero_present_weight
                                      (fun X => r2_at X r)
                                      (length two_inputs) [100; 50]%Z)))).
Proof.
  apply (zero_r2_weight_excluded sample_files weighted_df two_inputs [100; 50]%Z).
  - vm_compute. reflexivity.
  - vm_compute. lia.
  - exact weighted_df_numeric.
Defined.

(** The variant of the sample whose Rsq is 0 in the first cohort. *)
Example zero_r2_row :
  rows weighted_df !! 3 = Some (weighted_row 3)
  /\ feq (r2_at 1 (weighted_row 3)) (Fin 0)
  /\ feq (r2_at 2 (weighted_row 3)) (Fin (8 # 10)).
Proof. repeat split. Qed.

(** ** C2 *)

(** C2 at two cohorts of 100 and 50 individuals and a variant whose Rsq is
    0 in the first and 0.80 in the second: the specification gives
    (0*100 + 0.80*50) / (100 + 50) = 4/15, the code gives 0.80, the weight
    of the first cohort being missing. *)
Theorem weighted_r2_with_zero_rsq :
  exists out row x,
    get_snp_list decimal sample_files weighted_tables
      (sample_flags two_inputs 1 0 "weighted_average") = Return out
    /\ lst_number_of_individuals out = [100; 50]%Z
    /\ df_merged_final out !! 3 = Some row
    /\ feq (r2_value 1 row) (Fin 0)
    /\ feq (r2_value 2 row) (Fin (8 # 10))
    /\ Rsq_combined row = Num x
    /\ feq x (Fin (8 # 10))
    /\ feq (spec_combined_r2 (fun X => r2_value X row) 2 [100; 50]%Z) (Fin (4 # 15))
    /\ ~ feq x (spec_combined_r2 (fun X => r2_value X row) 2 [100; 50]%Z).
Proof.
  eexists. eexists. eexists.
  split; [vm_compute; reflexivity|].
  split; [reflexivity|].
  split; [reflexivity|].
  repeat split; vm_compute; discriminate.
Qed.

(** C2, the case of a variant that only the second cohort has: when its
    Rsq there is 0 the code gives a missing value, not 0. *)
Example weighted_r2_single_cohort :
  row_r2_combined 2 [100; 50]%Z
    {| mkey := keyA;
       groups := [na_group;
                  {| index_g := Some 0; ALT_Frq_g := Num (Fin (1 # 10));
                     MAF_g := Num (Fin (1 # 10)); Rsq_g := Num (Fin 0) |}] |}
  = NaN
  /\ feq (row_r2_combined 2 [100; 50]%Z
            {| mkey := keyA;
               groups := [na_group;
                          {| index_g := Some 0; ALT_Frq_g := Num (Fin (1 # 10));
                             MAF_g := Num (Fin (1 # 10));
                             Rsq_g := Num (Fin (6 # 10)) |}] |})
         (Fin (6 # 10)).
Proof. split; vm_compute; reflexivity. Qed.

(** ** C4 *)

(** C4 at the two sample tables (the first lists the variants A, B, the
    second C, A) with '--missing' 1: the three variants are kept and
    written in the order of the merge, A, B, C, whose sort keys are
    1, 2, 1; the sorted copy is only bound to the attribute
    [sort_values] of the frame. *)
Theorem kept_rows_not_sorted_by_key :
  exists out,
    get_snp_list decimal sample_files sample_tables
      (sample_flags two_inputs 1 0 "first") = Return out
    /\ List.map o_key (variants_kept out)
       = [key_of (snpA "" "" ""); key_of (snpB "" "" ""); key_of (snpC "" "" "")]
    /\ List.map sum_index_NA_ffilled (variants_kept out) = [1; 2; 1]%Z
    /\ ~ Sorted Z.le (List.map sum_index_NA_ffilled (variants_kept out))
    /\ List.map fst (df_merged_sort_values out) = [1; 1; 2]%Z.
Proof.
  eexists. split; [vm_compute; reflexivity|].
  split; [reflexivity|]. split; [reflexivity|]. split; [|reflexivity].
  cbn. intros H. inversion H as [|? ? H1 _]; subst.
  inversion H1 as [|? ? _ H2]; subst. inversion H2; subst. lia.
Qed.

(** * Further properties *)

(** ** The rows of an outer merge *)

Lemma rows_of_In {C : Type} (k : key) (t : list (key * C)) c :
  In c (rows_of k t) <-> In (k, c) t.
Proof.
  unfold rows_of. rewrite in_map_iff. split.
  - intros [[k' c'] [E H]]. apply filter_In in H as [H Hk].
    apply key_eqb_eq in Hk. simpl in *. now subst.
  - intros H. exists (k, c). split; [reflexivity|].
    apply filter_In. split; [exact H|]. now apply key_eqb_eq.
Qed.

Lemma rows_of_nil {C : Type} (k : key) (t : list (key * C)) :
  rows_of k t = [] <-> ~ In k (List.map fst t).
Proof.
  split.
  - intros E Hin. apply in_map_iff in Hin as [[k' c] [Ek Hin]]. simpl in Ek. subst k'.
    apply rows_of_In in Hin. rewrite E in Hin. destruct Hin.
  - intros Hn. destruct (rows_of k t) as [|c cs] eqn:E; [reflexivity|].
    exfalso. apply Hn. apply in_map_iff. exists (k, c). split; [reflexivity|].
    apply rows_of_In. rewrite E. now left.
Qed.

(** The rows an outer merge makes for a key: a left row with the key or a
    missing entry if there is none, and the same on the right; not both
    missing. *)
Lemma join_group_In {A B : Type} (l : list (key * A)) (r : list (key * B)) k a b :
  In (k, a, b) (join_group l r k)
  <-> match a with Some x => In (k, x) l | None => ~ In k (List.map fst l) end
      /\ match b with Some y => In (k, y) r | None => ~ In k (List.map fst r) end
      /\ (a <> None \/ b <> None).
Proof.
  assert (Ha : forall x, In (k, x) l <-> In x (rows_of k l))
    by (intros; symmetry; apply rows_of_In).
  assert (Hb : forall y, In (k, y) r <-> In y (rows_of k r))
    by (intros; symmetry; apply rows_of_In).
  pose proof (rows_of_nil k l) as Hna. pose proof (rows_of_nil k r) as Hnb.
  unfold join_group.
  destruct (rows_of k l) as [|a0 ls], (rows_of k r) as [|b0 rs].
  - split; [intros []|]. intros (H1 & H2 & H3).
    destruct a as [x|]; [apply Ha in H1; destruct H1|].
    destruct b as [y|]; [apply Hb in H2; destruct H2|].
    destruct H3; congruence.
  - rewrite in_map_iff. split.
    + intros [y [E Hy]]. injection E as <- <-.
      split; [now apply Hna|]. split; [now apply Hb|]. right. discriminate.
    + intros (H1 & H2 & _).
      destruct a as [x|]; [apply Ha in H1; destruct H1|].
      destruct b as [y|]; [|apply Hnb in H2; discriminate].
      exists y. split; [reflexivity|now apply Hb].
  - rewrite in_map_iff. split.
    + intros [x [E Hx]]. injection E as <- <-.
      split; [now apply Ha|]. split; [now apply Hnb|]. left. discriminate.
    + intros (H1 & H2 & _).
      destruct b as [y|]; [apply Hb in H2; destruct H2|].
      destruct a as [x|]; [|apply Hna in H1; discriminate].
      exists x. split; [reflexivity|now apply Ha].
  - rewrite in_flat_map. split.
    + intros [x [Hx H]]. apply in_map_iff in H as [y [E Hy]].
      injection E as <- <-.
      split; [now apply Ha|]. split; [now apply Hb|]. left. discriminate.
    + intros (H1 & H2 & _).
      destruct a as [x|]; [|apply Hna in H1; discriminate].
      destruct b as [y|]; [|apply Hnb in H2; discriminate].
      exists x. split; [now apply Ha|]. apply in_map_iff.
      exists y. split; [reflexivity|now apply Hb].
Qed.

Lemma outer_merge_In {A B : Type} (l : list (key * A)) (r : list (key * B)) k a b :
  In (k, a, b) (outer_merge l r)
  <-> match a with Some x => In (k, x) l | None => ~ In k (List.map fst l) end
      /\ match b with Some y => In (k, y) r | None => ~ In k (List.map fst r) end
      /\ (a <> None \/ b <> None).
Proof.
  unfold outer_merge. rewrite in_flat_map. split.
  - intros [k' [_ H]].
    pose proof (join_group_keys l r k') as Hk.
    rewrite List.Forall_forall in Hk. specialize (Hk _ H). simpl in Hk. subst k'.
    now apply join_group_In.
  - intros H. exists k. split; [|now apply join_group_In].
    apply first_seen_In. split; [|intros []].
    apply in_app_iff. destruct H as (H1 & H2 & H3).
    destruct a as [x|].
    + left. apply in_map_iff. now exists (k, x).
    + destruct b as [y|]; [|destruct H3; congruence].
      right. apply in_map_iff. now exists (k, y).
Qed.

Lemma reset_index_from_In i (df : info_df) k g :
  In (k, g) (reset_index_from i df)
  <-> exists p r, df !! p = Some r /\ key_of r = k /\ g = cohort_group (i + p) r.
Proof.
  revert i. induction df as [|r0 df IH]; intros i; cbn [reset_index_from].
  - split; [intros []|]. intros (p & r & H & _). destruct p; discriminate.
  - cbn [In]. rewrite IH. split.
    + intros [E|(p & r & H & Hk & Hg)].
      * injection E as <- <-. exists 0, r0. rewrite Nat.add_0_r. now repeat split.
      * exists (S p), r. replace (i + S p) with (S i + p) by lia. now repeat split.
    + intros (p & r & H & Hk & Hg). destruct p as [|p].
      * left. cbn in H. injection H as <-. rewrite Nat.add_0_r in Hg. now subst.
      * right. exists p, r. replace (S i + p) with (i + S p) by lia. now repeat split.
Qed.

Lemma reset_index_In (df : info_df) k g :
  In (k, g) (reset_index df)
  <-> exists p r, df !! p = Some r /\ key_of r = k /\ g = cohort_group p r.
Proof. unfold reset_index. now rewrite reset_index_from_In. Qed.

(** ** The merged frame and the cohort tables *)

Lemma in_keys_pick {C : Type} k (l : list (key * C)) :
  In k (List.map fst l) -> exists c, In (k, c) l.
Proof.
  intros H. apply in_map_iff in H as [[k' c] [E H]]. simpl in E. subst k'.
  now exists c.
Qed.

Lemma frame_pairs_In (df : DataFrame) k gs :
  In (k, gs) (List.map (fun r => (mkey r, groups r)) (rows df))
  <-> exists row, In row (rows df) /\ mkey row = k /\ groups row = gs.
Proof.
  rewrite in_map_iff. split.
  - intros [row [E H]]. injection E as <- <-. now exists row.
  - intros [row [H [<- <-]]]. now exists row.
Qed.

Lemma frame_pairs_keys (df : DataFrame) :
  List.map fst (List.map (fun r => (mkey r, groups r)) (rows df)) = frame_keys df.
Proof. unfold frame_keys. rewrite List.map_map. reflexivity. Qed.

Lemma lookup_In {A : Type} (l : list A) i a : l !! i = Some a -> In a l.
Proof. intros H. apply list_elem_of_In, list_elem_of_lookup. now exists i. Qed.

Lemma merge_first_In df1 df2 row :
  In row (rows (merge_first df1 df2))
  <-> exists k a b,
        row = {| mkey := k; groups := [default na_group a; default na_group b] |}
        /\ In (k, a, b) (outer_merge (reset_index df1) (reset_index df2)).
Proof.
  unfold merge_first. cbn [rows]. rewrite in_map_iff. split.
  - intros [[[k a] b] [E H]]. now exists k, a, b.
  - intros (k & a & b & E & H). now exists (k, a, b).
Qed.

Lemma merge_next_In df_merged df row :
  In row (rows (merge_next df_merged df))
  <-> exists k a b,
        row = {| mkey := k;
                 groups := default (repeat na_group (n_groups df_merged)) a
                             ++ [default na_group b] |}
        /\ In (k, a, b)
             (outer_merge (List.map (fun r => (mkey r, groups r)) (rows df_merged))
                          (reset_index df)).
Proof.
  unfold merge_next. cbn [rows]. rewrite in_map_iff. split.
  - intros [[[k a] b] [E H]]. now exists k, a, b.
  - intros (k & a & b & E & H). now exists (k, a, b).
Qed.

Lemma merge_first_inv df1 df2 : merge_inv [df1; df2] (merge_first df1 df2).
Proof.
  split; [|split].
  - split; [reflexivity|]. apply List.Forall_forall. intros row Hrow.
    apply merge_first_In in Hrow as (k & a & b & -> & _). reflexivity.
  - intros row i t Hrow Hi.
    apply merge_first_In in Hrow as (k & a & b & -> & H).
    apply outer_merge_In in H as (Ha & Hb & _). rewrite reset_index_keys in Ha, Hb.
    destruct i as [|[|i]]; [| |discriminate]; injection Hi as <-; cbn [mkey groups nth].
    + destruct a as [g|]; [left; now apply reset_index_In|right; now split].
    + destruct b as [g|]; [left; now apply reset_index_In|right; now split].
  - intros i t p r Hi Hp.
    destruct i as [|[|i]]; [| |discriminate]; injection Hi as <-.
    + assert (Hin : In (key_of r, cohort_group p r) (reset_index df1))
        by (apply reset_index_In; now exists p, r).
      destruct (in_dec key_dec (key_of r) (List.map fst (reset_index df2))) as [H2|H2].
      * apply in_keys_pick in H2 as [g2 H2]. eexists. split.
        -- apply merge_first_In. exists (key_of r), (Some (cohort_group p r)), (Some g2).
           split; [reflexivity|]. apply outer_merge_In.
           split; [exact Hin|]. split; [exact H2|]. left. discriminate.
        -- split; reflexivity.
      * eexists. split.
        -- apply merge_first_In. exists (key_of r), (Some (cohort_group p r)), None.
           split; [reflexivity|]. apply outer_merge_In.
           split; [exact Hin|]. split; [exact H2|]. left. discriminate.
        -- split; reflexivity.
    + assert (Hin : In (key_of r, cohort_group p r) (reset_index df2))
        by (apply reset_index_In; now exists p, r).
      destruct (in_dec key_dec (key_of r) (List.map fst (reset_index df1))) as [H1|H1].
      * apply in_keys_pick in H1 as [g1 H1]. eexists. split.
        -- apply merge_first_In. exists (key_of r), (Some g1), (Some (cohort_group p r)).
           split; [reflexivity|]. apply outer_merge_In.
           split; [exact H1|]. split; [exact Hin|]. left. discriminate.
        -- split; reflexivity.
      * eexists. split.
        -- apply merge_first_In. exists (key_of r), None, (Some (cohort_group p r)).
           split; [reflexivity|]. apply outer_merge_In.
           split; [exact H1|]. split; [exact Hin|]. right. discriminate.
        -- split; reflexivity.
Qed.

Lemma merge_next_inv ts df_merged df :
  merge_inv ts df_merged -> merge_inv (ts ++ [df]) (merge_next df_merged df).
Proof.
  intros ([Hn Hlen] & Hsound & Hcompl).
  rewrite List.Forall_forall in Hlen.
  set (L := List.map (fun r => (mkey r, groups r)) (rows df_merged)).
  assert (HL : forall k a, match a with
                           | Some gs => In (k, gs) L
                           | None => ~ In k (List.map fst L)
                           end ->
               length (default (repeat na_group (n_groups df_merged)) a) = length ts).
  { intros k [gs|] H; cbn [from_option]; unfold id.
    - apply frame_pairs_In in H as (row & Hrow & _ & <-). now apply Hlen.
    - now rewrite repeat_length. }
  split; [|split].
  - split; [cbn [merge_next n_groups]; rewrite length_app; cbn; lia|].
    apply List.Forall_forall. intros row Hrow.
    apply merge_next_In in Hrow as (k & a & b & -> & H).
    apply outer_merge_In in H as (Ha & _). cbn [groups].
    rewrite !length_app, (HL k a Ha). reflexivity.
  - intros row i t Hrow Hi.
    apply merge_next_In in Hrow as (k & a & b & -> & H).
    apply outer_merge_In in H as (Ha & Hb & _). cbn [mkey groups].
    pose proof (HL k a Ha) as Hla.
    destruct (Nat.lt_ge_cases i (length ts)) as [Hlt|Hge].
    + rewrite lookup_app_l in Hi by exact Hlt.
      rewrite app_nth1 by lia.
      destruct a as [gs|]; cbn [from_option]; unfold id.
      * apply frame_pairs_In in Ha as (row & Hrow & <- & <-). now apply Hsound.
      * right. split.
        -- intros Hk. apply in_map_iff in Hk as [r [Ek Hr]].
           apply list_elem_of_In, list_elem_of_lookup in Hr as [p Hp].
           destruct (Hcompl i t p r Hi Hp) as (row & Hrow & Hkey & _).
           apply Ha. unfold L. rewrite frame_pairs_keys. unfold frame_keys.
           apply in_map_iff. exists row. split; [congruence|exact Hrow].
        -- rewrite nth_repeat. reflexivity.
    + rewrite lookup_app_r in Hi by exact Hge.
      destruct (i - length ts) as [|j] eqn:Ej; [|destruct j; discriminate].
      injection Hi as <-. assert (i = length ts) by lia. subst i.
      rewrite app_nth2 by lia. rewrite Hla, Nat.sub_diag. cbn [nth].
      rewrite reset_index_keys in Hb.
      destruct b as [g|]; cbn [from_option]; unfold id;
        [left; now apply reset_index_In|right; now split].
  - intros i t p r Hi Hp.
    destruct (Nat.lt_ge_cases i (length ts)) as [Hlt|Hge].
    + rewrite lookup_app_l in Hi by exact Hlt.
      destruct (Hcompl i t p r Hi Hp) as (row & Hrow & Hkey & Hg).
      assert (Hin : In (key_of r, groups row) L)
        by (apply frame_pairs_In; now exists row).
      assert (Hrow' : exists b, In (key_of r, Some (groups row), b)
                                  (outer_merge L (reset_index df))).
      { destruct (in_dec key_dec (key_of r) (List.map fst (reset_index df))) as [H2|H2].
        - apply in_keys_pick in H2 as [g2 H2]. exists (Some g2).
          apply outer_merge_In. split; [exact Hin|]. split; [exact H2|].
          left. discriminate.
        - exists None. apply outer_merge_In. split; [exact Hin|]. split; [exact H2|].
          left. discriminate. }
      destruct Hrow' as [b Hb]. eexists. split.
      * apply merge_next_In. exists (key_of r), (Some (groups row)), b.
        split; [reflexivity|exact Hb].
      * split; [reflexivity|]. cbn [groups from_option]; unfold id.
        rewrite app_nth1 by (rewrite (Hlen row Hrow); lia). exact Hg.
    + rewrite lookup_app_r in Hi by exact Hge.
      destruct (i - length ts) as [|j] eqn:Ej; [|destruct j; discriminate].
      injection Hi as <-. assert (i = length ts) by lia. subst i.
      assert (Hin : In (key_of r, cohort_group p r) (reset_index df))
        by (apply reset_index_In; now exists p, r).
      assert (Hrow' : exists a, In (key_of r, a, Some (cohort_group p r))
                                  (outer_merge L (reset_index df))).
      { destruct (in_dec key_dec (key_of r) (List.map fst L)) as [H1|H1].
        - apply in_keys_pick in H1 as [gs H1]. exists (Some gs).
          apply outer_merge_In. split; [exact H1|]. split; [exact Hin|].
          left. discriminate.
        - exists None. apply outer_merge_In. split; [exact H1|]. split; [exact Hin|].
          right. discriminate. }
      destruct Hrow' as [a Ha]. eexists. split.
      * apply merge_next_In. exists (key_of r), a, (Some (cohort_group p r)).
        split; [reflexivity|exact Ha].
      * split; [reflexivity|]. cbn [groups].
        apply outer_merge_In in Ha as (Ha & _).
        rewrite app_nth2 by (rewrite (HL _ a Ha); lia).
        rewrite (HL _ a Ha), Nat.sub_diag. reflexivity.
Qed.

Lemma merge_rest_inv rest : forall i ts df_merged cols,
  merge_inv ts df_merged ->
  merge_inv (ts ++ rest) (fst (merge_rest i df_merged cols rest))
  /\ snd (merge_rest i df_merged cols rest) = cols ++ seq (i + 1) (length rest).
Proof.
  induction rest as [|df rest IH]; intros i ts df_merged cols Hinv; cbn [merge_rest].
  - rewrite !app_nil_r. split; [exact Hinv|reflexivity].
  - destruct (IH (S i) (ts ++ [df]) (merge_next df_merged df) (cols ++ [i + 1])
                (merge_next_inv ts df_merged df Hinv)) as [H1 H2].
    rewrite <- app_assoc in H1. split; [exact H1|].
    rewrite H2, <- app_assoc. cbn [length seq app].
    replace (S i + 1) with (S (i + 1)) by lia. reflexivity.
Qed.

(** The merge of two or more tables returns a frame that satisfies the
    invariant, with the index columns of the groups 1 to N. *)
Lemma merge_snps_inv (lst_info_df : list info_df) :
  2 <= length lst_info_df ->
  exists df_merged,
    __merge_snps lst_info_df
    = Return (Frame df_merged, seq 1 (length lst_info_df))
    /\ merge_inv lst_info_df df_merged.
Proof.
  destruct lst_info_df as [|df1 [|df2 rest]]; cbn [length]; try lia. intros _.
  cbn [__merge_snps].
  destruct (merge_rest_inv rest 2 [df1; df2] (merge_first df1 df2) [1; 2]
              (merge_first_inv df1 df2)) as [H1 H2].
  destruct (merge_rest 2 (merge_first df1 df2) [1; 2] rest) as [df cols].
  cbn [fst snd] in H1, H2. subst cols. exists df. split; [|exact H1].
  reflexivity.
Qed.

Lemma merge_snps_returns_inv lst_info_df df_merged cols :
  __merge_snps lst_info_df = Return (Frame df_merged, cols) ->
  cols = seq 1 (length lst_info_df) /\ merge_inv lst_info_df df_merged.
Proof.
  intros H.
  assert (Hlen : 2 <= length lst_info_df).
  { destruct lst_info_df as [|df1 [|df2 rest]]; cbn in H; try discriminate.
    cbn [length]. lia. }
  destruct (merge_snps_inv lst_info_df Hlen) as (df & E & Hinv).
  rewrite E in H. injection H as <- <-. now split.
Qed.

(** X1: the merge of N >= 2 tables returns a frame with the columns of the
    N cohorts: every row has N groups of columns, and the list of index
    columns returned names the groups 1 to N in order. *)
Theorem merge_snps_columns (lst_info_df : list info_df) :
  2 <= length lst_info_df ->
  exists df_merged,
    __merge_snps lst_info_df = Return (Frame df_merged, seq 1 (length lst_info_df))
    /\ n_groups df_merged = length lst_info_df
    /\ Forall (fun r => length (groups r) = length lst_info_df) (rows df_merged).
Proof.
  intros Hlen. destruct (merge_snps_inv lst_info_df Hlen) as (df & E & [Hn Hl] & _).
  exists df. now repeat split.
Qed.

Lemma merge_snps_columns_witness :
  exists df_merged,
    __merge_snps [cohort1; cohort2; cohort3]
    = Return (Frame df_merged, seq 1 (length [cohort1; cohort2; cohort3]))
    /\ n_groups df_merged = length [cohort1; cohort2; cohort3]
    /\ Forall (fun r => length (groups r) = length [cohort1; cohort2; cohort3])
              (rows df_merged).
Proof. apply (merge_snps_columns [cohort1; cohort2; cohort3]). simpl. lia. Defined.

(** X2: in the merged frame, the columns of cohort i+1 in a row are those
    of a row of the i-th table that has the key of the row, with the
    position of that row as index and its ALT_Frq, MAF and Rsq unchanged;
    or the table has no row with the key and the four columns are
    missing.  Nothing else is ever written into a cell. *)
Theorem merged_cells_come_from_tables (lst_info_df : list info_df)
    df_merged cols row i t :
  __merge_snps lst_info_df = Return (Frame df_merged, cols) ->
  In row (rows df_merged) ->
  lst_info_df !! i = Some t ->
  group_from t (mkey row) (group (i + 1) row).
Proof.
  intros H Hrow Hi. apply merge_snps_returns_inv in H as [_ (_ & Hsound & _)].
  unfold group. rewrite Nat.add_sub. now apply Hsound.
Qed.

Lemma merged_cells_come_from_tables_witness :
  group_from cohort2 (mkey (nth 1 (rows sample_df) empty_row))
             (group (1 + 1) (nth 1 (rows sample_df) empty_row)).
Proof.
  apply (merged_cells_come_from_tables [cohort1; cohort2; cohort3] sample_df
           [1; 2; 3] (nth 1 (rows sample_df) empty_row) 1 cohort2).
  - reflexivity.
  - vm_compute. right. left. reflexivity.
  - reflexivity.
Defined.

(** X3: every row of every table is in the merged frame: for the row at
    position p of the i-th table there is a row of the frame with its key
    whose columns of cohort i+1 hold the position p and the ALT_Frq, MAF
    and Rsq of that row. *)
Theorem every_table_row_is_merged (lst_info_df : list info_df)
    df_merged cols i t p r :
  __merge_snps lst_info_df = Return (Frame df_merged, cols) ->
  lst_info_df !! i = Some t ->
  t !! p = Some r ->
  exists row, In row (rows df_merged) /\ mkey row = key_of r
              /\ group (i + 1) row = cohort_group p r.
Proof.
  intros H Hi Hp. apply merge_snps_returns_inv in H as [_ (_ & _ & Hcompl)].
  destruct (Hcompl i t p r Hi Hp) as (row & Hrow & Hk & Hg).
  exists row. unfold group. rewrite Nat.add_sub. now repeat split.
Qed.

Lemma every_table_row_is_merged_witness :
  exists row, In row (rows sample_df)
              /\ mkey row = key_of (snpC "0.31" "0.31" "0.65")
              /\ group (2 + 1) row = cohort_group 1 (snpC "0.31" "0.31" "0.65").
Proof.
  apply (every_table_row_is_merged [cohort1; cohort2; cohort3] sample_df [1; 2; 3]
           2 cohort3 1 (snpC "0.31" "0.31" "0.65")); reflexivity.
Defined.

(** ** [__get_lst_info_df] *)

Lemma map_result_Forall2 {A B : Type} (f : A -> result B) (l : list A) (bs : list B) :
  map_result f l = Return bs <-> Forall2 (fun a b => f a = Return b) l bs.
Proof.
  revert bs. induction l as [|a l IH]; intros bs; cbn [map_result].
  - split.
    + intros H. injection H as <-. constructor.
    + intros H. inversion H. reflexivity.
  - split.
    + intros H. apply bind_inv in H as [b [Hb H]].
      apply bind_inv in H as [bs' [Hbs H]]. injection H as <-.
      constructor; [exact Hb|now apply IH].
    + intros H. inversion H as [|? b ? bs' Hb Hbs]; subst.
      apply IH in Hbs. rewrite Hb, bind_return, Hbs, bind_return. reflexivity.
Qed.

Lemma map_result_raise {A B : Type} (f : A -> result B) (l : list A) e :
  (forall a, In a l -> f a = Raise e \/ exists b, f a = Return b) ->
  (exists a, In a l /\ f a = Raise e) ->
  map_result f l = Raise e.
Proof.
  induction l as [|a l IH]; intros Hall [a' [Hin Ha']]; [destruct Hin|].
  cbn [map_result].
  destruct (Hall a) as [E|[b E]]; [now left|now rewrite E|].
  rewrite E, bind_return.
  destruct Hin as [->|Hin]; [congruence|].
  rewrite IH; [reflexivity| |now exists a'].
  intros x Hx. apply Hall. now right.
Qed.

(** X4: [__get_lst_info_df] returns the tables read from the .info.gz files
    of the inputs, one per input and in the order of '--input', exactly
    when every one of these files can be read; when one cannot, it raises
    IOError and returns no table. *)
Theorem get_lst_info_df_all_or_nothing (read_csv : string -> option info_df)
    (flags : dict_flags) :
  (forall lst,
     __get_lst_info_df read_csv flags = Return lst
     <-> Forall2 (fun fn df => read_csv (info_name fn) = Some df)
                 (flag_input flags) lst)
  /\ ((exists fn, In fn (flag_input flags) /\ read_csv (info_name fn) = None)
      -> __get_lst_info_df read_csv flags = Raise IOError).
Proof.
  unfold __get_lst_info_df. split.
  - intros lst. rewrite map_result_Forall2. split; intros H;
      (eapply Forall2_impl; [exact H|]); intros fn df; cbn beta;
      fold (info_name fn); destruct (read_csv (info_name fn)); congruence.
  - intros [fn [Hin Hfn]]. apply map_result_raise.
    + intros a _. fold (info_name a). destruct (read_csv (info_name a)) as [df|];
        [right; now exists df|now left].
    + exists fn. split; [exact Hin|]. fold (info_name fn). now rewrite Hfn.
Qed.

Lemma prefix_dose_straddle (a rest : string) :
  a <> EmptyString ->
  String.prefix ".dose" (a ++ ".dose" ++ rest) = true ->
  String.prefix ".dose" a = true.
Proof.
  intros Hne H.
  destruct a as [|c1 [|c2 [|c3 [|c4 [|c5 a]]]]]; [congruence| | | | |];
    unfold String.app in H; cbn [String.prefix String.append] in H |- *;
    repeat match goal with
           | H : context [ascii_dec ?x ?y] |- _ =>
               destruct (ascii_dec x y); try discriminate; subst
           end;
    repeat match goal with
           | |- context [ascii_dec ?x ?y] =>
               destruct (ascii_dec x y); try congruence
           end;
    try reflexivity; try discriminate.
  destruct a; reflexivity.
Qed.

Lemma split_first_before (base rest : string) :
  occurs ".dose" base = false ->
  split_first ".dose" (base ++ ".dose" ++ rest) = base.
Proof.
  induction base as [|c base IH]; intros Hocc.
  - unfold String.app. destruct rest; reflexivity.
  - cbn [occurs] in Hocc. apply orb_false_elim in Hocc as [Hp Hocc].
    change ((String c base ++ ".dose" ++ rest)%string)
      with (String c (base ++ ".dose" ++ rest)%string).
    cbn [split_first].
    destruct (String.prefix ".dose" (String c (base ++ ".dose" ++ rest))) eqn:E.
    + apply (prefix_dose_straddle (String c base) rest) in E; [congruence|discriminate].
    + f_equal. now apply IH.
Qed.

Lemma split_first_absent (sep s : string) :
  occurs sep s = false -> split_first sep s = s.
Proof.
  induction s as [|c s IH]; intros Hocc; [reflexivity|].
  cbn [occurs] in Hocc. apply orb_false_elim in Hocc as [Hp Hocc].
  cbn [split_first]. rewrite Hp. f_equal. now apply IH.
Qed.

(** X5: for an input named [base ++ ".dose" ++ rest], where ".dose" does
    not occur in [base], the table is read from [base ++ ".info.gz"]; for
    an input whose name has no ".dose", ".info.gz" is appended to the whole
    name. *)
Theorem info_name_of_input (base rest : string) :
  occurs ".dose" base = false ->
  info_name (base ++ ".dose" ++ rest) = (base ++ ".info.gz")%string
  /\ info_name base = (base ++ ".info.gz")%string.
Proof.
  intros Hocc. unfold info_name.
  now rewrite split_first_before, split_first_absent.
Qed.

Lemma info_name_of_input_witness :
  info_name ("data/chr21.group1" ++ ".dose" ++ ".vcf.gz")
  = ("data/chr21.group1" ++ ".info.gz")%string
  /\ info_name "data/chr21.group1" = ("data/chr21.group1" ++ ".info.gz")%string.
Proof. apply (info_name_of_input "data/chr21.group1" ".vcf.gz"). reflexivity. Defined.

(** ** The number of individuals of a genotype file *)

Lemma skip_header_comments (comments : list string) (lines : list string) :
  Forall (fun c => is_comment c = true) comments ->
  skip_header (comments ++ lines) = skip_header lines.
Proof.
  induction 1 as [|c cs Hc _ IH]; [reflexivity|].
  cbn [app skip_header]. unfold is_comment in Hc. now rewrite Hc.
Qed.

Lemma list_index_found x pre post :
  ~ In x pre -> list_index x (pre ++ x :: post) = Return (length pre).
Proof.
  induction pre as [|y pre IH]; intros Hn; cbn [app list_index length].
  - now rewrite String.eqb_refl.
  - destruct (String.eqb y x) eqn:E.
    + apply String.eqb_eq in E. exfalso. apply Hn. now left.
    + rewrite IH; [reflexivity|]. intros H. apply Hn. now right.
Qed.

Lemma list_index_raises x l :
  list_index x l = Raise ValueError <-> ~ In x l.
Proof.
  induction l as [|y l IH]; cbn [list_index].
  - split; [intros _ []|reflexivity].
  - destruct (String.eqb y x) eqn:E.
    + apply String.eqb_eq in E. split; [discriminate|]. intros H. exfalso. apply H. now left.
    + apply String.eqb_neq in E. split.
      * intros H [->|Hin]; [congruence|].
        destruct (list_index x l) as [e|i] eqn:El; [|discriminate].
        cbn in H. injection H as ->. now apply IH.
      * intros H. assert (Hl : list_index x l = Raise ValueError)
          by (apply IH; intros Hin; apply H; now right).
        now rewrite Hl.
Qed.

(** X6: the number of individuals of a genotype file is the number of
    columns after the column FORMAT in the first line that does not start
    with '##': the '##' lines before it are skipped and the lines after it
    are not read. *)
Theorem number_of_individuals_counts (comments rest : list string)
    (header : string) (pre samples : list string) :
  Forall (fun c => is_comment c = true) comments ->
  is_comment header = false ->
  String.words (strip header) = pre ++ "FORMAT" :: samples ->
  ~ In "FORMAT" pre ->
  number_of_individuals (comments ++ header :: rest)
  = Return (Z.of_nat (length samples)).
Proof.
  intros Hc Hh Hw Hpre. unfold number_of_individuals.
  rewrite skip_header_comments by exact Hc.
  cbn [skip_header]. unfold is_comment in Hh. rewrite Hh, Hw.
  rewrite list_index_found by exact Hpre. rewrite bind_return.
  f_equal. rewrite length_app. cbn [length]. lia.
Qed.

Lemma number_of_individuals_counts_witness :
  number_of_individuals
    (["##fileformat=VCFv4.1"; "  ##source=Minimac4 "]
       ++ "#CHROM POS ID REF ALT QUAL FILTER INFO FORMAT s1 s2 s3"
       :: ["chr21 100 chr21:100:A:G A G . PASS . GT 0|0 0|1 1|1"])
  = Return (Z.of_nat (length ["s1"; "s2"; "s3"])).
Proof.
  apply (number_of_individuals_counts
           ["##fileformat=VCFv4.1"; "  ##source=Minimac4 "]
           ["chr21 100 chr21:100:A:G A G . PASS . GT 0|0 0|1 1|1"]
           "#CHROM POS ID REF ALT QUAL FILTER INFO FORMAT s1 s2 s3"
           ["#CHROM"; "POS"; "ID"; "REF"; "ALT"; "QUAL"; "FILTER"; "INFO"]
           ["s1"; "s2"; "s3"]).
  - repeat constructor.
  - reflexivity.
  - reflexivity.
  - vm_compute. intuition discriminate.
Defined.

(** X7: reading the number of individuals raises ValueError exactly when
    the first line that does not start with '##' has no column FORMAT; in
    particular for a file that is empty or has only '##' lines. *)
Theorem number_of_individuals_value_error :
  (forall lines,
     number_of_individuals lines = Raise ValueError
     <-> ~ In "FORMAT" (String.words (skip_header lines)))
  /\ (forall comments,
        Forall (fun c => is_comment c = true) comments ->
        number_of_individuals comments = Raise ValueError).
Proof.
  assert (G : forall lines,
            number_of_individuals lines = Raise ValueError
            <-> ~ In "FORMAT" (String.words (skip_header lines))).
  { intros lines. unfold number_of_individuals.
    rewrite <- list_index_raises.
    destruct (list_index "FORMAT" (String.words (skip_header lines))) as [e|i] eqn:E.
    - rewrite bind_raise. split; intros H; injection H as H; now subst e.
    - rewrite bind_return. split; discriminate. }
  split; [exact G|].
  intros comments Hc. apply G.
  rewrite <- (app_nil_r comments), skip_header_comments by exact Hc.
  intros [].
Qed.

(** X8: when the counting of the individuals returns, it returns one
    number per input file, in the order of the inputs, each the number of
    individuals of its file and none of them negative. *)
Theorem count_individuals_per_file (gzip_open : string -> option (list string))
    (lst_input_fn : list string) (ns : list Z) :
  count_individuals gzip_open lst_input_fn = Return ns ->
  Forall2 (fun fn n => exists lines, gzip_open fn = Some lines
                                     /\ number_of_individuals lines = Return n)
          lst_input_fn ns
  /\ Forall (fun n => (0 <= n)%Z) ns.
Proof.
  revert ns. induction lst_input_fn as [|fn fns IH]; intros ns H;
    cbn [count_individuals] in H.
  - injection H as <-. split; constructor.
  - destruct (gzip_open fn) as [lines|] eqn:Eo; [|discriminate].
    apply bind_inv in H as [n [Hn H]]. apply bind_inv in H as [ns' [Hns H]].
    injection H as <-. destruct (IH ns' Hns) as [H2 Hpos]. split.
    + constructor; [now exists lines|exact H2].
    + constructor; [now apply number_of_individuals_nonneg in Hn|exact Hpos].
Qed.

Lemma count_individuals_per_file_witness :
  Forall2 (fun fn n => exists lines, sample_files fn = Some lines
                                     /\ number_of_individuals lines = Return n)
          two_inputs [100; 50]%Z
  /\ Forall (fun n => (0 <= n)%Z) [100; 50]%Z.
Proof.
  apply (count_individuals_per_file sample_files two_inputs [100; 50]%Z).
  vm_compute. reflexivity.
Defined.

(** X9: the counting raises IOError, and returns no number, when one of the
    genotype files cannot be opened and the files before it have a header
    line with a column FORMAT. *)
Theorem count_individuals_io_error (gzip_open : string -> option (list string))
    (before after : list string) (fn : string) (ns : list Z) :
  count_individuals gzip_open before = Return ns ->
  gzip_open fn = None ->
  count_individuals gzip_open (before ++ fn :: after) = Raise IOError.
Proof.
  revert ns. induction before as [|f fs IH]; intros ns H Hfn;
    cbn [app count_individuals] in *.
  - now rewrite Hfn.
  - destruct (gzip_open f) as [lines|]; [|discriminate].
    apply bind_inv in H as [n [Hn H]]. apply bind_inv in H as [ns' [Hns H]].
    rewrite Hn, bind_return, (IH ns' Hns Hfn). reflexivity.
Qed.

Lemma count_individuals_io_error_witness :
  count_individuals sample_files (two_inputs ++ "c9.dose.vcf.gz" :: ["c3.dose.vcf.gz"])
  = Raise IOError.
Proof.
  apply (count_individuals_io_error sample_files two_inputs ["c3.dose.vcf.gz"]
           "c9.dose.vcf.gz" [100; 50]%Z).
  - vm_compute. reflexivity.
  - reflexivity.
Defined.

(** ** The combined columns in the three modes *)

Lemma r2_cell_frame_row sums r2c mafc altc j r X :
  r2_cell X (frame_row sums r2c mafc altc j r) = Rsq_g (group X r).
Proof.
  unfold r2_cell, frame_row. cbn [o_groups].
  change na_csv with (csv_of na_group). rewrite map_nth. reflexivity.
Qed.

Lemma nth_map_lookup {A B : Type} (f : A -> B) (l : list A) j a d :
  l !! j = Some a -> nth j (List.map f l) d = f a.
Proof.
  intros H. apply nth_lookup_Some.
  change (List.map f l) with (f <$> l). now rewrite list_lookup_fmap, H.
Qed.

Lemma float_cols_inv df idx cs :
  map_result (fun X => float_col Rsq_g X df) idx = Return cs ->
  cs = List.map (fun X => List.map (fun r => cell_value (Rsq_g (group X r))) (rows df))
                idx.
Proof.
  revert cs. induction idx as [|X idx IH]; intros cs H; cbn [map_result] in H.
  - now injection H as <-.
  - apply bind_inv in H as [c [Hc H]]. apply bind_inv in H as [cs' [Hcs H]].
    injection H as <-. apply float_col_inv in Hc as (_ & -> & _).
    cbn [List.map]. f_equal. now apply IH.
Qed.

(** The sum of the values is the sum of those that are present. *)
Lemma Qsum_present (xs : list float64) :
  (Qsum (List.map fin_part xs)
   == Qsum (List.map fin_part (List.filter notna xs)))%Q.
Proof.
  induction xs as [|x xs IH]; [reflexivity|].
  change (Qsum (List.map fin_part (x :: xs)))
    with (fin_part x + Qsum (List.map fin_part xs))%Q.
  rewrite IH. destruct x as [|s|q]; cbn [List.filter notna isna negb fin_part].
  - apply Qplus_0_l.
  - reflexivity.
  - reflexivity.
Qed.

(** The mean of pandas on values that are numbers or missing. *)
Lemma nanmean_spec (xs : list float64) :
  Forall finite_or_nan xs -> feq (nanmean xs) (spec_mean xs).
Proof.
  intros Hfin. unfold nanmean, spec_mean, of_int.
  destruct (feq_fin_inv _ _ (nansum_finite xs Hfin)) as [a [-> Ea]].
  apply fdiv_fin_comp; [|reflexivity]. now rewrite Ea, Qsum_present.
Qed.

Section Modes.
Variable to_numeric : string -> float64.
Variable gzip_open : string -> option (list string).

(** A row of the enriched frame is made from the row of the merged frame
    at the same position. *)
Lemma final_row_inv df flags cols out row :
  __process_output to_numeric gzip_open df flags cols = Return out ->
  In row (df_merged_final out) ->
  exists r2c mafc altc j r,
    combine_r2 gzip_open flags
      (state_after to_numeric flags df (length (flag_input flags)))
    = Return (r2c, mafc, altc, lst_number_of_individuals out)
    /\ length (flag_input flags) <= n_groups df
    /\ rows df !! j = Some r
    /\ row = frame_row (sort_keys df cols) r2c mafc altc j
               (convert_row to_numeric (length (flag_input flags)) r).
Proof.
  intros H Hrow.
  destruct (process_output_spec _ _ _ _ _ _ H)
    as (r2c & mafc & altc & HN & Hc & Ht & _).
  rewrite Ht, final_table_imap in Hrow.
  apply list_elem_of_In, list_elem_of_lookup in Hrow as [j Hj].
  rewrite list_lookup_imap in Hj.
  destruct (rows df !! j) as [r|] eqn:Er; [|discriminate].
  injection Hj as Hj. exists r2c, mafc, altc, j, r. now repeat split.
Qed.

(** Every row of the enriched frame is written, to one table or the
    other. *)
Lemma written_all df flags cols out row :
  __process_output to_numeric gzip_open df flags cols = Return out ->
  In row (df_merged_final out) ->
  In (drop_index_cols cols row) (variants_kept out ++ variants_excluded out).
Proof.
  intros H Hrow.
  destruct (process_output_spec _ _ _ _ _ _ H)
    as (_ & _ & _ & _ & _ & _ & Ek & Ee).
  rewrite Ek, Ee. apply in_or_app.
  destruct (classify flags row) eqn:E; [left|right];
    apply in_map, filter_In; rewrite ?E; auto.
Qed.

(** The row the enriched frame has for the variant at position [j] of the
    merged frame, given the combined columns. *)
Lemma final_row_lookup df flags cols out j r :
  __process_output to_numeric gzip_open df flags cols = Return out ->
  rows df !! j = Some r ->
  exists r2c mafc altc,
    combine_r2 gzip_open flags
      (state_after to_numeric flags df (length (flag_input flags)))
    = Return (r2c, mafc, altc, lst_number_of_individuals out)
    /\ length (flag_input flags) <= n_groups df
    /\ df_merged_final out
       !! j = Some (frame_row (sort_keys df cols) r2c mafc altc j
                      (convert_row to_numeric (length (flag_input flags)) r))
    /\ In (drop_index_cols cols
             (frame_row (sort_keys df cols) r2c mafc altc j
                (convert_row to_numeric (length (flag_input flags)) r)))
          (variants_kept out ++ variants_excluded out).
Proof.
  intros H Hr.
  destruct (process_output_spec _ _ _ _ _ _ H)
    as (r2c & mafc & altc & HN & Hc & Ht & _).
  exists r2c, mafc, altc. split; [exact Hc|]. split; [exact HN|].
  assert (Hj : df_merged_final out
               !! j = Some (frame_row (sort_keys df cols) r2c mafc altc j
                              (convert_row to_numeric
                                 (length (flag_input flags)) r))).
  { rewrite Ht, final_table_imap, list_lookup_imap, Hr. reflexivity. }
  split; [exact Hj|]. apply (written_all _ _ _ _ _ H).
  apply list_elem_of_In, list_elem_of_lookup. now exists j.
Qed.

Lemma r2_first_convert_row N r :
  Rsq_g (group 1 (convert_row to_numeric N r))
  = match N with
    | O => Rsq_g (group 1 r)
    | S _ => cell_to_numeric to_numeric (Rsq_g (group 1 r))
    end.
Proof.
  destruct N as [|n].
  - unfold group, convert_row. cbn [groups].
    destruct (groups r !! (1 - 1)) as [g|] eqn:E.
    + rewrite (nth_lookup_Some _ _ _ _ E).
      erewrite nth_lookup_Some; [reflexivity|].
      rewrite list_lookup_imap, E. reflexivity.
    + rewrite !nth_lookup, list_lookup_imap, E. reflexivity.
  - rewrite group_convert_row by lia. reflexivity.
Qed.

(** X10: with '--r2_output first', no number of individuals is returned,
    and every variant of the merged frame has its row in the enriched
    frame and in one of the tables written, with Rsq_combined the Rsq of
    the first cohort as read by [pd.to_numeric] (as it stands in the frame
    when '--input' is empty), and without MAF_combined or ALT_Frq_combined
    column. *)
Theorem first_mode_copies_group1 df flags cols out :
  __process_output to_numeric gzip_open df flags cols = Return out ->
  flag_r2_output flags = "first" ->
  lst_number_of_individuals out = []
  /\ forall j r, rows df !! j = Some r ->
       exists row,
         df_merged_final out !! j = Some row
         /\ In (drop_index_cols cols row)
               (variants_kept out ++ variants_excluded out)
         /\ label row = j /\ o_key row = mkey r
         /\ Rsq_combined row
            = match flag_input flags with
              | [] => Rsq_g (group 1 r)
              | _ :: _ => cell_to_numeric to_numeric (Rsq_g (group 1 r))
              end
         /\ MAF_combined row = None /\ ALT_Frq_combined row = None.
Proof.
  intros H Hmode.
  assert (Hcomb : forall r2c mafc altc ns,
            combine_r2 gzip_open flags
              (state_after to_numeric flags df (length (flag_input flags)))
            = Return (r2c, mafc, altc, ns) ->
            r2c = List.map (fun r => Rsq_g (group 1 (convert_row to_numeric
                                         (length (flag_input flags)) r))) (rows df)
            /\ mafc = None /\ altc = None /\ ns = []).
  { intros r2c mafc altc ns Hc. unfold combine_r2 in Hc. rewrite Hmode in Hc.
    change (String.eqb "first" "first") with true in Hc. cbv iota in Hc.
    apply bind_inv in Hc as [c [Hcol Hc]]. injection Hc as <- <- <- <-.
    unfold col in Hcol. destruct (has_group _ 1); [|discriminate].
    injection Hcol as <-. cbn [st_df state_after convert rows].
    now rewrite List.map_map. }
  split.
  - destruct (process_output_spec _ _ _ _ _ _ H)
      as (r2c & mafc & altc & _ & Hc & _).
    now destruct (Hcomb _ _ _ _ Hc) as (_ & _ & _ & ->).
  - intros j r Hr.
    destruct (final_row_lookup _ _ _ _ _ _ H Hr)
      as (r2c & mafc & altc & Hc & _ & Hj & Hin).
    destruct (Hcomb _ _ _ _ Hc) as (-> & -> & -> & _).
    eexists. split; [exact Hj|]. split; [exact Hin|].
    split; [reflexivity|]. split; [reflexivity|].
    unfold frame_row.
    cbn [Rsq_combined MAF_combined ALT_Frq_combined fmap option_fmap option_map].
    split; [|split; reflexivity].
    rewrite (nth_map_lookup _ _ _ _ _ Hr), r2_first_convert_row.
    now destruct (flag_input flags).
Qed.

(** X11: with '--r2_output' neither 'first' nor 'weighted_average', no
    number of individuals is returned, and every variant of the merged
    frame has its row in the enriched frame and in one of the tables
    written, with Rsq_combined the mean that pandas takes of the Rsq of the
    N cohorts: when these are numbers or missing, the sum of those that are
    present divided by their number (missing when none is); the row has no
    MAF_combined or ALT_Frq_combined column. *)
Theorem mean_mode_averages_present df flags cols out :
  __process_output to_numeric gzip_open df flags cols = Return out ->
  flag_r2_output flags <> "first" ->
  flag_r2_output flags <> "weighted_average" ->
  let N := length (flag_input flags) in
  lst_number_of_individuals out = []
  /\ forall j r, rows df !! j = Some r ->
       exists row x,
         df_merged_final out !! j = Some row
         /\ In (drop_index_cols cols row)
               (variants_kept out ++ variants_excluded out)
         /\ label row = j /\ o_key row = mkey r
         /\ Rsq_combined row = Num x
         /\ x = nanmean (r2_list to_numeric N r)
         /\ (Forall finite_or_nan (r2_list to_numeric N r) ->
             feq x (spec_mean (r2_list to_numeric N r)))
         /\ MAF_combined row = None /\ ALT_Frq_combined row = None.
Proof.
  intros H Hm1 Hm2 N.
  assert (Hcomb : forall r2c mafc altc ns,
            combine_r2 gzip_open flags (state_after to_numeric flags df N)
            = Return (r2c, mafc, altc, ns) ->
            r2c = List.map (fun r => Num (nanmean (r2_list to_numeric N r))) (rows df)
            /\ mafc = None /\ altc = None /\ ns = []).
  { intros r2c mafc altc ns Hc. unfold combine_r2 in Hc.
    apply String.eqb_neq in Hm1, Hm2. rewrite Hm1, Hm2 in Hc.
    apply bind_inv in Hc as [cs [Hcs Hc]]. injection Hc as <- <- <- <-.
    cbn [st_df state_after lst_col_names] in Hcs. apply float_cols_inv in Hcs.
    subst cs. cbn [st_df state_after convert rows].
    split; [|repeat split]. unfold mean_axis1.
    rewrite (axis1_rows nanmean (fun X r => cell_value (Rsq_g (group X r)))
               _ empty_row).
    rewrite !List.map_map. apply map_ext. intros r. do 2 f_equal.
    unfold r2_list. apply map_ext_in. intros X HX. apply in_seq in HX.
    rewrite group_convert_row by lia.
    unfold r2_src, num_of. cbn. now destruct (Rsq_g (group X r)). }
  split.
  - destruct (process_output_spec _ _ _ _ _ _ H)
      as (r2c & mafc & altc & _ & Hc & _).
    now destruct (Hcomb _ _ _ _ Hc) as (_ & _ & _ & ->).
  - intros j r Hr.
    destruct (final_row_lookup _ _ _ _ _ _ H Hr)
      as (r2c & mafc & altc & Hc & _ & Hj & Hin).
    destruct (Hcomb _ _ _ _ Hc) as (-> & -> & -> & _).
    eexists. exists (nanmean (r2_list to_numeric N r)).
    split; [exact Hj|]. split; [exact Hin|].
    split; [reflexivity|]. split; [reflexivity|].
    unfold frame_row.
    cbn [Rsq_combined MAF_combined ALT_Frq_combined fmap option_fmap option_map].
    split; [exact (nth_map_lookup _ _ _ _ _ Hr)|].
    split; [reflexivity|]. split; [apply nanmean_spec|split; reflexivity].
Qed.

(** X12: with '--r2_output weighted_average', [__process_output] calls
    [__calculate_weighted_r2_maf_altFrq] on the frame the loop over the
    cohorts leaves and returns its list, the numbers of individuals read
    from the headers of the genotype files named in '--input', one per
    input; and every variant of the merged frame has its row in the
    enriched frame and in one of the tables written, with the values the
    call computed for it in Rsq_combined, MAF_combined and
    ALT_Frq_combined. *)
Theorem weighted_mode_returns_counts df flags cols out :
  __process_output to_numeric gzip_open df flags cols = Return out ->
  flag_r2_output flags = "weighted_average" ->
  let N := length (flag_input flags) in
  exists st res,
    for_each (loop_body to_numeric flags) (seq 0 N) (loop_init df) = Return st
    /\ __calculate_weighted_r2_maf_altFrq gzip_open (st_df st) (flag_input flags)
       = Return (res, lst_number_of_individuals out)
    /\ count_individuals gzip_open (flag_input flags)
       = Return (lst_number_of_individuals out)
    /\ length (lst_number_of_individuals out) = N
    /\ forall j r, rows df !! j = Some r ->
         exists row x m a,
           df_merged_final out !! j = Some row
           /\ In (drop_index_cols cols row)
                 (variants_kept out ++ variants_excluded out)
           /\ label row = j /\ o_key row = mkey r
           /\ r2_combined res !! j = Some x /\ Rsq_combined row = Num x
           /\ maf_combined res !! j = Some m /\ MAF_combined row = Some m
           /\ alt_frq_combined res !! j = Some a /\ ALT_Frq_combined row = Some a.
Proof.
  intros H Hmode N.
  destruct (process_output_spec _ _ _ _ _ _ H)
    as (r2c0 & mafc0 & altc0 & HN & Hc0 & _).
  fold N in HN, Hc0.
  assert (Hcomb : exists res,
            __calculate_weighted_r2_maf_altFrq gzip_open
              (convert to_numeric N df) (flag_input flags)
            = Return (res, lst_number_of_individuals out)
            /\ r2c0 = List.map Num (r2_combined res)
            /\ mafc0 = Some (maf_combined res)
            /\ altc0 = Some (alt_frq_combined res)).
  { unfold combine_r2 in Hc0. rewrite Hmode in Hc0.
    change (String.eqb "weighted_average" "first") with false in Hc0.
    change (String.eqb "weighted_average" "weighted_average") with true in Hc0.
    cbv iota in Hc0. cbn [st_df state_after] in Hc0.
    apply bind_inv in Hc0 as [[wc ns] [Hw Hc0]]. cbn [fst snd] in Hc0.
    injection Hc0 as <- <- <- <-. exists wc. now repeat split. }
  destruct Hcomb as (res & Hw & -> & -> & ->).
  exists (state_after to_numeric flags df N), res.
  split; [unfold loop_init; now apply loop_run|].
  cbn [st_df state_after]. split; [exact Hw|].
  pose proof (calculate_weighted_spec _ _ _ _ _ Hw)
    as (Hcount & Hlen & Hr2 & Hmaf & Halt).
  split; [exact Hcount|]. split; [exact Hlen|].
  intros j r Hr.
  destruct (final_row_lookup _ _ _ _ _ _ H Hr)
    as (r2c & mafc & altc & Hc & _ & Hj & Hin).
  fold N in Hc, Hj, Hin. rewrite Hc0 in Hc.
  injection Hc as <- <- <-.
  assert (Hcr : rows (convert to_numeric N df) !! j
                = Some (convert_row to_numeric N r)).
  { cbn [convert rows]. exact (lookup_map_rows _ _ _ _ Hr). }
  eexists. eexists. eexists. eexists.
  split; [exact Hj|]. split; [exact Hin|].
  split; [reflexivity|]. split; [reflexivity|].
  unfold frame_row.
  cbn [Rsq_combined MAF_combined ALT_Frq_combined fmap option_fmap option_map].
  rewrite Hr2, Hmaf, Halt.
  split; [exact (lookup_map_rows _ _ _ _ Hcr)|].
  split; [rewrite List.map_map; exact (nth_map_lookup _ _ _ _ _ Hcr)|].
  split; [exact (lookup_map_rows _ _ _ _ Hcr)|].
  split; [f_equal; exact (nth_map_lookup _ _ _ _ _ Hcr)|].
  split; [exact (lookup_map_rows _ _ _ _ Hcr)|].
  f_equal. exact (nth_map_lookup _ _ _ _ _ Hcr).
Qed.
End Modes.

Lemma first_mode_copies_group1_witness :
  exists out,
    __process_output decimal sample_files sample_df
      (sample_flags three_inputs 1 0 "first") [1; 2; 3] = Return out
    /\ lst_number_of_individuals out = []
    /\ forall j r, rows sample_df !! j = Some r ->
         exists row,
           df_merged_final out !! j = Some row
           /\ In (drop_index_cols [1; 2; 3] row)
                 (variants_kept out ++ variants_excluded out)
           /\ label row = j /\ o_key row = mkey r
           /\ Rsq_combined row = cell_to_numeric decimal (Rsq_g (group 1 r))
           /\ MAF_combined row = None /\ ALT_Frq_combined row = None.
Proof.
  eexists. split; [vm_compute; reflexivity|].
  apply (first_mode_copies_group1 decimal sample_files sample_df
           (sample_flags three_inputs 1 0 "first") [1; 2; 3]).
  - vm_compute. reflexivity.
  - reflexivity.
Defined.

Lemma mean_mode_averages_present_witness :
  exists out,
    __process_output decimal sample_files sample_df
      (sample_flags three_inputs 1 0 "mean") [1; 2; 3] = Return out
    /\ lst_number_of_individuals out = []
    /\ forall j r, rows sample_df !! j = Some r ->
         exists row x,
           df_merged_final out !! j = Some row
           /\ In (drop_index_cols [1; 2; 3] row)
                 (variants_kept out ++ variants_excluded out)
           /\ label row = j /\ o_key row = mkey r
           /\ Rsq_combined row = Num x
           /\ x = nanmean (r2_list decimal 3 r)
           /\ (Forall finite_or_nan (r2_list decimal 3 r) ->
               feq x (spec_mean (r2_list decimal 3 r)))
           /\ MAF_combined row = None /\ ALT_Frq_combined row = None.
Proof.
  eexists. split; [vm_compute; reflexivity|].
  apply (mean_mode_averages_present decimal sample_files sample_df
           (sample_flags three_inputs 1 0 "mean") [1; 2; 3]).
  - vm_compute. reflexivity.
  - discriminate.
  - discriminate.
Defined.

Lemma weighted_mode_returns_counts_witness :
  exists out st res,
    __process_output decimal sample_files sample_df
      (sample_flags three_inputs 1 0 "weighted_average") [1; 2; 3] = Return out
    /\ for_each (loop_body decimal (sample_flags three_inputs 1 0 "weighted_average"))
         (seq 0 3) (loop_init sample_df) = Return st
    /\ __calculate_weighted_r2_maf_altFrq sample_files (st_df st) three_inputs
       = Return (res, lst_number_of_individuals out)
    /\ count_individuals sample_files three_inputs
       = Return (lst_number_of_individuals out)
    /\ length (lst_number_of_individuals out) = 3
    /\ forall j r, rows sample_df !! j = Some r ->
         exists row x m a,
           df_merged_final out !! j = Some row
           /\ In (drop_index_cols [1; 2; 3] row)
                 (variants_kept out ++ variants_excluded out)
           /\ label row = j /\ o_key row = mkey r
           /\ r2_combined res !! j = Some x /\ Rsq_combined row = Num x
           /\ maf_combined res !! j = Some m /\ MAF_combined row = Some m
           /\ alt_frq_combined res !! j = Some a /\ ALT_Frq_combined row = Some a.
Proof.
  assert (Hex : exists out,
            __process_output decimal sample_files sample_df
              (sample_flags three_inputs 1 0 "weighted_average") [1; 2; 3]
            = Return out)
    by (eexists; vm_compute; reflexivity).
  destruct Hex as [out Hout]. exists out.
  destruct (weighted_mode_returns_counts decimal sample_files sample_df
              (sample_flags three_inputs 1 0 "weighted_average") [1; 2; 3] out
              Hout eq_refl) as (st & res & Hrest).
  exists st, res. split; [exact Hout|exact Hrest].
Defined.

(** ** Order and extent of the tables written *)

Lemma sublist_List_filter {A : Type} (p : A -> bool) (l : list A) :
  sublist (List.filter p l) l.
Proof.
  induction l as [|a l IH]; cbn [List.filter]; [constructor|].
  destruct (p a); now constructor.
Qed.

Lemma sublist_List_map {A B : Type} (f : A -> B) (l1 l2 : list A) :
  sublist l1 l2 -> sublist (List.map f l1) (List.map f l2).
Proof. induction 1; cbn [List.map]; now constructor. Qed.

Lemma present_count_bounds N row :
  (0 <= present_count N row <= Z.of_nat N)%Z.
Proof.
  unfold present_count, count_notna. split; [lia|].
  apply inj_le. etransitivity; [apply filter_length_le|].
  now rewrite length_map, length_seq.
Qed.

Lemma filter_all {A : Type} (p : A -> bool) (l : list A) :
  (forall a, In a l -> p a = true) -> List.filter p l = l.
Proof.
  induction l as [|a l IH]; intros H; cbn [List.filter]; [reflexivity|].
  rewrite (H a) by now left. f_equal. apply IH. intros b Hb. apply H. now right.
Qed.

Lemma filter_none {A : Type} (p : A -> bool) (l : list A) :
  (forall a, In a l -> p a = false) -> List.filter p l = [].
Proof.
  induction l as [|a l IH]; intros H; cbn [List.filter]; [reflexivity|].
  rewrite (H a) by now left. apply IH. intros b Hb. apply H. now right.
Qed.

Section Extent.
Variable to_numeric : string -> float64.
Variable gzip_open : string -> option (list string).

(** X13: the variants of the kept table and those of the excluded table
    are in the order of the merged frame: each table lists a subsequence
    of the keys of the frame. *)
Theorem written_rows_in_frame_order df flags cols out :
  __process_output to_numeric gzip_open df flags cols = Return out ->
  sublist (List.map o_key (variants_kept out)) (frame_keys df)
  /\ sublist (List.map o_key (variants_excluded out)) (frame_keys df).
Proof.
  intros H.
  pose proof (process_output_order to_numeric gzip_open _ _ _ _ H) as Ho.
  destruct (process_output_spec _ _ _ _ _ _ H)
    as (r2c & mafc & altc & _ & _ & _ & Hk & He).
  rewrite Hk, He, <- Ho, !List.map_map.
  split; apply sublist_List_map, sublist_List_filter.
Qed.

(** X14: with an allowance '--missing' that is positive and at least the
    number N of inputs, every variant of the merged frame is kept, the kept
    table listing them in the order of the frame, and none is excluded. *)
Theorem allowance_at_least_N_keeps_all df flags cols out :
  __process_output to_numeric gzip_open df flags cols = Return out ->
  (0 < flag_missing flags)%Z ->
  (Z.of_nat (length (flag_input flags)) <= flag_missing flags)%Z ->
  ids (variants_kept out) = frame_ids df
  /\ variants_kept out = List.map (drop_index_cols cols) (df_merged_final out)
  /\ variants_excluded out = [].
Proof.
  intros H Hpos Hge.
  pose proof (final_ids to_numeric gzip_open _ _ _ _ H) as Hids.
  destruct (process_output_spec _ _ _ _ _ _ H)
    as (r2c & mafc & altc & _ & _ & _ & Hk & He).
  assert (Hall : forall row, classify flags row = true).
  { intros row. unfold classify.
    rewrite (proj2 (Z.eqb_neq _ _)) by lia. apply Z.leb_le.
    pose proof (present_count_bounds (length (flag_input flags)) row). lia. }
  assert (Ek : variants_kept out
               = List.map (drop_index_cols cols) (df_merged_final out)).
  { rewrite Hk. f_equal. apply filter_all. intros row _. apply Hall. }
  split; [now rewrite Ek, ids_drop_index_cols|]. split; [exact Ek|].
  rewrite He, filter_none; [reflexivity|]. intros row _. now rewrite Hall.
Qed.

(** X15: with a negative allowance '--missing', no variant is kept and
    every variant of the merged frame is excluded, the excluded table
    listing them in the order of the frame. *)
Theorem negative_allowance_keeps_none df flags cols out :
  __process_output to_numeric gzip_open df flags cols = Return out ->
  (flag_missing flags < 0)%Z ->
  variants_kept out = []
  /\ ids (variants_excluded out) = frame_ids df
  /\ variants_excluded out = List.map (drop_index_cols cols) (df_merged_final out).
Proof.
  intros H Hneg.
  pose proof (final_ids to_numeric gzip_open _ _ _ _ H) as Hids.
  destruct (process_output_spec _ _ _ _ _ _ H)
    as (r2c & mafc & altc & _ & _ & _ & Hk & He).
  assert (Hnone : forall row, classify flags row = false).
  { intros row. unfold classify.
    rewrite (proj2 (Z.eqb_neq _ _)) by lia. apply Z.leb_gt.
    pose proof (present_count_bounds (length (flag_input flags)) row). lia. }
  assert (Ee : variants_excluded out
               = List.map (drop_index_cols cols) (df_merged_final out)).
  { rewrite He. f_equal. apply filter_all. intros row _. now rewrite Hnone. }
  split; [|split; [now rewrite Ee, ids_drop_index_cols|exact Ee]].
  rewrite Hk, filter_none; [reflexivity|]. intros row _. apply Hnone.
Qed.
End Extent.

Lemma written_rows_in_frame_order_witness :
  exists out,
    __process_output decimal sample_files sample_df
      (sample_flags three_inputs 0 (7 # 10) "mean") [1; 2; 3] = Return out
    /\ sublist (List.map o_key (variants_kept out)) (frame_keys sample_df)
    /\ sublist (List.map o_key (variants_excluded out)) (frame_keys sample_df).
Proof.
  eexists. split; [vm_compute; reflexivity|].
  apply (written_rows_in_frame_order decimal sample_files sample_df
           (sample_flags three_inputs 0 (7 # 10) "mean") [1; 2; 3]).
  vm_compute. reflexivity.
Defined.

Lemma allowance_at_least_N_keeps_all_witness :
  exists out,
    __process_output decimal sample_files sample_df
      (sample_flags three_inputs 3 0 "first") [1; 2; 3] = Return out
    /\ ids (variants_kept out) = frame_ids sample_df
    /\ variants_kept out
       = List.map (drop_index_cols [1; 2; 3]) (df_merged_final out)
    /\ variants_excluded out = [].
Proof.
  eexists. split; [vm_compute; reflexivity|].
  apply (allowance_at_least_N_keeps_all decimal sample_files sample_df
           (sample_flags three_inputs 3 0 "first") [1; 2; 3]).
  - vm_compute. reflexivity.
  - reflexivity.
  - vm_compute. discriminate.
Defined.

Lemma negative_allowance_keeps_none_witness :
  exists out,
    __process_output decimal sample_files sample_df
      (sample_flags three_inputs (-1) 0 "first") [1; 2; 3] = Return out
    /\ variants_kept out = []
    /\ ids (variants_excluded out) = frame_ids sample_df
    /\ variants_excluded out
       = List.map (drop_index_cols [1; 2; 3]) (df_merged_final out).
Proof.
  eexists. split; [vm_compute; reflexivity|].
  apply (negative_allowance_keeps_none decimal sample_files sample_df
           (sample_flags three_inputs (-1) 0 "first") [1; 2; 3]).
  - vm_compute. reflexivity.
  - reflexivity.
Defined.

Section Allowance.
Variable to_numeric : string -> float64.
Variable gzip_open : string -> option (list string).

(** The enriched frame does not depend on the allowance. *)
Lemma final_table_missing df flags cols m1 m2 out1 out2 :
  __process_output to_numeric gzip_open df (with_missing m1 flags) cols = Return out1 ->
  __process_output to_numeric gzip_open df (with_missing m2 flags) cols = Return out2 ->
  df_merged_final out1 = df_merged_final out2.
Proof.
  intros H1 H2.
  destruct (process_output_spec _ _ _ _ _ _ H1)
    as (r2c1 & mafc1 & altc1 & _ & Hc1 & Ht1 & _).
  destruct (process_output_spec _ _ _ _ _ _ H2)
    as (r2c2 & mafc2 & altc2 & _ & Hc2 & Ht2 & _).
  cbn [with_missing flag_input] in *.
  assert (E : combine_r2 gzip_open (with_missing m1 flags)
                (state_after to_numeric (with_missing m1 flags) df
                   (length (flag_input flags)))
              = combine_r2 gzip_open (with_missing m2 flags)
                  (state_after to_numeric (with_missing m2 flags) df
                     (length (flag_input flags)))) by reflexivity.
  rewrite Hc1, Hc2 in E. injection E as -> -> -> _.
  now rewrite Ht1, Ht2.
Qed.

Lemma keep_row_all_present N thr row :
  keep_row N thr row = true -> present_count N row = Z.of_nat N.
Proof.
  unfold keep_row, present_count, count_notna. intros H.
  rewrite forallb_forall in H. rewrite filter_all.
  - now rewrite length_map, length_seq.
  - intros c Hc. apply in_map_iff in Hc as [X [<- HX]].
    specialize (H X HX). apply andb_true_iff in H as [H _].
    unfold r2_value, r2_cell in H.
    destruct (c_Rsq (nth (X - 1) (o_groups row) na_csv)); [reflexivity|exact H].
Qed.

(** X16: a larger allowance '--missing' never drops a variant from the
    kept table: what is kept with the allowance m1 is kept with every
    allowance m2 >= m1 (the other options being the same). *)
Theorem larger_allowance_keeps_more df flags cols m1 m2 out1 out2 row :
  __process_output to_numeric gzip_open df (with_missing m1 flags) cols = Return out1 ->
  __process_output to_numeric gzip_open df (with_missing m2 flags) cols = Return out2 ->
  (m1 <= m2)%Z ->
  In row (variants_kept out1) ->
  In row (variants_kept out2).
Proof.
  intros H1 H2 Hle Hrow.
  pose proof (final_table_missing _ _ _ _ _ _ _ H1 H2) as Et.
  destruct (process_output_spec _ _ _ _ _ _ H1) as (? & ? & ? & _ & _ & _ & Hk1 & _).
  destruct (process_output_spec _ _ _ _ _ _ H2) as (? & ? & ? & _ & _ & _ & Hk2 & _).
  rewrite Hk1 in Hrow. rewrite Hk2, <- Et.
  apply in_map_iff in Hrow as [row0 [<- Hrow0]]. apply in_map.
  apply filter_In in Hrow0 as [Hin Hc]. apply filter_In. split; [exact Hin|].
  unfold classify in *. cbn [with_missing flag_missing flag_input flag_r2_threshold] in *.
  pose proof (present_count_bounds (length (flag_input flags)) row0) as Hb.
  destruct (Z.eqb_spec m1 0) as [->|Hm1].
  - destruct (Z.eqb_spec m2 0) as [->|Hm2]; [exact Hc|].
    apply keep_row_all_present in Hc. apply Z.leb_le. lia.
  - apply Z.leb_le in Hc.
    destruct (Z.eqb_spec m2 0) as [->|Hm2]; [lia|].
    apply Z.leb_le. lia.
Qed.
End Allowance.

Lemma larger_allowance_keeps_more_witness :
  exists out1 out2 row,
    __process_output decimal sample_files sample_df
      (with_missing 0 (sample_flags three_inputs 0 (7 # 10) "mean")) [1; 2; 3]
    = Return out1
    /\ __process_output decimal sample_files sample_df
         (with_missing 1 (sample_flags three_inputs 0 (7 # 10) "mean")) [1; 2; 3]
       = Return out2
    /\ variants_kept out1 !! 0 = Some row
    /\ In row (variants_kept out2).
Proof.
  eexists. eexists. eexists.
  split; [vm_compute; reflexivity|]. split; [vm_compute; reflexivity|].
  split; [reflexivity|].
  eapply (larger_allowance_keeps_more decimal sample_files sample_df
            (sample_flags three_inputs 0 (7 # 10) "mean") [1; 2; 3] 0 1).
  - vm_compute. reflexivity.
  - vm_compute. reflexivity.
  - lia.
  - vm_compute. left. reflexivity.
Defined.

(** ** The sort key *)

Lemma fill_row_present above r :
  Forall (fun v => is_Some v) r -> fill_row above r = r.
Proof.
  revert above. induction r as [|v r IH]; intros above H; [reflexivity|].
  inversion H as [|? ? [p ->] Hr]; subst. cbn [fill_row]. f_equal. now apply IH.
Qed.

Lemma ffill_lookup_present rs : forall above j r,
  rs !! j = Some r -> Forall (fun v => is_Some v) r ->
  ffill above rs !! j = Some r.
Proof.
  induction rs as [|r0 rs IH]; intros above j r Hj Hr; [discriminate|].
  cbn [ffill]. destruct j as [|j].
  - cbn in Hj. injection Hj as ->. cbn. f_equal. now apply fill_row_present.
  - cbn in Hj |- *. now apply IH.
Qed.

Section SortKey.
Variable to_numeric : string -> float64.
Variable gzip_open : string -> option (list string).

(** X17: the sort key of a variant that every cohort has is the sum of its
    positions in the cohort tables: no position is carried over from
    another row. *)
Theorem sort_key_of_shared_variant df flags cols out j r :
  __process_output to_numeric gzip_open df flags cols = Return out ->
  rows df !! j = Some r ->
  Forall (fun X => is_Some (index_g (group X r))) cols ->
  exists row,
    df_merged_final out !! j = Some row
    /\ o_key row = mkey r
    /\ sum_index_NA_ffilled row
       = sum_present (List.map (fun X => index_g (group X r)) cols).
Proof.
  intros H Hr Hall.
  destruct (process_output_spec _ _ _ _ _ _ H)
    as (r2c & mafc & altc & _ & _ & Ht & _).
  rewrite Ht, final_table_imap, list_lookup_imap, Hr. cbn [fmap option_fmap option_map].
  eexists. split; [reflexivity|]. split; [reflexivity|].
  unfold frame_row. cbn [sum_index_NA_ffilled]. unfold sum_index_column.
  apply nth_lookup_Some.
  change (List.map sum_present ?l) with (sum_present <$> l).
  rewrite list_lookup_fmap.
  erewrite ffill_lookup_present; [reflexivity| |].
  - exact (lookup_map_rows
             (fun r => List.map (fun X => index_g (group X r)) cols) _ _ _ Hr).
  - apply Forall_map. exact Hall.
Qed.
End SortKey.

Lemma sort_key_of_shared_variant_witness :
  exists out row,
    __process_output decimal sample_files sample_df
      (sample_flags three_inputs 1 0 "first") [1; 2; 3] = Return out
    /\ df_merged_final out !! 0 = Some row
    /\ o_key row = mkey (nth 0 (rows sample_df) empty_row)
    /\ sum_index_NA_ffilled row
       = sum_present (List.map (fun X => index_g (group X (nth 0 (rows sample_df)
                                                              empty_row)))
                               [1; 2; 3]).
Proof.
  assert (Hex : exists out,
            __process_output decimal sample_files sample_df
              (sample_flags three_inputs 1 0 "first") [1; 2; 3] = Return out)
    by (eexists; vm_compute; reflexivity).
  destruct Hex as [out Hout]. exists out.
  destruct (sort_key_of_shared_variant decimal sample_files sample_df
              (sample_flags three_inputs 1 0 "first") [1; 2; 3] out 0
              (nth 0 (rows sample_df) empty_row) Hout) as [row Hrow].
  - reflexivity.
  - repeat constructor; vm_compute; eexists; reflexivity.
  - exists row. split; [exact Hout|]. exact Hrow.
Defined.

(** ** The index table and the whole run *)

Section IndexTable.
Variable to_numeric : string -> float64.
Variable gzip_open : string -> option (list string).

Lemma process_output_index df flags cols out :
  __process_output to_numeric gzip_open df flags cols = Return out ->
  df_index_variant_kept out
  = List.map (index_row cols) (List.filter (classify flags) (df_merged_final out)).
Proof.
  intros H. set (N := length (flag_input flags)).
  unfold __process_output in H.
  apply bind_inv in H as [idx [Hidx H]].
  unfold index_frame in Hidx.
  destruct (forallb (has_group df) cols); [|discriminate].
  injection Hidx as <-.
  apply bind_inv in H as [st [Hst H]].
  destruct (le_lt_dec N (n_groups df)) as [HN|HN];
    [|unfold N in HN; rewrite loop_missing_group in Hst by exact HN; discriminate].
  unfold N in HN. rewrite loop_run in Hst by exact HN.
  fold N in Hst.
  assert (Est : st = state_after to_numeric flags df N) by congruence.
  subst st. clear Hst.
  apply bind_inv in H as [[[[r2c mafc] altc] ns] [Hc H]].
  cbn [st_df state_after convert rows] in H.
  fold (final_table to_numeric df N cols r2c mafc altc) in H.
  pose proof (final_table_labelled to_numeric df N cols r2c mafc altc) as Hlab.
  pose proof (final_table_imap to_numeric df N cols r2c mafc altc) as Himap.
  set (table := final_table to_numeric df N cols r2c mafc altc) in *.
  unfold classify. fold N.
  destruct (flag_missing flags =? 0)%Z eqn:Em.
  - cbn [mask_to_keep mask_to_exclude state_after andb] in H.
    rewrite ?Em in H. destruct (0 <? N)%nat; [|discriminate].
    cbn [andb] in H. injection H as H. subst out.
    cbn [df_index_variant_kept df_merged_final].
    f_equal. rewrite Himap.
    rewrite <- (List.map_id (imap _ (rows df))) at 1.
    rewrite (select_mask_imap _ (keep_row N (flag_r2_threshold flags)) (fun x => x));
      [apply List.map_id|reflexivity|reflexivity|].
    intros j r _. apply keep_row_final.
  - cbn [lst_col_names state_after] in H.
    apply bind_inv in H as [kept [Hkept H]].
    apply bind_inv in H as [index_kept [Hik H]].
    apply (iloc_dropna_inv _ _ _ _ _ Hlab) in Hkept as [Hne _].
    rewrite (iloc_dropna_self _ _ _ Hlab Hne) in Hik. injection Hik as Hik.
    injection H as H. subst out index_kept.
    cbn [df_index_variant_kept df_merged_final]. reflexivity.
Qed.

Lemma index_convert_row n X r :
  index_g (group X (convert_row to_numeric n r)) = index_g (group X r).
Proof.
  unfold group, convert_row. cbn [groups].
  destruct (groups r !! (X - 1)) as [g|] eqn:E.
  - rewrite (nth_lookup_Some _ _ _ _ E).
    erewrite nth_lookup_Some;
      [|rewrite list_lookup_imap, E; cbn; reflexivity].
    destruct n as [|m]; [reflexivity|].
    destruct (X - 1 <=? m)%nat; reflexivity.
  - rewrite !nth_lookup, list_lookup_imap, E. reflexivity.
Qed.

Lemma index_row_frame_row cols sums r2c mafc altc j r :
  index_row cols (frame_row sums r2c mafc altc j r)
  = (j, fst (fst (fst (mkey r))),
     List.map (fun X => Some (index_g (group X r))) cols).
Proof.
  unfold index_row, frame_row. cbn [label o_key o_groups]. f_equal.
  apply map_ext. intros X. unfold group.
  change na_csv with (csv_of na_group). rewrite map_nth. reflexivity.
Qed.
End IndexTable.

Lemma join_count_zero a b : join_count a b = 0 -> a = 0 /\ b = 0.
Proof. destruct a, b; cbn; try lia; intros H; nia. Qed.

(** A key has a row in the merge exactly when one of the tables has it. *)
Lemma merged_count_pos k (lst : list info_df) :
  merged_count k lst <> 0 <-> exists t, In t lst /\ In k (List.map key_of t).
Proof.
  split.
  - unfold merged_count.
    assert (G : forall c,
      fold_left (fun c t => join_count c (kcount k (List.map key_of t))) lst c <> 0 ->
      c <> 0 \/ exists t, In t lst /\ In k (List.map key_of t)).
    { induction lst as [|t lst IH]; intros c H; cbn [fold_left] in H; [now left|].
      destruct (IH _ H) as [Hj|[t' [Hin Hk]]].
      - destruct (Nat.eq_dec c 0) as [->|Hc]; [|now left].
        right. exists t. split; [now left|].
        apply (count_occ_In key_dec). cbn [join_count] in Hj.
        unfold kcount in Hj. lia.
      - right. exists t'. split; [now right|exact Hk]. }
    intros H. destruct (G 0 H) as [Hc|Ht]; [congruence|exact Ht].
  - intros [t [Hin Hk]].
    pose proof (merged_count_ge k lst t Hin) as Hge.
    apply (count_occ_In key_dec) in Hk. unfold kcount in Hge. lia.
Qed.

Lemma o_key_drop_index_cols cols (t : list out_row) :
  List.map o_key (List.map (drop_index_cols cols) t) = List.map o_key t.
Proof. rewrite List.map_map. apply map_ext. reflexivity. Qed.

Lemma in_filter_split {A : Type} (p : A -> bool) (f : A -> key) (l : list A) k :
  In k (List.map f (List.filter p l ++ List.filter (fun x => negb (p x)) l))
  <-> In k (List.map f l).
Proof.
  rewrite !in_map_iff. split.
  - intros [x [Hx Hin]]. exists x. split; [exact Hx|].
    apply in_app_or in Hin as [Hin|Hin]; apply List.filter_In in Hin; tauto.
  - intros [x [Hx Hin]]. exists x. split; [exact Hx|].
    apply in_or_app. destruct (p x) eqn:E; [left|right];
      apply List.filter_In; rewrite ?E; auto.
Qed.

Section Run.
Variable to_numeric : string -> float64.
Variable gzip_open : string -> option (list string).
Variable read_csv : string -> option info_df.

Lemma get_lst_info_df_length flags lst :
  __get_lst_info_df read_csv flags = Return lst ->
  length lst = length (flag_input flags).
Proof.
  unfold __get_lst_info_df. intros H. apply map_result_Forall2 in H.
  symmetry. exact (Forall2_length _ _ _ H).
Qed.

Lemma get_snp_list_inv flags out :
  get_snp_list to_numeric gzip_open read_csv flags = Return out ->
  exists lst df,
    __get_lst_info_df read_csv flags = Return lst
    /\ length lst = length (flag_input flags)
    /\ merge_inv lst df
    /\ __process_output to_numeric gzip_open df flags (seq 1 (length lst))
       = Return out.
Proof.
  unfold get_snp_list. intros H.
  apply bind_inv in H as [lst [Hl H]].
  apply bind_inv in H as [[v cols] [Hm H]]. cbn [fst snd] in H.
  destruct v as [s|df]; [discriminate|].
  destruct (merge_snps_returns_inv _ _ _ Hm) as [-> Hinv].
  exists lst, df. split; [exact Hl|].
  split; [now apply get_lst_info_df_length|]. split; [exact Hinv|exact H].
Qed.
End Run.

Section WholeRun.
Variable to_numeric : string -> float64.
Variable gzip_open : string -> option (list string).
Variable read_csv : string -> option info_df.

(** X18: in the table of positions left by a run of [get_snp_list], every
    line belongs to a kept variant, and its entry for cohort i is the
    position of a row of table i that has the variant's identity key, or is
    missing when table i has no such row. *)
Theorem index_table_points_into_tables flags out lst j snp idxs i t :
  get_snp_list to_numeric gzip_open read_csv flags = Return out ->
  __get_lst_info_df read_csv flags = Return lst ->
  In (j, snp, idxs) (df_index_variant_kept out) ->
  lst !! i = Some t ->
  exists k e,
    In k (List.map o_key (variants_kept out))
    /\ fst (fst (fst k)) = snp
    /\ idxs !! i = Some (Some e)
    /\ match e with
       | Some p => exists r, t !! p = Some r /\ key_of r = k
       | None => ~ In k (List.map key_of t)
       end.
Proof.
  intros Hrun Hl Hin Ht.
  destruct (get_snp_list_inv _ _ _ _ _ Hrun) as (lst' & df & Hl' & Hlen & Hinv & Hp).
  assert (lst' = lst) by congruence. subst lst'.
  rewrite (process_output_index _ _ _ _ _ _ Hp) in Hin.
  apply in_map_iff in Hin as [row [Hrow Hin]].
  pose proof Hin as Hin'. apply List.filter_In in Hin' as [Hfin _].
  destruct (final_row_inv _ _ _ _ _ _ _ Hp Hfin)
    as (r2c & mafc & altc & j' & r & _ & _ & Hr & ->).
  rewrite index_row_frame_row in Hrow.
  injection Hrow as Hj Hsnp Hidxs.
  assert (Hi : i < length lst) by (apply lookup_lt_is_Some; now exists t).
  destruct Hinv as (_ & Hfrom & _).
  assert (Hrin : In r (rows df)).
  { apply list_elem_of_In, list_elem_of_lookup. now exists j'. }
  pose proof (Hfrom r i t Hrin Ht) as Hg.
  exists (mkey r), (index_g (nth i (groups r) na_group)).
  split; [|split; [|split]].
  - destruct (process_output_spec _ _ _ _ _ _ Hp)
      as (_ & _ & _ & _ & _ & _ & Hk & _).
    rewrite Hk, o_key_drop_index_cols.
    apply in_map_iff. eexists. split; [|exact Hin]. reflexivity.
  - rewrite <- Hsnp. unfold convert_row. reflexivity.
  - rewrite <- Hidxs.
    change (List.map ?f ?l) with (f <$> l).
    rewrite list_lookup_fmap, lookup_seq_lt by exact Hi.
    cbn [fmap option_fmap option_map]. rewrite index_convert_row.
    unfold group. replace (1 + i - 1) with i by lia. reflexivity.
  - destruct Hg as [(p & r0 & Hp0 & Hk0 & ->)|[Hno ->]].
    + cbn [index_g cohort_group]. now exists r0.
    + cbn [index_g na_group]. exact Hno.
Qed.

(** X19: [get_snp_list] never writes anything for fewer than two inputs.
    With none it fails on the shape of the merged frame; with one it fails
    on reading the table, or on the second table that the merge asks
    for. *)
Theorem get_snp_list_needs_two_inputs flags :
  length (flag_input flags) < 2 ->
  get_snp_list to_numeric gzip_open read_csv flags
  = Raise match flag_input flags with
          | [] => AttributeError
          | fn :: _ => match read_csv (info_name fn) with
                       | Some _ => IndexError
                       | None => IOError
                       end
          end.
Proof.
  intros Hlen. unfold get_snp_list, __get_lst_info_df.
  destruct (flag_input flags) as [|fn [|fn2 rest]]; [| |cbn [length] in Hlen; lia].
  - reflexivity.
  - cbn [map_result]. fold (info_name fn).
    destruct (read_csv (info_name fn)) as [df|].
    + rewrite !bind_return. reflexivity.
    + reflexivity.
Qed.

(** X20: when the tables of two or more inputs can be read (and, in
    weighted_average mode, the headers of the genotype files), then: if
    '--missing' is 0 or one of the tables has a row, [get_snp_list]
    returns, and the identity keys of the variants it writes, kept and
    excluded together, are exactly those of the rows of the tables; if
    '--missing' is not 0 and no table has a row, it raises IndexError
    (the merged frame has no rows and [.iloc] refuses its index). *)
Theorem get_snp_list_writes_every_variant flags lst :
  __get_lst_info_df read_csv flags = Return lst ->
  2 <= length (flag_input flags) ->
  (flag_r2_output flags = "weighted_average" ->
   exists ns, count_individuals gzip_open (flag_input flags) = Return ns) ->
  (flag_missing flags = 0%Z \/ (exists t, In t lst /\ t <> []) ->
   exists out,
     get_snp_list to_numeric gzip_open read_csv flags = Return out
     /\ forall k,
          In k (List.map o_key (variants_kept out ++ variants_excluded out))
          <-> exists t, In t lst /\ In k (List.map key_of t))
  /\ (flag_missing flags <> 0%Z -> Forall (fun t => t = []) lst ->
      get_snp_list to_numeric gzip_open read_csv flags = Raise IndexError).
Proof.
  intros Hl Hlen Hfiles.
  pose proof (get_lst_info_df_length _ _ _ Hl) as Hll.
  assert (Hlen' : 2 <= length lst) by lia.
  destruct (merge_snps_inv lst Hlen') as (df & Hm & (Hng & _) & _ & Hall).
  destruct (merge_snps_count lst Hlen') as (df' & cols' & Hm' & Hcount).
  assert (df' = df) by congruence. subst df'.
  assert (Hcols : forallb (has_group df) (seq 1 (length lst)) = true).
  { apply forallb_forall. intros X HX. apply in_seq in HX.
    unfold has_group. rewrite Hng.
    apply andb_true_intro. split; apply Nat.leb_le; lia. }
  assert (HN : 1 <= length (flag_input flags) <= n_groups df)
    by (rewrite Hng; lia).
  assert (Hrun : get_snp_list to_numeric gzip_open read_csv flags
                 = __process_output to_numeric gzip_open df flags
                     (seq 1 (length lst))).
  { unfold get_snp_list. now rewrite Hl, bind_return, Hm, bind_return. }
  split.
  - intros Hrows.
    destruct (process_output_returns to_numeric gzip_open df flags
                (seq 1 (length lst)) Hcols HN Hfiles) as [out Hout].
    { destruct Hrows as [Hz|(t & Ht & Hne)]; [now left|right].
      apply list_elem_of_In, list_elem_of_lookup in Ht as [i Hi].
      destruct t as [|r t']; [congruence|].
      destruct (Hall i (r :: t') 0 r Hi eq_refl) as (row & Hrow & _).
      intros E. rewrite E in Hrow. destruct Hrow. }
    exists out. split; [now rewrite Hrun|].
    intros k.
    destruct (process_output_spec _ _ _ _ _ _ Hout)
      as (_ & _ & _ & _ & _ & _ & Hk & He).
    rewrite Hk, He, List.map_app, !o_key_drop_index_cols, <- List.map_app.
    rewrite in_filter_split.
    rewrite (process_output_order _ _ _ _ _ _ Hout).
    rewrite <- merged_count_pos, <- Hcount.
    rewrite (count_occ_In key_dec). unfold kcount. lia.
  - intros Hmiss Hempty. rewrite Hrun.
    apply process_output_empty_frame; try assumption.
    destruct (rows df) as [|row rs] eqn:E; [reflexivity|exfalso].
    assert (Hk : merged_count (mkey row) lst <> 0).
    { rewrite <- Hcount. unfold frame_keys, kcount. rewrite E. cbn [List.map].
      rewrite count_occ_cons_eq by reflexivity. lia. }
    apply merged_count_pos in Hk as (t & Ht & Hin).
    rewrite List.Forall_forall in Hempty. rewrite (Hempty t Ht) in Hin.
    destruct Hin.
Qed.
End WholeRun.

Lemma index_table_points_into_tables_witness :
  exists out lst k e,
    get_snp_list decimal sample_files sample_tables
      (sample_flags three_inputs 1 0 "first") = Return out
    /\ __get_lst_info_df sample_tables (sample_flags three_inputs 1 0 "first")
       = Return lst
    /\ In (2, Some "chr21:300:G:A", [Some None; Some (Some 0); Some (Some 1)])
          (df_index_variant_kept out)
    /\ lst !! 1 = Some cohort2
    /\ In k (List.map o_key (variants_kept out))
    /\ fst (fst (fst k)) = Some "chr21:300:G:A"
    /\ [Some None; Some (Some 0); Some (Some 1)] !! 1 = Some (Some e)
    /\ match e with
       | Some p => exists r, cohort2 !! p = Some r /\ key_of r = k
       | None => ~ In k (List.map key_of cohort2)
       end.
Proof.
  assert (Hex : exists out,
            get_snp_list decimal sample_files sample_tables
              (sample_flags three_inputs 1 0 "first") = Return out)
    by (eexists; vm_compute; reflexivity).
  destruct Hex as [out Hout]. exists out.
  assert (Hin : In (2, Some "chr21:300:G:A",
                    [Some None; Some (Some 0); Some (Some 1)])
                   (df_index_variant_kept out)).
  { pose proof Hout as E. vm_compute in E. injection E as E. rewrite <- E.
    cbn [df_index_variant_kept]. right. left. reflexivity. }
  exists [cohort1; cohort2; cohort3].
  destruct (index_table_points_into_tables decimal sample_files sample_tables
              (sample_flags three_inputs 1 0 "first") out
              [cohort1; cohort2; cohort3] 2 (Some "chr21:300:G:A")
              [Some None; Some (Some 0); Some (Some 1)] 1 cohort2
              Hout eq_refl Hin eq_refl) as (k & e & H).
  exists k, e. split; [exact Hout|]. split; [reflexivity|].
  split; [exact Hin|]. split; [reflexivity|]. exact H.
Defined.

Lemma get_snp_list_needs_two_inputs_witness :
  length (flag_input (sample_flags ["c1.dose.vcf.gz"] 0 0 "first")) < 2
  /\ get_snp_list decimal sample_files sample_tables
       (sample_flags ["c1.dose.vcf.gz"] 0 0 "first")
     = Raise IndexError.
Proof.
  split; [cbn; lia|].
  apply (get_snp_list_needs_two_inputs decimal sample_files sample_tables
           (sample_flags ["c1.dose.vcf.gz"] 0 0 "first")).
  cbn. lia.
Defined.

Lemma get_snp_list_writes_every_variant_witness :
  (exists out,
     get_snp_list decimal sample_files sample_tables
       (sample_flags three_inputs 1 0 "weighted_average") = Return out
     /\ forall k,
          In k (List.map o_key (variants_kept out ++ variants_excluded out))
          <-> exists t, In t [cohort1; cohort2; cohort3]
                        /\ In k (List.map key_of t))
  /\ get_snp_list decimal sample_files header_only_tables
       (sample_flags three_inputs 1 0 "weighted_average") = Raise IndexError.
Proof.
  split.
  - apply (get_snp_list_writes_every_variant decimal sample_files sample_tables
             (sample_flags three_inputs 1 0 "weighted_average")
             [cohort1; cohort2; cohort3]).
    + reflexivity.
    + cbn. lia.
    + intros _. eexists. vm_compute. reflexivity.
    + right. exists cohort1. split; [now left|discriminate].
  - apply (get_snp_list_writes_every_variant decimal sample_files
             header_only_tables
             (sample_flags three_inputs 1 0 "weighted_average") [[]; []; []]).
    + reflexivity.
    + cbn. lia.
    + intros _. eexists. vm_compute. reflexivity.
    + discriminate.
    + repeat constructor.
Defined.

Section MissingColumns.
Variable to_numeric : string -> float64.
Variable gzip_open : string -> option (list string).

(** X21: [__process_output] raises KeyError, and writes nothing, when the
    frame lacks a group of columns it is asked for: one of the index
    columns, or the columns of one of the cohorts of '--input'. *)
Theorem process_output_missing_columns df flags cols :
  (exists X, In X cols /\ has_group df X = false)
  \/ n_groups df < length (flag_input flags) ->
  __process_output to_numeric gzip_open df flags cols = Raise KeyError.
Proof.
  intros H. unfold __process_output, index_frame.
  destruct (forallb (has_group df) cols) eqn:E.
  - destruct H as [[X [HX Hg]]|Hn].
    + rewrite forallb_forall in E. rewrite (E X HX) in Hg. discriminate.
    + rewrite bind_return, loop_missing_group by exact Hn. reflexivity.
  - reflexivity.
Qed.
End MissingColumns.

Lemma process_output_missing_columns_witness :
  ((exists X, In X [1; 2; 3] /\ has_group sample_df X = false)
   \/ n_groups sample_df
      < length (flag_input (sample_flags (three_inputs ++ ["c4.dose.vcf.gz"])
                              1 0 "mean")))
  /\ __process_output decimal sample_files sample_df
       (sample_flags (three_inputs ++ ["c4.dose.vcf.gz"]) 1 0 "mean") [1; 2; 3]
     = Raise KeyError.
Proof.
  assert (H : n_groups sample_df
              < length (flag_input (sample_flags (three_inputs ++ ["c4.dose.vcf.gz"])
                                      1 0 "mean")))
    by (vm_compute; lia).
  split; [right; exact H|].
  apply (process_output_missing_columns decimal sample_files sample_df
           (sample_flags (three_inputs ++ ["c4.dose.vcf.gz"]) 1 0 "mean") [1; 2; 3]).
  right. exact H.
Defined.
